(** * The import pipeline of the HeartSmiles backend

    A shallow embedding of [backend/config/openai.js] (extraction client and
    record validators), [backend/controllers/importController.js] (upload
    filter, file parser, pipeline orchestrator, persistence loop) and of the
    [create]/[getAll] operations of [backend/models/Participant.js] and
    [backend/models/Program.js].

    Conventions.
    - A JavaScript string is a [string]: a sequence of code units below 256.
    - An extracted record has the shape the extraction prompt prescribes:
      its scalar fields are strings, its list fields arrays of strings.  A
      field that may be [undefined] or [null] is an [option]; the source
      only ever tests such a field for truthiness before using it.
    - A thrown [Error] is represented by its [message].  A promise that
      stays pending for good is [NeverSettles], and a request that is never
      answered has the response [Unanswered].
    - The hosted model, the document store and the file system are explicit
      inputs and explicit state.  [fs.unlink] takes effect at once; a store
      call either succeeds or throws. *)

From Stdlib Require Import String Ascii List Bool Arith NArith Lia.
Import ListNotations.
Open Scope string_scope.
Open Scope nat_scope.

Set Implicit Arguments.

(** ** JavaScript strings *)

Module Js.

(** [WhiteSpace] and [LineTerminator] code units below 256: TAB, LF, VT, FF,
    CR, SP and NBSP.  These are what [String.prototype.trim] strips. *)
Definition is_space (c : ascii) : bool :=
  let n := nat_of_ascii c in
  ((9 <=? n) && (n <=? 13)) || (n =? 32) || (n =? 160).

Fixpoint trimStart (s : string) : string :=
  match s with
  | EmptyString => EmptyString
  | String c r => if is_space c then trimStart r else s
  end.

(** [trimEnd s]: a character is dropped when it is a space and everything
    after it was dropped as well. *)
Fixpoint trimEnd (s : string) : string :=
  match s with
  | EmptyString => EmptyString
  | String c r =>
      match trimEnd r with
      | EmptyString => if is_space c then EmptyString else String c EmptyString
      | r' => String c r'
      end
  end.

Definition trim (s : string) : string := trimEnd (trimStart s).

(** [String.prototype.toLowerCase] on code units below 256: [A]-[Z] and the
    Latin-1 capitals U+00C0-U+00DE (the sign U+00D7 apart) move up by 32. *)
Definition lower_char (c : ascii) : ascii :=
  let n := nat_of_ascii c in
  if ((65 <=? n) && (n <=? 90))
     || ((192 <=? n) && (n <=? 222) && negb (n =? 215))
  then ascii_of_nat (n + 32) else c.

Fixpoint toLowerCase (s : string) : string :=
  match s with
  | EmptyString => EmptyString
  | String c r => String (lower_char c) (toLowerCase r)
  end.

(** Truthiness of a string-or-missing value: [undefined], [null] and the
    empty string are falsy. *)
Definition truthy (v : option string) : bool :=
  match v with
  | None => false
  | Some s => negb (String.eqb s "")
  end.

(** [v || ''] *)
Definition or_empty (v : option string) : string :=
  match v with
  | Some s => s
  | None => ""
  end.

(** [v || []] *)
Definition or_nil {A} (v : option (list A)) : list A :=
  match v with
  | Some l => l
  | None => []
  end.

Definition is_digit (c : ascii) : bool :=
  let n := nat_of_ascii c in (48 <=? n) && (n <=? 57).

Definition is_dash (c : ascii) : bool := (nat_of_ascii c =? 45).

(** The regular expression [/^\d{4}-\d{2}-\d{2}$/] (no flags). *)
Definition match_ymd (s : string) : bool :=
  match list_ascii_of_string s with
  | [y1; y2; y3; y4; d1; m1; m2; d2; a1; a2] =>
      is_digit y1 && is_digit y2 && is_digit y3 && is_digit y4
      && is_dash d1 && is_digit m1 && is_digit m2
      && is_dash d2 && is_digit a1 && is_digit a2
  | _ => false
  end.

End Js.

(** ** Node's [path.extname] (POSIX) *)

Module Path.

(** The scanner state of [path.extname]; [None] stands for the index -1. *)
Record scan := {
  startDot : option nat;
  startPart : nat;
  endIdx : option nat;
  matchedSlash : bool;
  preDotState : option bool  (* None: 0, Some true: 1, Some false: -1 *)
}.

Definition scan0 : scan :=
  {| startDot := None; startPart := 0; endIdx := None;
     matchedSlash := true; preDotState := None |}.

Definition is_slash (c : ascii) : bool := (nat_of_ascii c =? 47).
Definition is_dot (c : ascii) : bool := (nat_of_ascii c =? 46).

(** The loop [for (i = path.length - 1; i >= 0; --i)]: [rev_chars] holds the
    code units at the indices [i], [i-1], ..., [0]. *)
Fixpoint scan_back (rev_chars : list ascii) (i : nat) (st : scan) : scan :=
  match rev_chars with
  | [] => st
  | c :: rest =>
      if is_slash c then
        if negb (matchedSlash st) then
          {| startDot := startDot st; startPart := i + 1;
             endIdx := endIdx st; matchedSlash := matchedSlash st;
             preDotState := preDotState st |}
        else scan_back rest (i - 1) st
      else
        let st1 :=
          match endIdx st with
          | None =>
              {| startDot := startDot st; startPart := startPart st;
                 endIdx := Some (i + 1); matchedSlash := false;
                 preDotState := preDotState st |}
          | Some _ => st
          end in
        let st2 :=
          if is_dot c then
            match startDot st1 with
            | None =>
                {| startDot := Some i; startPart := startPart st1;
                   endIdx := endIdx st1; matchedSlash := matchedSlash st1;
                   preDotState := preDotState st1 |}
            | Some _ =>
                {| startDot := startDot st1; startPart := startPart st1;
                   endIdx := endIdx st1; matchedSlash := matchedSlash st1;
                   preDotState := Some true |}
            end
          else
            match startDot st1 with
            | None => st1
            | Some _ =>
                {| startDot := startDot st1; startPart := startPart st1;
                   endIdx := endIdx st1; matchedSlash := matchedSlash st1;
                   preDotState := Some false |}
            end in
        scan_back rest (i - 1) st2
  end.

Definition extname (path : string) : string :=
  let st := scan_back (rev (list_ascii_of_string path))
                      (String.length path - 1) scan0 in
  match startDot st, endIdx st, preDotState st with
  | Some sd, Some e, Some pre =>
      if pre && (sd =? e - 1) && (sd =? startPart st + 1) then ""
      else substring sd (e - sd) path
  | _, _, _ => ""
  end.

End Path.

(** ** Data model *)

(** A [Row] of the spreadsheet: column header to cell text. *)
Definition Row := list (string * string).

(** The participant record the extraction returns (the shape the prompt of
    [processParticipantData] asks for); any field may be missing. *)
Module ParticipantData.
Record t := {
  name : option string;
  dateOfBirth : option string;
  address : option string;
  referralDate : option string;
  school : option string;
  identificationNumber : option string;
  programs : option (list string);
  notes : option (list string)
}.
End ParticipantData.

(** The program record the extraction returns. *)
Module ProgramData.
Record t := {
  name : option string;
  description : option string;
  participants : option (list string)
}.
End ProgramData.

(** A participant document: what [new Participant(data)] builds, with the
    identifier the store assigned.  The store's timestamps are left out. *)
Module ParticipantDoc.
Record t := {
  id : nat;
  name : string;
  dateOfBirth : string;
  address : string;
  referralDate : string;
  programs : list string;
  school : string;
  identificationNumber : string;
  headshotPictureUrl : string;
  uploadedPhotos : list string;
  notes : list string;
  isActive : bool
}.
End ParticipantDoc.

(** A program document: what [new Program(data)] builds, with its identifier. *)
Module ProgramDoc.
Record t := {
  id : nat;
  name : string;
  description : string;
  participants : list string;
  isActive : bool
}.
End ProgramDoc.

Record ValidationResult := {
  isValid : bool;
  errors : list string
}.

(** The outcome of a call that may throw: the value, or the thrown error's
    [message]. *)
Inductive outcome (A : Type) :=
| Ok (a : A)
| Threw (message : string).
Arguments Ok {A} a.
Arguments Threw {A} message.

(** What awaiting a promise gives: its outcome once it settles, or nothing
    at all when neither [resolve] nor [reject] is ever called. *)
Inductive promised (A : Type) :=
| Settled (result : outcome A)
| NeverSettles.
Arguments Settled {A} result.
Arguments NeverSettles {A}.

Coercion Settled : outcome >-> promised.

(** [array.push(x)] *)
Definition push {A : Type} (array : list A) (x : A) : list A :=
  (array ++ [x])%list.

(** ** Record validators ([config/openai.js]) *)

(** [!v || v.trim().length < n] *)
Definition missing_or_shorter (v : option string) (n : nat) : bool :=
  match v with
  | Some s => negb (Js.truthy (Some s)) || (String.length (Js.trim s) <? n)
  | None => true
  end.

Definition validateProgramData (program : ProgramData.t) : ValidationResult :=
  let errors0 : list string := [] in
  let errors1 :=
    if missing_or_shorter (ProgramData.name program) 2
    then push errors0 "Program name is required and must be at least 2 characters"
    else errors0 in
  let errors2 :=
    if missing_or_shorter (ProgramData.description program) 10
    then push errors1 "Program description is required and must be at least 10 characters"
    else errors1 in
  {| isValid := (List.length errors2 =? 0); errors := errors2 |}.

(** What Node's [new Date(s)] makes of a string of the shape [YYYY-MM-DD]: a
    valid date exactly when the month is 01-12 and the day 01-31 (days past
    the month's end roll over).  On strings of another shape [isValidDate]
    is false whatever the parser answers; they are given [false] here. *)
Definition digit_value (c : ascii) : nat := nat_of_ascii c - 48.

Definition node_Date_valid (s : string) : bool :=
  match list_ascii_of_string s with
  | [_; _; _; _; _; m1; m2; _; a1; a2] =>
      let month := 10 * digit_value m1 + digit_value m2 in
      let day := 10 * digit_value a1 + digit_value a2 in
      Js.match_ymd s && (1 <=? month) && (month <=? 12)
      && (1 <=? day) && (day <=? 31)
  | _ => false
  end.

Section Validator.

(** [Date_valid s]: [new Date(s)] is a [Date] whose time value is not NaN.
    The date parser belongs to the JavaScript engine. *)
Variable Date_valid : string -> bool.

Definition isValidDate (dateString : string) : bool :=
  Date_valid dateString && Js.match_ymd dateString.

(** [v && !isValidDate(v)] *)
Definition present_and_invalid_date (v : option string) : bool :=
  match v with
  | Some s => Js.truthy (Some s) && negb (isValidDate s)
  | None => false
  end.

Definition validateParticipantData (participant : ParticipantData.t)
  : ValidationResult :=
  let errors0 : list string := [] in
  let errors1 :=
    if missing_or_shorter (ParticipantData.name participant) 2
    then push errors0 "Name is required and must be at least 2 characters"
    else errors0 in
  let errors2 :=
    if present_and_invalid_date (ParticipantData.dateOfBirth participant)
    then push errors1 "Date of birth must be a valid date in YYYY-MM-DD format"
    else errors1 in
  let errors3 :=
    if present_and_invalid_date (ParticipantData.referralDate participant)
    then push errors2 "Referral date must be a valid date in YYYY-MM-DD format"
    else errors2 in
  let errors4 :=
    if missing_or_shorter (ParticipantData.identificationNumber participant) 3
    then push errors3 "Identification number is required and must be at least 3 characters"
    else errors3 in
  {| isValid := (List.length errors4 =? 0); errors := errors4 |}.

End Validator.

(** ** The document store *)

(** The two collections, the next identifier the store hands out, and the
    outcomes of the coming store calls: [Some m] makes the next call throw
    an error with message [m]; [None], or an exhausted list, lets it succeed. *)
Record firestore := {
  participants : list ParticipantDoc.t;
  programs : list ProgramDoc.t;
  next_id : nat;
  faults : list (option string)
}.

(** One round trip to the store: consumes the head of [faults]. *)
Definition store_call (db : firestore) : option string * firestore :=
  match faults db with
  | [] => (None, db)
  | f :: rest =>
      (f, {| participants := participants db; programs := programs db;
             next_id := next_id db; faults := rest |})
  end.

Module Participant.

(** The constructor, identifier apart. *)
Definition construct (newId : nat) (data : ParticipantData.t)
  : ParticipantDoc.t :=
  {| ParticipantDoc.id := newId;
     ParticipantDoc.name := Js.or_empty (ParticipantData.name data);
     ParticipantDoc.dateOfBirth := Js.or_empty (ParticipantData.dateOfBirth data);
     ParticipantDoc.address := Js.or_empty (ParticipantData.address data);
     ParticipantDoc.referralDate := Js.or_empty (ParticipantData.referralDate data);
     ParticipantDoc.programs := Js.or_nil (ParticipantData.programs data);
     ParticipantDoc.school := Js.or_empty (ParticipantData.school data);
     ParticipantDoc.identificationNumber :=
       Js.or_empty (ParticipantData.identificationNumber data);
     ParticipantDoc.headshotPictureUrl := "";
     ParticipantDoc.uploadedPhotos := [];
     ParticipantDoc.notes := Js.or_nil (ParticipantData.notes data);
     ParticipantDoc.isActive := true |}.

Definition create (participantData : ParticipantData.t) (db : firestore)
  : outcome ParticipantDoc.t * firestore :=
  let (fault, db1) := store_call db in
  match fault with
  | Some m => (Threw ("Error creating participant: " ++ m), db1)
  | None =>
      let participant := construct (next_id db1) participantData in
      (Ok participant,
       {| participants := push (participants db1) participant;
          programs := programs db1;
          next_id := S (next_id db1);
          faults := faults db1 |})
  end.

(** [getAll()] with no filter. *)
Definition getAll (db : firestore)
  : outcome (list ParticipantDoc.t) * firestore :=
  let (fault, db1) := store_call db in
  match fault with
  | Some m => (Threw ("Error getting participants: " ++ m), db1)
  | None => (Ok (participants db1), db1)
  end.

End Participant.

Module Program.

Definition construct (newId : nat) (data : ProgramData.t) : ProgramDoc.t :=
  {| ProgramDoc.id := newId;
     ProgramDoc.name := Js.or_empty (ProgramData.name data);
     ProgramDoc.description := Js.or_empty (ProgramData.description data);
     ProgramDoc.participants := Js.or_nil (ProgramData.participants data);
     ProgramDoc.isActive := true |}.

Definition create (programData : ProgramData.t) (db : firestore)
  : outcome ProgramDoc.t * firestore :=
  let (fault, db1) := store_call db in
  match fault with
  | Some m => (Threw ("Error creating program: " ++ m), db1)
  | None =>
      let program := construct (next_id db1) programData in
      (Ok program,
       {| participants := participants db1;
          programs := push (programs db1) program;
          next_id := S (next_id db1);
          faults := faults db1 |})
  end.

Definition getAll (db : firestore)
  : outcome (list ProgramDoc.t) * firestore :=
  let (fault, db1) := store_call db in
  match fault with
  | Some m => (Threw ("Error getting programs: " ++ m), db1)
  | None => (Ok (programs db1), db1)
  end.

End Program.

(** ** Extraction client ([config/openai.js]) *)

(** What reading the expected key of the parsed response gives. *)
Inductive key_value (A : Type) :=
| KeyAbsent                 (* the object has no such key: [undefined] *)
| KeyFalsy                  (* [null], [false], [0] or the empty string *)
| KeyArray (records : list A)
| KeyOther.                 (* a truthy value that is not an array *)
Arguments KeyAbsent {A}.
Arguments KeyFalsy {A}.
Arguments KeyArray {A} records.
Arguments KeyOther {A}.

(** The value [JSON.parse] returns, as far as the client looks into it. *)
Inductive json (A : Type) :=
| JsonNull
| JsonObject (expected : key_value A)
| JsonOther.                (* a number, a string, a boolean or an array *)
Arguments JsonNull {A}.
Arguments JsonObject {A} expected.
Arguments JsonOther {A}.

(** One call of [openai.chat.completions.create] and what its answer holds. *)
Inductive completion (A : Type) :=
| CallRejected (message : string)
    (* the call itself failed *)
| NoContent (message : string)
    (* no [choices[0].message.content] to trim: a TypeError *)
| NotJson (message : string)
    (* [JSON.parse(content.trim())] threw a SyntaxError *)
| Parsed (value : json A).
    (* [JSON.parse(content.trim())] returned [value] *)
Arguments CallRejected {A} message.
Arguments NoContent {A} message.
Arguments NotJson {A} message.
Arguments Parsed {A} value.

(** [parsedResponse.key || []], as the controller receives it. *)
Inductive extracted (A : Type) :=
| DataArray (records : list A)
| DataNotArray.
Arguments DataArray {A} records.
Arguments DataNotArray {A}.

(** [{success: true, data}] or [{success: false, error}]. *)
Inductive aiResult (A : Type) :=
| AiSuccess (data : extracted A)
| AiFailure (error : string).
Arguments AiSuccess {A} data.
Arguments AiFailure {A} error.

(** The TypeError of reading [key] from [null]. *)
Definition null_property_message (key : string) : string :=
  "Cannot read properties of null (reading '" ++ key ++ "')".

(** [parsedResponse.key || []] *)
Definition key_or_empty {A} (v : key_value A) : extracted A :=
  match v with
  | KeyArray l => DataArray l
  | KeyOther => DataNotArray
  | KeyAbsent | KeyFalsy => DataArray []
  end.

(** The hosted model: the answer to the one prompt built from the rows. *)
Definition model (A : Type) := list Row -> completion A.

Definition processParticipantData (openai : model ParticipantData.t)
  (data : list Row) : aiResult ParticipantData.t :=
  match openai data with
  | CallRejected m => AiFailure m
  | NoContent m => AiFailure m
  | NotJson m => AiFailure m
  | Parsed JsonNull => AiFailure (null_property_message "participants")
  | Parsed (JsonObject v) => AiSuccess (key_or_empty v)
  | Parsed JsonOther => AiSuccess (DataArray [])
  end.

Definition processProgramData (openai : model ProgramData.t)
  (data : list Row) : aiResult ProgramData.t :=
  match openai data with
  | CallRejected m => AiFailure m
  | NoContent m => AiFailure m
  | NotJson m => AiFailure m
  | Parsed JsonNull => AiFailure (null_property_message "programs")
  | Parsed (JsonObject v) => AiSuccess (key_or_empty v)
  | Parsed JsonOther => AiSuccess (DataArray [])
  end.

(** ** Uploaded files *)

(** A file on disk, by what the two readers make of it: the rows
    [csv-parser] streams (or the stream's error) and the workbook
    [XLSX.readFile] returns (or the error it throws), a workbook being its
    sheets in order, each already turned into rows. *)
Record file_content := {
  as_csv : outcome (list Row);
  as_workbook : outcome (list (string * list Row))
}.

Definition filesystem := list (string * file_content).

Fixpoint read_file (fs : filesystem) (filePath : string) : option file_content :=
  match fs with
  | [] => None
  | (p, c) :: rest => if String.eqb p filePath then Some c else read_file rest filePath
  end.

(** [fs.unlink(path, ...)] *)
Definition unlink (filePath : string) (fs : filesystem) : filesystem :=
  filter (fun entry => negb (String.eqb (fst entry) filePath)) fs.

Definition exists_file (fs : filesystem) (filePath : string) : bool :=
  match read_file fs filePath with
  | Some _ => true
  | None => false
  end.

Definition no_such_file (filePath : string) : string :=
  "ENOENT: no such file or directory, open '" ++ filePath ++ "'".

(** ** File parser ([ImportController.parseFile]) *)

(** The promise of [parseCSV] is resolved by the [end] and rejected by the
    [error] of the [csv()] transform, which is where the listeners are.
    When the file cannot be opened it is the read stream that emits
    [error]; nobody listens there, the transform never ends, and the promise
    stays pending. *)
Definition parseCSV (fs : filesystem) (filePath : string)
  : promised (list Row) :=
  match read_file fs filePath with
  | Some c => Settled (as_csv c)
  | None => NeverSettles
  end.

(** [XLSX.readFile(filePath)] *)
Definition XLSX_readFile (fs : filesystem) (filePath : string)
  : outcome (list (string * list Row)) :=
  match read_file fs filePath with
  | Some c => as_workbook c
  | None => Threw (no_such_file filePath)
  end.

Definition parseExcel (fs : filesystem) (filePath : string) : outcome (list Row) :=
  match XLSX_readFile fs filePath with
  | Ok workbook =>
      match workbook with
      | (_, rows) :: _ => Ok rows
      | [] => Ok []
      end
  | Threw m => Threw ("Error parsing Excel file: " ++ m)
  end.

Definition parseFile (fs : filesystem) (filePath : string)
  : promised (list Row) :=
  let fileExtension := Js.toLowerCase (Path.extname filePath) in
  if String.eqb fileExtension ".csv" then parseCSV fs filePath
  else if String.eqb fileExtension ".xlsx" || String.eqb fileExtension ".xls"
  then Settled (parseExcel fs filePath)
  else Settled (Threw "Unsupported file format").

(** ** Upload middleware ([multer] as configured in [importController.js]) *)

(** The file part of the multipart request. *)
Record file_part := {
  fieldname : string;
  part_originalname : string;
  part_mimetype : string;
  part_size : N;
  part_content : file_content
}.

(** [req.file] once the upload is stored. *)
Record uploaded_file := {
  originalname : string;
  mimetype : string;
  size : N;
  path : string
}.

Definition allowedTypes : list string :=
  ["text/csv"; "application/csv"; "text/plain"; "application/vnd.ms-excel";
   "application/vnd.openxmlformats-officedocument.spreadsheetml.sheet"].

Definition allowedExtensions : list string := [".csv"; ".xlsx"; ".xls"].

(** [array.includes(x)] on strings *)
Definition includes (array : list string) (x : string) : bool :=
  existsb (String.eqb x) array.

(** The [fileFilter]: [true] for [cb(null, true)], [false] for the error
    [Only CSV and Excel files are allowed]. *)
Definition fileFilter (file : file_part) : bool :=
  let fileExtension := Js.toLowerCase (Path.extname (part_originalname file)) in
  includes allowedTypes (part_mimetype file)
  || includes allowedExtensions fileExtension.

Definition fileSizeLimit : N := (10 * 1024 * 1024)%N.

(** An error handed to [next]: a [MulterError] with its [code], or a plain
    [Error]. *)
Record js_error := {
  isMulterError : bool;
  code : string;
  message : string
}.

Definition filter_error : js_error :=
  {| isMulterError := false; code := "";
     message := "Only CSV and Excel files are allowed" |}.

Definition multer_error (c m : string) : js_error :=
  {| isMulterError := true; code := c; message := m |}.

(** The storage's [filename]: [`${timestamp}_${file.originalname}`] under the
    temporary directory. *)
Definition stored_path (tempDir timestamp : string) (file : file_part) : string :=
  tempDir ++ "/" ++ timestamp ++ "_" ++ part_originalname file.

(** [upload.single('file')], by multer's contract: a part with no field
    name is refused with [MISSING_FIELD_NAME]; a part whose file name is
    empty is skipped, as if no file had been sent; a part under another
    field is unexpected; the filter runs before anything is stored; a file
    larger than [limits.fileSize] is cut off with [LIMIT_FILE_SIZE] and its
    partial copy removed; otherwise the file is stored and described in
    [req.file].  With no file part there is no [req.file]. *)
Definition uploadSingle (tempDir timestamp : string) (part : option file_part)
  (fs : filesystem) : (js_error + option uploaded_file) * filesystem :=
  match part with
  | None => (inr None, fs)
  | Some file =>
      if String.eqb (fieldname file) ""
      then (inl (multer_error "MISSING_FIELD_NAME" "Field name missing"), fs)
      else if String.eqb (part_originalname file) "" then (inr None, fs)
      else if negb (String.eqb (fieldname file) "file")
      then (inl (multer_error "LIMIT_UNEXPECTED_FILE" "Unexpected field"), fs)
      else if negb (fileFilter file) then (inl filter_error, fs)
      else if (fileSizeLimit <? part_size file)%N
      then (inl (multer_error "LIMIT_FILE_SIZE" "File too large"), fs)
      else
        let p := stored_path tempDir timestamp file in
        (inr (Some {| originalname := part_originalname file;
                      mimetype := part_mimetype file;
                      size := part_size file;
                      path := p |}),
         (p, part_content file) :: unlink p fs)
  end.

(** ** Responses *)

(** What a handler sends; [Unanswered] when it never sends anything. *)
Inductive response (R D : Type) :=
| Failure (status : nat) (error : string) (details : option string)
| DryRunCompleted (totalProcessed validCount invalidCount : nat)
    (valid : list R) (invalid : list (R * list string))
| ImportCompleted (totalProcessed savedCount saveErrorCount validationErrors : nat)
    (saved : list D) (saveErrors : list (R * string))
    (invalid : list (R * list string))
| Unanswered.
Arguments Failure {R D} status error details.
Arguments Unanswered {R D}.
Arguments DryRunCompleted {R D} totalProcessed validCount invalidCount valid invalid.
Arguments ImportCompleted {R D} totalProcessed savedCount saveErrorCount
  validationErrors saved saveErrors invalid.

(** [ImportController.handleUploadError]: the response it sends, or [None]
    when it calls [next(error)]. *)
Definition handleUploadError {R D} (error : js_error) : option (response R D) :=
  if isMulterError error && String.eqb (code error) "LIMIT_FILE_SIZE"
  then Some (Failure 400 "File size too large. Maximum size is 10MB." None)
  else if isMulterError error && String.eqb (code error) "LIMIT_UNEXPECTED_FILE"
  then Some (Failure 400 "Unexpected file field." None)
  else if String.eqb (message error) "Only CSV and Excel files are allowed"
  then Some (Failure 400 (message error) None)
  else None.

(** ** Persistence loop *)

(** [savedX], [saveErrors] and the store, as the loop carries them. *)
Record saving (R D : Type) := {
  saved_docs : list D;
  save_errors : list (R * string);
  store : firestore
}.
Arguments saved_docs {R D} s.
Arguments save_errors {R D} s.
Arguments store {R D} s.

Definition record_error {R D} (s : saving R D) (r : R) (m : string)
  (db : firestore) : saving R D :=
  {| saved_docs := saved_docs s;
     save_errors := push (save_errors s) (r, m);
     store := db |}.

Definition record_saved {R D} (s : saving R D) (d : D) (db : firestore)
  : saving R D :=
  {| saved_docs := push (saved_docs s) d;
     save_errors := save_errors s;
     store := db |}.

(** [p.identificationNumber === participantData.identificationNumber] *)
Definition same_identificationNumber (participantData : ParticipantData.t)
  (p : ParticipantDoc.t) : bool :=
  match ParticipantData.identificationNumber participantData with
  | Some i => String.eqb (ParticipantDoc.identificationNumber p) i
  | None => false
  end.

(** The body of [for (const participantData of validParticipants)]. *)
Definition saveParticipant (s : saving ParticipantData.t ParticipantDoc.t)
  (participantData : ParticipantData.t)
  : saving ParticipantData.t ParticipantDoc.t :=
  let (existing, db1) := Participant.getAll (store s) in
  match existing with
  | Threw m => record_error s participantData m db1
  | Ok existingParticipants =>
      match find (same_identificationNumber participantData) existingParticipants with
      | Some _ =>
          record_error s participantData
            "Participant with this identification number already exists" db1
      | None =>
          let (created, db2) := Participant.create participantData db1 in
          match created with
          | Ok participant => record_saved s participant db2
          | Threw m => record_error s participantData m db2
          end
      end
  end.

Definition saveParticipants (validParticipants : list ParticipantData.t)
  (db : firestore) : saving ParticipantData.t ParticipantDoc.t :=
  fold_left saveParticipant validParticipants
    {| saved_docs := []; save_errors := []; store := db |}.

(** [existingPrograms.find(p => p.name.toLowerCase() ===
    programData.name.toLowerCase())]: the callback throws a TypeError when it
    runs on a record without a name. *)
Definition find_same_name (programData : ProgramData.t)
  (existingPrograms : list ProgramDoc.t) : outcome (option ProgramDoc.t) :=
  match ProgramData.name programData with
  | Some n =>
      Ok (find (fun p => String.eqb (Js.toLowerCase (ProgramDoc.name p))
                                    (Js.toLowerCase n)) existingPrograms)
  | None =>
      match existingPrograms with
      | [] => Ok None
      | _ :: _ => Threw "Cannot read properties of undefined (reading 'toLowerCase')"
      end
  end.

(** The body of [for (const programData of validPrograms)]. *)
Definition saveProgram (s : saving ProgramData.t ProgramDoc.t)
  (programData : ProgramData.t) : saving ProgramData.t ProgramDoc.t :=
  let (existing, db1) := Program.getAll (store s) in
  match existing with
  | Threw m => record_error s programData m db1
  | Ok existingPrograms =>
      match find_same_name programData existingPrograms with
      | Threw m => record_error s programData m db1
      | Ok (Some _) =>
          record_error s programData "Program with this name already exists" db1
      | Ok None =>
          let (created, db2) := Program.create programData db1 in
          match created with
          | Ok program => record_saved s program db2
          | Threw m => record_error s programData m db2
          end
      end
  end.

Definition savePrograms (validPrograms : list ProgramData.t) (db : firestore)
  : saving ProgramData.t ProgramDoc.t :=
  fold_left saveProgram validPrograms
    {| saved_docs := []; save_errors := []; store := db |}.

(** ** Pipeline orchestrator ([ImportController.importParticipants],
    [ImportController.importPrograms]) *)

Record world := {
  db : firestore;
  files : filesystem
}.

(** [req]: [req.file] and the [dryRun] field of [req.body]. *)
Record request := {
  file : option uploaded_file;
  dryRun : option string
}.

(** [const { dryRun = 'false' } = req.body; dryRun === 'true'] *)
Definition isDryRun (req : request) : bool :=
  String.eqb (match dryRun req with Some v => v | None => "false" end) "true".

(** The [catch] of the handlers: unlink [req.file.path] if there is one, then
    answer 500 with the error's message. *)
Definition caught {R D} (f : uploaded_file) (m : string) (w : world)
  : response R D * world :=
  (Failure 500 m None,
   {| db := db w;
      files := if negb (String.eqb (path f) "")
               then unlink (path f) (files w) else files w |}).

Definition not_a_function (what : string) : string :=
  what ++ " is not a function".

Section Orchestrator.

Variable Date_valid : string -> bool.

Definition importParticipants (openai : model ParticipantData.t)
  (req : request) (w : world)
  : response ParticipantData.t ParticipantDoc.t * world :=
  match file req with
  | None => (Failure 400 "No file uploaded" None, w)
  | Some f =>
      match parseFile (files w) (path f) with
      | NeverSettles => (Unanswered, w)
      | Settled (Threw m) => caught f m w
      | Settled (Ok rawData) =>
          match processParticipantData openai rawData with
          | AiFailure e =>
              (Failure 500 "Failed to process data with AI" (Some e), w)
          | AiSuccess DataNotArray =>
              caught f (not_a_function "processedParticipants.map") w
          | AiSuccess (DataArray processedParticipants) =>
              let validationResults :=
                map (fun participant =>
                       (participant, validateParticipantData Date_valid participant))
                    processedParticipants in
              let validParticipants :=
                map fst (filter (fun result => isValid (snd result))
                                validationResults) in
              let invalidParticipants :=
                map (fun result => (fst result, errors (snd result)))
                    (filter (fun result => negb (isValid (snd result)))
                            validationResults) in
              if isDryRun req then
                (DryRunCompleted (List.length processedParticipants)
                   (List.length validParticipants)
                   (List.length invalidParticipants)
                   validParticipants invalidParticipants,
                 {| db := db w; files := unlink (path f) (files w) |})
              else
                let s := saveParticipants validParticipants (db w) in
                (ImportCompleted (List.length processedParticipants)
                   (List.length (saved_docs s))
                   (List.length (save_errors s))
                   (List.length invalidParticipants)
                   (saved_docs s) (save_errors s) invalidParticipants,
                 {| db := store s; files := unlink (path f) (files w) |})
          end
      end
  end.

End Orchestrator.

Definition importPrograms (openai : model ProgramData.t)
  (req : request) (w : world)
  : response ProgramData.t ProgramDoc.t * world :=
  match file req with
  | None => (Failure 400 "No file uploaded" None, w)
  | Some f =>
      match parseFile (files w) (path f) with
      | NeverSettles => (Unanswered, w)
      | Settled (Threw m) => caught f m w
      | Settled (Ok rawData) =>
          match processProgramData openai rawData with
          | AiFailure e =>
              (Failure 500 "Failed to process data with AI" (Some e), w)
          | AiSuccess DataNotArray =>
              caught f (not_a_function "processedPrograms.map") w
          | AiSuccess (DataArray processedPrograms) =>
              let validationResults :=
                map (fun program => (program, validateProgramData program))
                    processedPrograms in
              let validPrograms :=
                map fst (filter (fun result => isValid (snd result))
                                validationResults) in
              let invalidPrograms :=
                map (fun result => (fst result, errors (snd result)))
                    (filter (fun result => negb (isValid (snd result)))
                            validationResults) in
              if isDryRun req then
                (DryRunCompleted (List.length processedPrograms)
                   (List.length validPrograms)
                   (List.length invalidPrograms)
                   validPrograms invalidPrograms,
                 {| db := db w; files := unlink (path f) (files w) |})
              else
                let s := savePrograms validPrograms (db w) in
                (ImportCompleted (List.length processedPrograms)
                   (List.length (saved_docs s))
                   (List.length (save_errors s))
                   (List.length invalidPrograms)
                   (saved_docs s) (save_errors s) invalidPrograms,
                 {| db := store s; files := unlink (path f) (files w) |})
          end
      end
  end.

(** ** The routes ([routes/import.js]): upload middleware, its error handler,
    then the pipeline.  Authentication runs before and is not modelled. *)

Inductive routed (R D : Type) :=
| Responded (r : response R D)
| PassedOn (error : js_error).   (* [next(error)]: left to the framework *)
Arguments Responded {R D} r.
Arguments PassedOn {R D} error.

(** What the client sends: the file part, if any, and the [dryRun] field. *)
Record upload_request := {
  part : option file_part;
  body_dryRun : option string
}.

Definition postParticipants (Date_valid : string -> bool)
  (openai : model ParticipantData.t) (tempDir timestamp : string)
  (u : upload_request) (w : world)
  : routed ParticipantData.t ParticipantDoc.t * world :=
  match uploadSingle tempDir timestamp (part u) (files w) with
  | (inl error, fs) =>
      (match handleUploadError error with
       | Some r => Responded r
       | None => PassedOn error
       end, {| db := db w; files := fs |})
  | (inr f, fs) =>
      let (r, w') := importParticipants Date_valid openai
                       {| file := f; dryRun := body_dryRun u |}
                       {| db := db w; files := fs |} in
      (Responded r, w')
  end.

Definition postPrograms (openai : model ProgramData.t)
  (tempDir timestamp : string) (u : upload_request) (w : world)
  : routed ProgramData.t ProgramDoc.t * world :=
  match uploadSingle tempDir timestamp (part u) (files w) with
  | (inl error, fs) =>
      (match handleUploadError error with
       | Some r => Responded r
       | None => PassedOn error
       end, {| db := db w; files := fs |})
  | (inr f, fs) =>
      let (r, w') := importPrograms openai
                       {| file := f; dryRun := body_dryRun u |}
                       {| db := db w; files := fs |} in
      (Responded r, w')
  end.

(** A sequence of requests to one handler, each with the model's answer for
    it, run one after the other. *)
Fixpoint run_all {Q S Resp : Type} (handler : Q -> S -> Resp * S)
  (requests : list Q) (w : S) : list Resp * S :=
  match requests with
  | [] => ([], w)
  | q :: rest =>
      let (r, w1) := handler q w in
      let (rs, w2) := run_all handler rest w1 in
      (r :: rs, w2)
  end.

(** ** Sample data *)

Definition ana : ParticipantData.t :=
  {| ParticipantData.name := Some "Ana Lopez";
     ParticipantData.dateOfBirth := None;
     ParticipantData.address := Some "12 Elm Street";
     ParticipantData.referralDate := Some "";
     ParticipantData.school := Some "Lincoln High";
     ParticipantData.identificationNumber := Some "HS-001";
     ParticipantData.programs := Some ["Art Club"];
     ParticipantData.notes := Some [] |}.

Definition ben : ParticipantData.t :=
  {| ParticipantData.name := Some "Ben Ortiz";
     ParticipantData.dateOfBirth := Some "2009-04-17";
     ParticipantData.address := Some "";
     ParticipantData.referralDate := Some "2024-02-20";
     ParticipantData.school := Some "Lincoln High";
     ParticipantData.identificationNumber := Some "B7";
     ParticipantData.programs := None;
     ParticipantData.notes := None |}.

Definition dan : ParticipantData.t :=
  {| ParticipantData.name := Some "Dan Reyes";
     ParticipantData.dateOfBirth := Some "2008-11-05";
     ParticipantData.address := Some "3 Oak Avenue";
     ParticipantData.referralDate := Some "2024-01-15";
     ParticipantData.school := Some "Roosevelt Middle";
     ParticipantData.identificationNumber := Some "HS-002";
     ParticipantData.programs := Some [];
     ParticipantData.notes := Some ["Referred by school counselor"] |}.

Definition art_club : ProgramData.t :=
  {| ProgramData.name := Some "Art Club";
     ProgramData.description := Some "Weekly painting and drawing sessions";
     ProgramData.participants := Some ["Ana Lopez"] |}.

Definition art_club_shouting : ProgramData.t :=
  {| ProgramData.name := Some "ART CLUB";
     ProgramData.description := Some "The same club, typed in capitals";
     ProgramData.participants := None |}.

Definition empty_store : firestore :=
  {| participants := []; programs := []; next_id := 0; faults := [] |}.

(** A stored participant whose identification number is Ana's in lower
    case, and a stored program. *)
Definition carla_doc : ParticipantDoc.t :=
  {| ParticipantDoc.id := 0;
     ParticipantDoc.name := "Carla Diaz";
     ParticipantDoc.dateOfBirth := "2010-09-01";
     ParticipantDoc.address := "";
     ParticipantDoc.referralDate := "";
     ParticipantDoc.programs := [];
     ParticipantDoc.school := "Lincoln High";
     ParticipantDoc.identificationNumber := "hs-001";
     ParticipantDoc.headshotPictureUrl := "";
     ParticipantDoc.uploadedPhotos := [];
     ParticipantDoc.notes := [];
     ParticipantDoc.isActive := true |}.

Definition art_club_doc : ProgramDoc.t :=
  {| ProgramDoc.id := 1;
     ProgramDoc.name := "Art Club";
     ProgramDoc.description := "Weekly painting and drawing sessions";
     ProgramDoc.participants := [];
     ProgramDoc.isActive := true |}.

Definition sample_store : firestore :=
  {| participants := [carla_doc]; programs := [art_club_doc];
     next_id := 2; faults := [] |}.

Definition no_saving (R D : Type) (d : firestore) : saving R D :=
  {| saved_docs := []; save_errors := []; store := d |}.

(** An uploaded spreadsheet of two rows, and the temporary files it is
    stored under. *)
Definition two_rows : list Row :=
  [[("Name", "Ana Lopez"); ("ID", "HS-001")];
   [("Name", "Ben Ortiz"); ("ID", "B7")]].

Definition sheet_file : file_content :=
  {| as_csv := Ok two_rows; as_workbook := Ok [("Sheet1", two_rows)] |}.

Definition corrupt_file : file_content :=
  {| as_csv := Ok []; as_workbook := Threw "Unsupported ZIP file" |}.

Definition temp_csv : string := "/app/backend/temp/1700000000000_youth.csv".
Definition temp_xlsx : string := "/app/backend/temp/1700000000001_youth.XLSX".
Definition temp_txt : string := "/app/backend/temp/1700000000002_notes.txt".

Definition sample_world : world :=
  {| db := sample_store;
     files := [(temp_csv, sheet_file); (temp_xlsx, corrupt_file);
               (temp_txt, sheet_file)] |}.

Definition req_file (p name type : string) : uploaded_file :=
  {| originalname := name; mimetype := type; size := 120%N; path := p |}.

Definition csv_request (dry : option string) : request :=
  {| file := Some (req_file temp_csv "youth.csv" "text/csv"); dryRun := dry |}.

(** Answers of the hosted model. *)
Definition answers_ana_ben : model ParticipantData.t :=
  fun _ => Parsed (JsonObject (KeyArray [ana; ben])).

Definition answers_ana_dan : model ParticipantData.t :=
  fun _ => Parsed (JsonObject (KeyArray [ana; dan])).

Definition answers_art_club : model ProgramData.t :=
  fun _ => Parsed (JsonObject (KeyArray [art_club; art_club_shouting])).

Definition answers_prose {A : Type} : model A :=
  fun _ => NotJson "Unexpected token H in JSON at position 0".

Definition answers_null {A : Type} : model A :=
  fun _ => Parsed JsonNull.

Definition answers_other_key {A : Type} : model A :=
  fun _ => Parsed (JsonObject KeyAbsent).


(** A spreadsheet sent with a MIME type that is not on the list. *)
Definition csv_part : file_part :=
  {| fieldname := "file"; part_originalname := "Youth.CSV";
     part_mimetype := "application/octet-stream"; part_size := 2048%N;
     part_content := sheet_file |}.

(** A picture: neither the extension nor the MIME type is allowed. *)
Definition photo_part : file_part :=
  {| fieldname := "file"; part_originalname := "team.PNG";
     part_mimetype := "image/png"; part_size := 120%N;
     part_content := corrupt_file |}.

Definition dry_participant_requests
  : list (model ParticipantData.t * request) :=
  [(answers_ana_ben, csv_request (Some "true"));
   (answers_prose, csv_request (Some "true"));
   (answers_ana_ben,
    {| file := Some (req_file temp_txt "notes.txt" "text/plain");
       dryRun := Some "true" |})].

Definition dry_program_requests : list (model ProgramData.t * request) :=
  [(answers_art_club, csv_request (Some "true"));
   (answers_art_club, csv_request (Some "true"))].

(** The parsed response is not an object holding the expected key. *)
Definition lacks_expected_key {A : Type} (v : json A) : bool :=
  match v with
  | JsonNull | JsonOther | JsonObject KeyAbsent => true
  | JsonObject _ => false
  end.

(** The first sheet's rows, none if the workbook has no sheet. *)
Definition first_sheet (workbook : list (string * list Row)) : list Row :=
  match workbook with
  | (_, rows) :: _ => rows
  | [] => []
  end.

(** The two date fields of a participant record and the message the
    validator has for each. *)
Inductive date_field := DateOfBirth | ReferralDate.

Definition date_of (f : date_field) (p : ParticipantData.t) : option string :=
  match f with
  | DateOfBirth => ParticipantData.dateOfBirth p
  | ReferralDate => ParticipantData.referralDate p
  end.

Definition other_date (f : date_field) : date_field :=
  match f with
  | DateOfBirth => ReferralDate
  | ReferralDate => DateOfBirth
  end.

Definition date_message (f : date_field) : string :=
  match f with
  | DateOfBirth => "Date of birth must be a valid date in YYYY-MM-DD format"
  | ReferralDate => "Referral date must be a valid date in YYYY-MM-DD format"
  end.

(** ** Letter case *)

(** The capitals among the code units below 256: [A]-[Z] and the Latin-1
    capitals U+00C0-U+00DE, the multiplication sign U+00D7 apart. *)
Definition is_capital (n : nat) : Prop :=
  65 <= n <= 90 \/ (192 <= n <= 222 /\ n <> 215).

(** Two code units are the same letter when they are the same unit, or one
    is a capital and the other its small letter, 32 above it. *)
Definition same_letter (a b : ascii) : Prop :=
  a = b
  \/ (is_capital (nat_of_ascii a) /\ nat_of_ascii b = nat_of_ascii a + 32)
  \/ (is_capital (nat_of_ascii b) /\ nat_of_ascii a = nat_of_ascii b + 32).

(** Two strings are equal up to letter case: of the same length, and letter
    by letter the same. *)
Inductive same_ignoring_case : string -> string -> Prop :=
| same_empty : same_ignoring_case "" ""
| same_letters (a b : ascii) (r r' : string) :
    same_letter a b -> same_ignoring_case r r' ->
    same_ignoring_case (String a r) (String b r').

(** ** What a response reports *)

(** The documents a response lists as saved. *)
Definition saved_of {R D : Type} (r : response R D) : list D :=
  match r with
  | ImportCompleted _ _ _ _ saved _ _ => saved
  | _ => []
  end.

(** Every count of a summary is the length of the list it summarises, and
    the counts add up to [totalProcessed]. *)
Definition accounted {R D : Type} (r : response R D) : Prop :=
  match r with
  | Failure _ _ _ | Unanswered => True
  | DryRunCompleted total validCount invalidCount valid invalid =>
      validCount = List.length valid
      /\ invalidCount = List.length invalid
      /\ total = validCount + invalidCount
  | ImportCompleted total savedCount saveErrorCount validationErrors
      saved saveErrors invalid =>
      savedCount = List.length saved
      /\ saveErrorCount = List.length saveErrors
      /\ validationErrors = List.length invalid
      /\ total = savedCount + saveErrorCount + validationErrors
  end.

(** The status of a response: a completed run answers 200, and a request
    left unanswered has none. *)
Definition status_of {R D : Type} (r : response R D) : option nat :=
  match r with
  | Failure status _ _ => Some status
  | DryRunCompleted _ _ _ _ _ | ImportCompleted _ _ _ _ _ _ _ => Some 200
  | Unanswered => None
  end.

(** What a dry run says about the import of the same upload: the same
    failure (or the same silence), or the same total and the same invalid
    records, the valid ones being those the import then saves or reports a
    save error for. *)
Definition predicts {R D : Type} (dry real : response R D) : Prop :=
  match dry, real with
  | Failure status error details, Failure status' error' details' =>
      status' = status /\ error' = error /\ details' = details
  | Unanswered, Unanswered => True
  | DryRunCompleted total validCount invalidCount valid invalid,
    ImportCompleted total' savedCount saveErrorCount validationErrors
      saved saveErrors invalid' =>
      total' = total
      /\ invalid' = invalid
      /\ validationErrors = invalidCount
      /\ savedCount + saveErrorCount = validCount
  | _, _ => False
  end.

(** ** More sample data *)

Definition answers_ana_twice : model ParticipantData.t :=
  fun _ => Parsed (JsonObject (KeyArray [ana; ana])).

Definition blank_participant : ParticipantData.t :=
  {| ParticipantData.name := Some "   ";
     ParticipantData.dateOfBirth := Some "2009-04-17";
     ParticipantData.address := None;
     ParticipantData.referralDate := None;
     ParticipantData.school := None;
     ParticipantData.identificationNumber := Some "HS-003";
     ParticipantData.programs := None;
     ParticipantData.notes := None |}.

Definition blank_program : ProgramData.t :=
  {| ProgramData.name := Some "   ";
     ProgramData.description := Some "Weekly painting and drawing sessions";
     ProgramData.participants := None |}.

(** ** Authentication and roles ([middleware/auth.js], [models/Staff.js]) *)

(** A staff document as [Staff.getById] returns it. *)
Module StaffDoc.
Record t := {
  id : string;
  username : string;
  name : string;
  phoneNumber : string;
  email : string;
  password : string;
  profilePictureUrl : string;
  role : string;
  isActive : bool
}.
End StaffDoc.

(** The staff collection and the outcome of the next read of it ([Some m]:
    the read throws an error with message [m]). *)
Record directory := {
  staff : list StaffDoc.t;
  read_fault : option string
}.

(** The store's complaint about a document path that is not a non-empty
    string (its quotation marks left out). *)
Definition invalid_document_path : string :=
  "Value for argument documentPath is not a valid resource path. Path must be a non-empty string.".

Module Staff.

(** [Staff.getById(id)]: it throws when there is no such document; it never
    returns [null]. *)
Definition getById (dir : directory) (id : option string)
  : outcome StaffDoc.t :=
  if negb (Js.truthy id)
  then Threw ("Error getting staff member: " ++ invalid_document_path)
  else
    match read_fault dir with
    | Some m => Threw ("Error getting staff member: " ++ m)
    | None =>
        match find (fun d => String.eqb (StaffDoc.id d) (Js.or_empty id))
                   (staff dir) with
        | Some d => Ok d
        | None => Threw "Error getting staff member: Staff member not found"
        end
    end.

End Staff.

(** [s.split(' ')] *)
Fixpoint split_space (s : string) : list string :=
  match s with
  | EmptyString => [EmptyString]
  | String c r =>
      if (nat_of_ascii c =? 32) then EmptyString :: split_space r
      else
        match split_space r with
        | piece :: rest => String c piece :: rest
        | [] => [String c EmptyString]
        end
  end.

(** [authHeader && authHeader.split(' ')[1]] *)
Definition token_of (authHeader : option string) : option string :=
  match authHeader with
  | Some h => if Js.truthy (Some h) then nth_error (split_space h) 1 else Some h
  | None => None
  end.

(** What [jwt.verify(token, secret)] does: it returns the payload, of which
    the middleware reads [userId], or throws an error with a [name]. *)
Inductive verified :=
| Decoded (userId : option string)
| VerifyThrew (name message : string).

Definition verifier := string -> string -> verified.

(** A middleware's own answer: a status and the [error] of its body, with
    the [message] the configuration error adds. *)
Record refusal := {
  refusal_status : nat;
  refusal_error : string;
  refusal_message : option string
}.

Definition refuse (status : nat) (error : string) : refusal :=
  {| refusal_status := status; refusal_error := error;
     refusal_message := None |}.

(** The outer [catch] of [authenticateToken]. *)
Definition authentication_caught (name : string) : refusal :=
  if String.eqb name "JsonWebTokenError" then refuse 401 "Invalid token"
  else if String.eqb name "TokenExpiredError" then refuse 401 "Token expired"
  else refuse 500 "Authentication error".

(** [authenticateToken]: the refusal it answers with, or the user it puts in
    [req.user] before calling [next()].  [secret] is
    [process.env.JWT_SECRET], [authHeader] is [req.headers['authorization']]. *)
Definition authenticateToken (secret authHeader : option string)
  (jwt_verify : verifier) (dir : directory) : refusal + StaffDoc.t :=
  if negb (Js.truthy secret) then
    inl {| refusal_status := 500;
           refusal_error := "Server configuration error";
           refusal_message :=
             Some "JWT_SECRET is not configured. Please contact the administrator." |}
  else if negb (Js.truthy (token_of authHeader)) then
    inl (refuse 401 "Access token required")
  else
    match jwt_verify (Js.or_empty (token_of authHeader)) (Js.or_empty secret) with
    | VerifyThrew name _ =>
        if String.eqb name "JsonWebTokenError" then inl (refuse 401 "Invalid token")
        else if String.eqb name "TokenExpiredError"
        then inl (refuse 401 "Token expired")
        else inl (authentication_caught name)
    | Decoded userId =>
        match Staff.getById dir userId with
        | Threw _ => inl (authentication_caught "Error")
        | Ok user =>
            if negb (StaffDoc.isActive user)
            then inl (refuse 401 "Invalid or inactive user")
            else inr user
        end
    end.

(** The role gates: the refusal, or [None] for [next()]. *)
Definition requireHeartSmilesStaff (user : StaffDoc.t) : option refusal :=
  if negb (String.eqb (StaffDoc.role user) "heartSmiles")
  then Some (refuse 403 "HeartSmiles staff access required")
  else None.

Definition requireUMDStaff (user : StaffDoc.t) : option refusal :=
  if negb (String.eqb (StaffDoc.role user) "umd")
  then Some (refuse 403 "UMD staff access required")
  else None.

Definition requireStaffAccess (user : StaffDoc.t) : option refusal :=
  if negb (includes ["heartSmiles"; "umd"] (StaffDoc.role user))
  then Some (refuse 403 "Staff access required")
  else None.

Definition requireReadOnlyAccess (user : StaffDoc.t) (method : string)
  : option refusal :=
  if String.eqb (StaffDoc.role user) "umd" && negb (String.eqb method "GET")
  then Some (refuse 403 "UMD staff have read-only access")
  else None.

(** ** The import router ([routes/import.js]) with its two guards *)

Inductive guarded (A : Type) :=
| Denied (r : refusal)
| Reached (a : A).
Arguments Denied {A} r.
Arguments Reached {A} a.

(** What the guards see of a request. *)
Record credentials := {
  secret : option string;
  authorization : option string;
  jwt_verify : verifier;
  staff_directory : directory
}.

(** [router.use(authenticateToken); router.use(requireHeartSmilesStaff)] in
    front of a route. *)
Definition guard_import {A : Type} (c : credentials) (w : world)
  (route : world -> A * world) : guarded A * world :=
  match authenticateToken (secret c) (authorization c) (jwt_verify c)
          (staff_directory c) with
  | inl r => (Denied r, w)
  | inr user =>
      match requireHeartSmilesStaff user with
      | Some r => (Denied r, w)
      | None => let (a, w') := route w in (Reached a, w')
      end
  end.

(** [POST /import/participants] and [POST /import/programs]. *)
Definition routeImportParticipants (c : credentials)
  (Date_valid : string -> bool) (openai : model ParticipantData.t)
  (tempDir timestamp : string) (u : upload_request) (w : world)
  : guarded (routed ParticipantData.t ParticipantDoc.t) * world :=
  guard_import c w (postParticipants Date_valid openai tempDir timestamp u).

Definition routeImportPrograms (c : credentials)
  (openai : model ProgramData.t) (tempDir timestamp : string)
  (u : upload_request) (w : world)
  : guarded (routed ProgramData.t ProgramDoc.t) * world :=
  guard_import c w (postPrograms openai tempDir timestamp u).

(** Sample staff and credentials.  The verifier stands for a secret under
    which exactly three tokens verify. *)
Definition staff_member (i r : string) (active : bool) : StaffDoc.t :=
  {| StaffDoc.id := i; StaffDoc.username := i; StaffDoc.name := i;
     StaffDoc.phoneNumber := ""; StaffDoc.email := "";
     StaffDoc.password := ""; StaffDoc.profilePictureUrl := "";
     StaffDoc.role := r; StaffDoc.isActive := active |}.

Definition sample_directory : directory :=
  {| staff := [staff_member "s1" "heartSmiles" true;
               staff_member "s2" "umd" true;
               staff_member "s3" "heartSmiles" false];
     read_fault := None |}.

Definition sample_verifier : verifier :=
  fun token key =>
    if negb (String.eqb key "k3y") then
      VerifyThrew "JsonWebTokenError" "invalid signature"
    else if String.eqb token "token-of-s1" then Decoded (Some "s1")
    else if String.eqb token "token-of-s2" then Decoded (Some "s2")
    else if String.eqb token "token-of-s3" then Decoded (Some "s3")
    else if String.eqb token "token-of-s9" then Decoded (Some "s9")
    else if String.eqb token "old-token" then
      VerifyThrew "TokenExpiredError" "jwt expired"
    else VerifyThrew "JsonWebTokenError" "jwt malformed".

Definition credentials_with (header : string) : credentials :=
  {| secret := Some "k3y"; authorization := Some header;
     jwt_verify := sample_verifier; staff_directory := sample_directory |}.

(** What the two guards make of a request: a refusal with one of their
    statuses and the world untouched, or the route run for an active
    HeartSmiles user. *)
Definition guard_outcome {A : Type} (c : credentials) (w : world)
  (route : world -> A * world) (result : guarded A * world) : Prop :=
  match fst result with
  | Denied r =>
      snd result = w /\ In (refusal_status r) [401; 403; 500]
  | Reached a =>
      route w = (a, snd result)
      /\ exists user,
           authenticateToken (secret c) (authorization c) (jwt_verify c)
             (staff_directory c) = inr user
           /\ StaffDoc.role user = "heartSmiles"
           /\ StaffDoc.isActive user = true
  end.

(** ** More of the models ([models/Participant.js], [models/Program.js]) *)

(** The store's complaint when [update] is called on a document that does
    not exist (the document's path left out). *)
Definition no_document_to_update : string :=
  "5 NOT_FOUND: No document to update".

(** [FieldValue.arrayUnion(x)] and [FieldValue.arrayRemove(x)] on an array
    of strings. *)
Definition arrayUnion (x : string) (array : list string) : list string :=
  if includes array x then array else push array x.

Definition arrayRemove (x : string) (array : list string) : list string :=
  filter (fun y => negb (String.eqb y x)) array.

(** [s.includes(fragment)] *)
Fixpoint str_includes (s fragment : string) : bool :=
  if String.prefix fragment s then true
  else
    match s with
    | EmptyString => false
    | String _ r => str_includes r fragment
    end.

(** The regular expression [/^[^\s@]+@[^\s@]+\.[^\s@]+$/] of [isValidEmail]:
    [plain] is the class [[^\s@]]. *)
Definition plain (c : ascii) : bool :=
  negb (Js.is_space c) && negb (nat_of_ascii c =? 64).

(** The longest run of [plain] characters in front, and what follows it. *)
Fixpoint span_plain (cs : list ascii) : list ascii * list ascii :=
  match cs with
  | c :: r =>
      if plain c then let (run, rest) := span_plain r in (c :: run, rest)
      else ([], cs)
  | [] => ([], [])
  end.

(** A dot with something before it and something after it. *)
Definition has_inner_dot (cs : list ascii) : bool :=
  match cs with
  | _ :: r => existsb Path.is_dot (removelast r)
  | [] => false
  end.

Definition isValidEmail (email : string) : bool :=
  match span_plain (list_ascii_of_string email) with
  | (_ :: _, at_sign :: domain) =>
      (nat_of_ascii at_sign =? 64) && forallb plain domain
      && has_inner_dot domain
  | _ => false
  end.

Module ParticipantModel.

Section Validate.

Variable Date_valid : string -> bool.

(** [Participant.validate(data)]; [email] is [data.email], which the
    records of the import do not carry. *)
Definition validate (data : ParticipantData.t) (email : option string)
  : ValidationResult :=
  let errors0 : list string := [] in
  let errors1 :=
    if missing_or_shorter (ParticipantData.name data) 2
    then push errors0 "Name is required and must be at least 2 characters long"
    else errors0 in
  let errors2 :=
    if negb (Js.truthy (ParticipantData.dateOfBirth data))
    then push errors1 "Date of birth is required"
    else if negb (Date_valid (Js.or_empty (ParticipantData.dateOfBirth data)))
    then push errors1 "Date of birth must be a valid date"
    else errors1 in
  let errors3 :=
    if missing_or_shorter (ParticipantData.identificationNumber data) 3
    then push errors2
           "Identification number is required and must be at least 3 characters long"
    else errors2 in
  let errors4 :=
    if Js.truthy email && negb (isValidEmail (Js.or_empty email))
    then push errors3 "Email must be valid if provided"
    else errors3 in
  {| isValid := (List.length errors4 =? 0); errors := errors4 |}.

End Validate.

(** [Participant.getById(id)] *)
Definition getById (id : nat) (db : firestore)
  : outcome ParticipantDoc.t * firestore :=
  let (fault, db1) := store_call db in
  match fault with
  | Some m => (Threw ("Error getting participant: " ++ m), db1)
  | None =>
      match find (fun d => ParticipantDoc.id d =? id) (participants db1) with
      | Some d => (Ok d, db1)
      | None => (Threw "Error getting participant: Participant not found", db1)
      end
  end.

(** [db.collection('participants').doc(id).update(...)], the change to the
    document given as a function: it fails when the store does, and when
    there is no such document. *)
Definition update_doc (id : nat) (change : ParticipantDoc.t -> ParticipantDoc.t)
  (db : firestore) : outcome unit * firestore :=
  let (fault, db1) := store_call db in
  match fault with
  | Some m => (Threw m, db1)
  | None =>
      match find (fun d => ParticipantDoc.id d =? id) (participants db1) with
      | Some _ =>
          (Ok tt,
           {| participants :=
                map (fun d => if ParticipantDoc.id d =? id then change d else d)
                    (participants db1);
              programs := programs db1;
              next_id := next_id db1;
              faults := faults db1 |})
      | None => (Threw no_document_to_update, db1)
      end
  end.

Definition with_isActive (b : bool) (d : ParticipantDoc.t) : ParticipantDoc.t :=
  {| ParticipantDoc.id := ParticipantDoc.id d;
     ParticipantDoc.name := ParticipantDoc.name d;
     ParticipantDoc.dateOfBirth := ParticipantDoc.dateOfBirth d;
     ParticipantDoc.address := ParticipantDoc.address d;
     ParticipantDoc.referralDate := ParticipantDoc.referralDate d;
     ParticipantDoc.programs := ParticipantDoc.programs d;
     ParticipantDoc.school := ParticipantDoc.school d;
     ParticipantDoc.identificationNumber := ParticipantDoc.identificationNumber d;
     ParticipantDoc.headshotPictureUrl := ParticipantDoc.headshotPictureUrl d;
     ParticipantDoc.uploadedPhotos := ParticipantDoc.uploadedPhotos d;
     ParticipantDoc.notes := ParticipantDoc.notes d;
     ParticipantDoc.isActive := b |}.

Definition with_programs (change : list string -> list string)
  (d : ParticipantDoc.t) : ParticipantDoc.t :=
  {| ParticipantDoc.id := ParticipantDoc.id d;
     ParticipantDoc.name := ParticipantDoc.name d;
     ParticipantDoc.dateOfBirth := ParticipantDoc.dateOfBirth d;
     ParticipantDoc.address := ParticipantDoc.address d;
     ParticipantDoc.referralDate := ParticipantDoc.referralDate d;
     ParticipantDoc.programs := change (ParticipantDoc.programs d);
     ParticipantDoc.school := ParticipantDoc.school d;
     ParticipantDoc.identificationNumber := ParticipantDoc.identificationNumber d;
     ParticipantDoc.headshotPictureUrl := ParticipantDoc.headshotPictureUrl d;
     ParticipantDoc.uploadedPhotos := ParticipantDoc.uploadedPhotos d;
     ParticipantDoc.notes := ParticipantDoc.notes d;
     ParticipantDoc.isActive := ParticipantDoc.isActive d |}.

(** [Participant.delete(id)]: a soft delete. *)
Definition delete (id : nat) (db : firestore) : outcome bool * firestore :=
  let (updated, db1) := update_doc id (with_isActive false) db in
  match updated with
  | Ok _ => (Ok true, db1)
  | Threw m => (Threw ("Error deleting participant: " ++ m), db1)
  end.

(** [Participant.addToProgram(participantId, programId)] *)
Definition addToProgram (participantId : nat) (programId : string)
  (db : firestore) : outcome ParticipantDoc.t * firestore :=
  let wrap := fun m => "Error adding participant to program: " ++ m in
  let (got, db1) := getById participantId db in
  match got with
  | Threw m => (Threw (wrap m), db1)
  | Ok participant =>
      let (updated, db2) :=
        if negb (includes (ParticipantDoc.programs participant) programId)
        then update_doc participantId (with_programs (arrayUnion programId)) db1
        else (Ok tt, db1) in
      match updated with
      | Threw m => (Threw (wrap m), db2)
      | Ok _ =>
          let (again, db3) := getById participantId db2 in
          match again with
          | Threw m => (Threw (wrap m), db3)
          | Ok d => (Ok d, db3)
          end
      end
  end.

(** [Participant.removeFromProgram(participantId, programId)] *)
Definition removeFromProgram (participantId : nat) (programId : string)
  (db : firestore) : outcome ParticipantDoc.t * firestore :=
  let wrap := fun m => "Error removing participant from program: " ++ m in
  let (updated, db1) :=
    update_doc participantId (with_programs (arrayRemove programId)) db in
  match updated with
  | Threw m => (Threw (wrap m), db1)
  | Ok _ =>
      let (again, db2) := getById participantId db1 in
      match again with
      | Threw m => (Threw (wrap m), db2)
      | Ok d => (Ok d, db2)
      end
  end.

(** The [filters] of [Participant.getAll(filters)]. *)
Record filters := {
  isActive : option bool;
  school : option string;
  programId : option string
}.

Definition no_filter : filters :=
  {| isActive := None; school := None; programId := None |}.

Definition passes (f : filters) (d : ParticipantDoc.t) : bool :=
  match isActive f with
  | Some b => Bool.eqb (ParticipantDoc.isActive d) b
  | None => true
  end
  && (if Js.truthy (school f)
      then String.eqb (ParticipantDoc.school d) (Js.or_empty (school f))
      else true)
  && (if Js.truthy (programId f)
      then includes (ParticipantDoc.programs d) (Js.or_empty (programId f))
      else true).

(** [Participant.getAll(filters)] *)
Definition getAllWhere (f : filters) (db : firestore)
  : outcome (list ParticipantDoc.t) * firestore :=
  let (fault, db1) := store_call db in
  match fault with
  | Some m => (Threw ("Error getting participants: " ++ m), db1)
  | None => (Ok (filter (passes f) (participants db1)), db1)
  end.

(** The test of [Participant.search]. *)
Definition matches (searchTerm : string) (participant : ParticipantDoc.t)
  : bool :=
  str_includes (Js.toLowerCase (ParticipantDoc.name participant))
               (Js.toLowerCase searchTerm)
  || str_includes
       (Js.toLowerCase (ParticipantDoc.identificationNumber participant))
       (Js.toLowerCase searchTerm)
  || str_includes (Js.toLowerCase (ParticipantDoc.school participant))
                  (Js.toLowerCase searchTerm).

(** [Participant.search(searchTerm)] *)
Definition search (searchTerm : string) (db : firestore)
  : outcome (list ParticipantDoc.t) * firestore :=
  let (all, db1) := Participant.getAll db in
  match all with
  | Ok participants => (Ok (filter (matches searchTerm) participants), db1)
  | Threw m => (Threw ("Error searching participants: " ++ m), db1)
  end.

End ParticipantModel.

Module ProgramModel.

(** [Program.validate(data)] *)
Definition validate (data : ProgramData.t) : ValidationResult :=
  let errors0 : list string := [] in
  let errors1 :=
    if missing_or_shorter (ProgramData.name data) 2
    then push errors0
           "Program name is required and must be at least 2 characters long"
    else errors0 in
  let errors2 :=
    match ProgramData.description data with
    | Some description =>
        if Js.truthy (Some description)
           && (String.length (Js.trim description) <? 2)
        then push errors1
               "Program description must be at least 2 characters long if provided"
        else errors1
    | None => errors1
    end in
  {| isValid := (List.length errors2 =? 0); errors := errors2 |}.

(** [Program.getById(id)] *)
Definition getById (id : nat) (db : firestore)
  : outcome ProgramDoc.t * firestore :=
  let (fault, db1) := store_call db in
  match fault with
  | Some m => (Threw ("Error getting program: " ++ m), db1)
  | None =>
      match find (fun d => ProgramDoc.id d =? id) (programs db1) with
      | Some d => (Ok d, db1)
      | None => (Threw "Error getting program: Program not found", db1)
      end
  end.

End ProgramModel.

(** ** [ProgramController.getById] ([controllers/programController.js]) *)

(** [res.json({ program })], or [res.status(s).json({ error })]. *)
Inductive program_answer :=
| ProgramFound (program : ProgramDoc.t)
| ProgramError (status : nat) (error : string).

Definition ProgramController_getById (id : nat) (db : firestore)
  : program_answer * firestore :=
  let (got, db1) := ProgramModel.getById id db in
  match got with
  | Ok program => (ProgramFound program, db1)
  | Threw m =>
      if String.eqb m "Program not found"
      then (ProgramError 404 m, db1)
      else (ProgramError 500 m, db1)
  end.

(** [s] holds [fragment]: somewhere in [s], the characters of [fragment] in
    a row. *)
Definition holds (s fragment : string) : Prop :=
  exists before after, s = (before ++ fragment ++ after)%string.

(** A stored participant enrolled in one program, and a store with it. *)
Definition eva_doc : ParticipantDoc.t :=
  {| ParticipantDoc.id := 7;
     ParticipantDoc.name := "Eva Moreno";
     ParticipantDoc.dateOfBirth := "2011-03-09";
     ParticipantDoc.address := "";
     ParticipantDoc.referralDate := "";
     ParticipantDoc.programs := ["prog-art"];
     ParticipantDoc.school := "Roosevelt Middle";
     ParticipantDoc.identificationNumber := "HS-001";
     ParticipantDoc.headshotPictureUrl := "";
     ParticipantDoc.uploadedPhotos := [];
     ParticipantDoc.notes := [];
     ParticipantDoc.isActive := true |}.

Definition eva_store : firestore :=
  {| participants := [carla_doc; eva_doc]; programs := [art_club_doc];
     next_id := 8; faults := [] |}.

(** ** [ParticipantController.getAll] ([controllers/participantController.js]) *)

From Stdlib Require Import ZArith.

(** [array.slice(start, end)], for integer [start] and [end]: a negative
    index counts from the end, and both are clamped to the array. *)
Definition slice {A : Type} (start finish : Z) (array : list A) : list A :=
  let len := Z.of_nat (List.length array) in
  let from :=
    if (start <? 0)%Z then Z.max (len + start) 0 else Z.min start len in
  let to :=
    if (finish <? 0)%Z then Z.max (len + finish) 0 else Z.min finish len in
  firstn (Z.to_nat (to - from)) (skipn (Z.to_nat from) array).

(** [Number.MAX_SAFE_INTEGER], 2^53 - 1. *)
Definition MAX_SAFE_INTEGER : Z := 9007199254740991%Z.

(** An integer of magnitude at most [MAX_SAFE_INTEGER]: a double holds it
    exactly, and its decimal text is read without rounding. *)
Record safe_integer := {
  number : Z;
  number_safe : (Z.abs number <=? MAX_SAFE_INTEGER)%Z = true
}.

(** [req.query].  [page] and [limit] arrive as text.  The queries covered
    are those in which each of the two is absent, and then 1 and 50, or a
    plain decimal integer (digits, with a minus sign or none) within the
    safe range: on such a text [page - 1], [page * limit] and
    [parseInt(page)] all read the integer it denotes. *)
Record list_query := {
  query_school : option string;
  query_programId : option string;
  query_isActive : option string;
  query_search : option string;
  query_page : option safe_integer;
  query_limit : option safe_integer
}.

(** The [pagination] of the answer.  [totalPages] is [None] where
    [Math.ceil(length / limit)] is no finite number, the limit being 0. *)
Record pagination := {
  currentPage : Z;
  totalPages : option Z;
  totalItems : nat;
  itemsPerPage : Z
}.

Inductive participants_answer :=
| Listed (participants : list ParticipantDoc.t) (pages : pagination)
| ListError (status : nat) (error : string).

(** [Math.ceil(n / limit)] for an array length [n] and a safe [limit]: the
    quotient of the two doubles is close enough to the exact one for its
    ceiling to be the exact ceiling. *)
Definition ceil_div (n limit : Z) : option Z :=
  if (limit =? 0)%Z then None else Some (- ((- n) / limit))%Z.

(** The two products of the pagination are doubles, rounded once they pass
    2^53; [slice] does not see the rounding, an index past the end of the
    array, or before its start, being clamped. *)
Definition ParticipantController_getAll (q : list_query) (d : firestore)
  : participants_answer * firestore :=
  let page := match query_page q with Some p => number p | None => 1%Z end in
  let limit :=
    match query_limit q with Some l => number l | None => 50%Z end in
  let filters :=
    {| ParticipantModel.isActive :=
         match query_isActive q with
         | Some v => Some (String.eqb v "true")
         | None => None
         end;
       ParticipantModel.school :=
         if Js.truthy (query_school q) then query_school q else None;
       ParticipantModel.programId :=
         if Js.truthy (query_programId q) then query_programId q else None |} in
  let (found, d1) :=
    if Js.truthy (query_search q)
    then ParticipantModel.search (Js.or_empty (query_search q)) d
    else ParticipantModel.getAllWhere filters d in
  match found with
  | Threw m => (ListError 500 m, d1)
  | Ok participants =>
      let startIndex := ((page - 1) * limit)%Z in
      let endIndex := (page * limit)%Z in
      (Listed (slice startIndex endIndex participants)
         {| currentPage := page;
            totalPages := ceil_div (Z.of_nat (List.length participants)) limit;
            totalItems := List.length participants;
            itemsPerPage := limit |},
       d1)
  end.

(** The same query, turned to another page. *)
Definition turn_to (page : safe_integer) (q : list_query) : list_query :=
  {| query_school := query_school q;
     query_programId := query_programId q;
     query_isActive := query_isActive q;
     query_search := query_search q;
     query_page := Some page;
     query_limit := query_limit q |}.

(** The participants of an answer. *)
Definition listed (a : participants_answer) : list ParticipantDoc.t :=
  match a with
  | Listed l _ => l
  | ListError _ _ => []
  end.

(** The list the controller pages through: the search result, or else the
    collection under the query's filters. *)
Definition listing (q : list_query) (d : firestore) : list ParticipantDoc.t :=
  if Js.truthy (query_search q)
  then filter (ParticipantModel.matches (Js.or_empty (query_search q)))
         (participants d)
  else
    filter
      (ParticipantModel.passes
         {| ParticipantModel.isActive :=
              match query_isActive q with
              | Some v => Some (String.eqb v "true")
              | None => None
              end;
            ParticipantModel.school :=
              if Js.truthy (query_school q) then query_school q else None;
            ParticipantModel.programId :=
              if Js.truthy (query_programId q) then query_programId q
              else None |})
      (participants d).

(** The page numbers 1, 2, ..., [n]. *)
Definition page_numbers (n : nat) : list Z :=
  map (fun k => Z.of_nat (S k)) (seq 0 n).

(** The safe integers 1 and 2. *)
Definition safe_one : safe_integer :=
  {| number := 1; number_safe := eq_refl |}.
Definition safe_two : safe_integer :=
  {| number := 2; number_safe := eq_refl |}.

(** One participant per page. *)
Definition one_per_page : list_query :=
  {| query_school := None; query_programId := None;
     query_isActive := Some "true"; query_search := None;
     query_page := None; query_limit := Some safe_one |}.

(** A store whose next call fails. *)
Definition failing_once (m : string) (d : firestore) : firestore :=
  {| participants := participants d; programs := programs d;
     next_id := next_id d; faults := Some m :: faults d |}.

Unset Implicit Arguments.

(** * Properties *)

(** ** Strings *)

Lemma trimStart_length (s : string) :
  String.length (Js.trimStart s) <= String.length s.
Proof.
  induction s as [|c r IH]; simpl; [lia|].
  destruct (Js.is_space c); simpl; lia.
Qed.

Lemma trimEnd_length (s : string) :
  String.length (Js.trimEnd s) <= String.length s.
Proof.
  induction s as [|c r IH]; simpl; [lia|].
  destruct (Js.trimEnd r) as [|c' r'] eqn:E.
  - destruct (Js.is_space c); simpl; lia.
  - simpl in *. lia.
Qed.

Lemma trim_length (s : string) :
  String.length (Js.trim s) <= String.length s.
Proof.
  unfold Js.trim.
  etransitivity; [apply trimEnd_length | apply trimStart_length].
Qed.

Lemma missing_or_shorter_short (s : string) (n : nat) :
  String.length s < n -> missing_or_shorter (Some s) n = true.
Proof.
  intros H. unfold missing_or_shorter.
  apply orb_true_iff. right. apply Nat.ltb_lt.
  pose proof (trim_length s). lia.
Qed.

Lemma missing_or_shorter_long (s : string) (n : nat) :
  0 < n -> n <= String.length (Js.trim s) ->
  missing_or_shorter (Some s) n = false.
Proof.
  intros Hn H. unfold missing_or_shorter.
  apply orb_false_iff. split.
  - destruct s; [simpl in H; lia | reflexivity].
  - apply Nat.ltb_ge. exact H.
Qed.

Lemma present_and_invalid_date_falsy (Date_valid : string -> bool)
  (v : option string) :
  Js.truthy v = false -> present_and_invalid_date Date_valid v = false.
Proof.
  destruct v as [s|]; simpl; [|reflexivity].
  intros ->. reflexivity.
Qed.

(** ** Record validator *)

Lemma present_and_invalid_date_ok (Date_valid : string -> bool)
  (v : option string) :
  (forall d, v = Some d -> d <> "" -> isValidDate Date_valid d = true) ->
  present_and_invalid_date Date_valid v = false.
Proof.
  intros H. destruct v as [d|]; [|reflexivity].
  unfold present_and_invalid_date.
  destruct (Js.truthy (Some d)) eqn:T; [|reflexivity].
  rewrite (H d eq_refl); [reflexivity|].
  intros ->. discriminate T.
Qed.

Lemma validateParticipantData_isValid (Date_valid : string -> bool)
  (p : ParticipantData.t) :
  isValid (validateParticipantData Date_valid p)
  = negb (missing_or_shorter (ParticipantData.name p) 2)
    && negb (present_and_invalid_date Date_valid (ParticipantData.dateOfBirth p))
    && negb (present_and_invalid_date Date_valid (ParticipantData.referralDate p))
    && negb (missing_or_shorter (ParticipantData.identificationNumber p) 3).
Proof.
  unfold validateParticipantData.
  destruct (missing_or_shorter (ParticipantData.name p) 2),
    (present_and_invalid_date Date_valid (ParticipantData.dateOfBirth p)),
    (present_and_invalid_date Date_valid (ParticipantData.referralDate p)),
    (missing_or_shorter (ParticipantData.identificationNumber p) 3);
    reflexivity.
Qed.

Lemma validateProgramData_isValid (g : ProgramData.t) :
  isValid (validateProgramData g)
  = negb (missing_or_shorter (ProgramData.name g) 2)
    && negb (missing_or_shorter (ProgramData.description g) 10).
Proof.
  unfold validateProgramData.
  destruct (missing_or_shorter (ProgramData.name g) 2),
    (missing_or_shorter (ProgramData.description g) 10); reflexivity.
Qed.

(** A valid participant record has an identification number, and it is not
    the empty string. *)
Lemma valid_participant_has_id (Date_valid : string -> bool)
  (p : ParticipantData.t) :
  isValid (validateParticipantData Date_valid p) = true ->
  exists i, ParticipantData.identificationNumber p = Some i /\ i <> "".
Proof.
  rewrite validateParticipantData_isValid.
  intros H. apply andb_true_iff in H. destruct H as [_ H].
  destruct (ParticipantData.identificationNumber p) as [i|]; [|discriminate H].
  exists i. split; [reflexivity|].
  intros ->. discriminate H.
Qed.

(** A valid program record has a name. *)
Lemma valid_program_has_name (g : ProgramData.t) :
  isValid (validateProgramData g) = true ->
  exists n, ProgramData.name g = Some n /\ n <> "".
Proof.
  rewrite validateProgramData_isValid.
  intros H. apply andb_true_iff in H. destruct H as [H _].
  destruct (ProgramData.name g) as [n|]; [|discriminate H].
  exists n. split; [reflexivity|].
  intros ->. discriminate H.
Qed.

(** C2, as the specification words it, fails: a participant record with no
    date of birth and an empty referral date, whose name and identification
    number pass, is valid and carries no error at all. *)
Lemma missing_dates_still_valid :
  ParticipantData.dateOfBirth ana = None /\
  ParticipantData.referralDate ana = Some "" /\
  validateParticipantData node_Date_valid ana
  = {| isValid := true; errors := [] |}.
Proof. repeat split. Qed.

(** C2 (amended): for every participant record whose date field (date of
    birth or referral date) is missing — absent or the empty string — the
    validator adds no error for that field, and the record is valid exactly
    when the name, the other date and the identification number pass their
    rules; the program validator only ever reports on name and description. *)
Theorem missing_date_adds_no_error (Date_valid : string -> bool)
  (f : date_field) (p : ParticipantData.t) :
  Js.truthy (date_of f p) = false ->
  ~ In (date_message f) (errors (validateParticipantData Date_valid p))
  /\ isValid (validateParticipantData Date_valid p)
     = negb (missing_or_shorter (ParticipantData.name p) 2)
       && negb (present_and_invalid_date Date_valid (date_of (other_date f) p))
       && negb (missing_or_shorter (ParticipantData.identificationNumber p) 3)
  /\ forall g : ProgramData.t,
       incl (errors (validateProgramData g))
         ["Program name is required and must be at least 2 characters";
          "Program description is required and must be at least 10 characters"].
Proof.
  intros Hmiss.
  pose proof (present_and_invalid_date_falsy Date_valid _ Hmiss) as Hno.
  split; [|split].
  - unfold validateParticipantData.
    destruct f; simpl in Hno; rewrite Hno;
      destruct (missing_or_shorter (ParticipantData.name p) 2);
      destruct (missing_or_shorter (ParticipantData.identificationNumber p) 3);
      try destruct (present_and_invalid_date Date_valid
                      (ParticipantData.referralDate p));
      try destruct (present_and_invalid_date Date_valid
                      (ParticipantData.dateOfBirth p));
      simpl; intuition discriminate.
  - rewrite validateParticipantData_isValid.
    destruct f; simpl in Hno |- *; rewrite Hno;
      destruct (missing_or_shorter (ParticipantData.name p) 2);
      try destruct (present_and_invalid_date Date_valid
                      (ParticipantData.referralDate p));
      try destruct (present_and_invalid_date Date_valid
                      (ParticipantData.dateOfBirth p));
      reflexivity.
  - intros g. unfold validateProgramData.
    destruct (missing_or_shorter (ProgramData.name g) 2),
      (missing_or_shorter (ProgramData.description g) 10);
      simpl; intros x Hx; simpl in Hx |- *; tauto.
Qed.

Lemma missing_date_adds_no_error_witness :
  Js.truthy (date_of ReferralDate ana) = false
  /\ ~ In (date_message ReferralDate)
        (errors (validateParticipantData node_Date_valid ana))
  /\ isValid (validateParticipantData node_Date_valid ana) = true.
Proof.
  destruct (missing_date_adds_no_error node_Date_valid ReferralDate ana eq_refl)
    as [Hnone [Hvalid _]].
  split; [reflexivity | split; [exact Hnone | rewrite Hvalid; reflexivity]].
Defined.

(** C5: a participant record whose identification number is shorter than 3
    characters, whose name has at least 2 characters once trimmed and whose
    dates, where present, are valid [YYYY-MM-DD] dates, is invalid with
    exactly one error, the one about the identification number. *)
Theorem short_identification_number_single_error (Date_valid : string -> bool)
  (p : ParticipantData.t) (i n : string) :
  ParticipantData.identificationNumber p = Some i ->
  String.length i < 3 ->
  ParticipantData.name p = Some n ->
  2 <= String.length (Js.trim n) ->
  (forall d, ParticipantData.dateOfBirth p = Some d -> d <> "" ->
             isValidDate Date_valid d = true) ->
  (forall d, ParticipantData.referralDate p = Some d -> d <> "" ->
             isValidDate Date_valid d = true) ->
  validateParticipantData Date_valid p
  = {| isValid := false;
       errors := ["Identification number is required and must be at least 3 characters"] |}.
Proof.
  intros Hi Hshort Hn Hname Hdob Href.
  unfold validateParticipantData.
  rewrite Hn, Hi.
  rewrite (missing_or_shorter_long n 2); [|lia|exact Hname].
  rewrite (present_and_invalid_date_ok Date_valid _ Hdob).
  rewrite (present_and_invalid_date_ok Date_valid _ Href).
  rewrite (missing_or_shorter_short i 3 Hshort).
  reflexivity.
Qed.

Lemma short_identification_number_single_error_witness :
  validateParticipantData node_Date_valid ben
  = {| isValid := false;
       errors := ["Identification number is required and must be at least 3 characters"] |}.
Proof.
  apply (short_identification_number_single_error node_Date_valid ben
           "B7" "Ben Ortiz").
  - reflexivity.
  - simpl. lia.
  - reflexivity.
  - simpl. lia.
  - intros d H _. injection H as <-. reflexivity.
  - intros d H _. injection H as <-. reflexivity.
Defined.

(** ** Document store and persistence loop *)

Lemma store_call_reliable (d : firestore) :
  faults d = [] -> store_call d = (None, d).
Proof. unfold store_call. intros ->. reflexivity. Qed.

Lemma find_absent {A : Type} (f : A -> bool) (l : list A) :
  (forall x, In x l -> f x = false) -> find f l = None.
Proof.
  induction l as [|a l IH]; simpl; intros H; [reflexivity|].
  rewrite (H a (or_introl eq_refl)). apply IH. intros x Hx. apply H. now right.
Qed.

Lemma find_present {A : Type} (f : A -> bool) (l : list A) (x : A) :
  In x l -> f x = true -> exists y, find f l = Some y.
Proof.
  intros Hin Hf. destruct (find f l) as [y|] eqn:E; [now exists y|].
  rewrite (find_none f l E x Hin) in Hf. discriminate Hf.
Qed.

Lemma same_identificationNumber_true (r : ParticipantData.t)
  (p : ParticipantDoc.t) :
  same_identificationNumber r p = true
  <-> Some (ParticipantDoc.identificationNumber p)
      = ParticipantData.identificationNumber r.
Proof.
  unfold same_identificationNumber.
  destruct (ParticipantData.identificationNumber r) as [i|].
  - rewrite String.eqb_eq. split; [intros -> | intros [= ->]]; reflexivity.
  - split; discriminate.
Qed.

Lemma same_identificationNumber_false (r : ParticipantData.t)
  (p : ParticipantDoc.t) :
  same_identificationNumber r p = false
  <-> Some (ParticipantDoc.identificationNumber p)
      <> ParticipantData.identificationNumber r.
Proof.
  rewrite <- same_identificationNumber_true.
  destruct (same_identificationNumber r p); split; congruence.
Qed.

Lemma saveParticipant_duplicate
  (s : saving ParticipantData.t ParticipantDoc.t) (r : ParticipantData.t)
  (p : ParticipantDoc.t) :
  faults (store s) = [] ->
  In p (participants (store s)) ->
  same_identificationNumber r p = true ->
  saveParticipant s r
  = record_error s r
      "Participant with this identification number already exists" (store s).
Proof.
  intros Hf Hin Hsame.
  unfold saveParticipant, Participant.getAll.
  rewrite (store_call_reliable _ Hf).
  destruct (find_present _ _ p Hin Hsame) as [y ->].
  reflexivity.
Qed.

Lemma saveParticipant_fresh
  (s : saving ParticipantData.t ParticipantDoc.t) (r : ParticipantData.t) :
  faults (store s) = [] ->
  (forall p, In p (participants (store s)) ->
             same_identificationNumber r p = false) ->
  saveParticipant s r
  = record_saved s (Participant.construct (next_id (store s)) r)
      {| participants :=
           push (participants (store s))
                (Participant.construct (next_id (store s)) r);
         programs := programs (store s);
         next_id := S (next_id (store s));
         faults := [] |}.
Proof.
  intros Hf Hfresh.
  unfold saveParticipant, Participant.getAll, Participant.create.
  rewrite (store_call_reliable _ Hf).
  rewrite (find_absent _ _ Hfresh).
  rewrite (store_call_reliable _ Hf), Hf.
  reflexivity.
Qed.

Lemma saveProgram_duplicate
  (s : saving ProgramData.t ProgramDoc.t) (g : ProgramData.t) (n : string)
  (p : ProgramDoc.t) :
  faults (store s) = [] ->
  ProgramData.name g = Some n ->
  In p (programs (store s)) ->
  Js.toLowerCase (ProgramDoc.name p) = Js.toLowerCase n ->
  saveProgram s g
  = record_error s g "Program with this name already exists" (store s).
Proof.
  intros Hf Hn Hin Hsame.
  unfold saveProgram, Program.getAll, find_same_name.
  rewrite (store_call_reliable _ Hf), Hn.
  destruct (find_present
              (fun q => String.eqb (Js.toLowerCase (ProgramDoc.name q))
                                   (Js.toLowerCase n))
              _ p Hin) as [y ->].
  - apply String.eqb_eq. exact Hsame.
  - reflexivity.
Qed.

Lemma saveProgram_fresh
  (s : saving ProgramData.t ProgramDoc.t) (g : ProgramData.t) (n : string) :
  faults (store s) = [] ->
  ProgramData.name g = Some n ->
  (forall p, In p (programs (store s)) ->
             Js.toLowerCase (ProgramDoc.name p) <> Js.toLowerCase n) ->
  saveProgram s g
  = record_saved s (Program.construct (next_id (store s)) g)
      {| participants := participants (store s);
         programs :=
           push (programs (store s)) (Program.construct (next_id (store s)) g);
         next_id := S (next_id (store s));
         faults := [] |}.
Proof.
  intros Hf Hn Hfresh.
  unfold saveProgram, Program.getAll, Program.create, find_same_name.
  rewrite (store_call_reliable _ Hf), Hn.
  rewrite find_absent.
  - rewrite (store_call_reliable _ Hf), Hf. reflexivity.
  - intros p Hp. apply String.eqb_neq. apply Hfresh. exact Hp.
Qed.

(** C4: duplicate-skip is idempotent.  For a valid participant record whose
    identification number no stored participant has, and a store that
    answers its calls, persisting the one-record list saves one record with
    no error; persisting it again saves nothing and records exactly one
    error, the one saying the participant already exists. *)
Theorem duplicate_skip_idempotent (Date_valid : string -> bool)
  (r : ParticipantData.t) (d : firestore) :
  isValid (validateParticipantData Date_valid r) = true ->
  faults d = [] ->
  (forall p, In p (participants d) ->
             Some (ParticipantDoc.identificationNumber p)
             <> ParticipantData.identificationNumber r) ->
  let first := saveParticipants [r] d in
  let second := saveParticipants [r] (store first) in
  List.length (saved_docs first) = 1
  /\ save_errors first = []
  /\ saved_docs second = []
  /\ save_errors second
     = [(r, "Participant with this identification number already exists")].
Proof.
  intros Hvalid Hf Hfresh first second.
  destruct (valid_participant_has_id Date_valid r Hvalid) as [i [Hi _]].
  assert (E1 : first
               = record_saved (no_saving _ _ d)
                   (Participant.construct (next_id d) r)
                   {| participants :=
                        push (participants d)
                             (Participant.construct (next_id d) r);
                      programs := programs d;
                      next_id := S (next_id d);
                      faults := [] |}).
  { subst first. unfold saveParticipants. simpl fold_left.
    apply (saveParticipant_fresh (no_saving _ _ d) r Hf).
    intros p Hp. apply same_identificationNumber_false.
    apply Hfresh. exact Hp. }
  assert (E2 : second
               = record_error (no_saving _ _ (store first)) r
                   "Participant with this identification number already exists"
                   (store first)).
  { subst second. unfold saveParticipants. simpl fold_left.
    apply (saveParticipant_duplicate (no_saving _ _ (store first)) r
             (Participant.construct (next_id d) r)).
    - rewrite E1. reflexivity.
    - rewrite E1. simpl. unfold push. apply in_or_app. right. now left.
    - apply same_identificationNumber_true. simpl. rewrite Hi. reflexivity. }
  rewrite E2, E1. repeat split.
Qed.

Lemma duplicate_skip_idempotent_witness :
  let first := saveParticipants [ana] sample_store in
  let second := saveParticipants [ana] (store first) in
  List.length (saved_docs first) = 1
  /\ save_errors first = []
  /\ saved_docs second = []
  /\ save_errors second
     = [(ana, "Participant with this identification number already exists")].
Proof.
  apply (duplicate_skip_idempotent node_Date_valid ana sample_store).
  - reflexivity.
  - reflexivity.
  - intros p [<- | []]. simpl. discriminate.
Defined.

(** The same holds of programs, whose duplicate check compares names. *)
Lemma duplicate_program_skip_idempotent (g : ProgramData.t) (d : firestore) :
  isValid (validateProgramData g) = true ->
  faults d = [] ->
  (forall p n, In p (programs d) -> ProgramData.name g = Some n ->
               Js.toLowerCase (ProgramDoc.name p) <> Js.toLowerCase n) ->
  let first := savePrograms [g] d in
  let second := savePrograms [g] (store first) in
  List.length (saved_docs first) = 1
  /\ save_errors first = []
  /\ saved_docs second = []
  /\ save_errors second = [(g, "Program with this name already exists")].
Proof.
  intros Hvalid Hf Hfresh first second.
  destruct (valid_program_has_name g Hvalid) as [n [Hn _]].
  assert (E1 : first
               = record_saved (no_saving _ _ d)
                   (Program.construct (next_id d) g)
                   {| participants := participants d;
                      programs :=
                        push (programs d) (Program.construct (next_id d) g);
                      next_id := S (next_id d);
                      faults := [] |}).
  { subst first. unfold savePrograms. simpl fold_left.
    apply (saveProgram_fresh (no_saving _ _ d) g n Hf Hn).
    intros p Hp. apply (Hfresh p n Hp Hn). }
  assert (E2 : second
               = record_error (no_saving _ _ (store first)) g
                   "Program with this name already exists" (store first)).
  { subst second. unfold savePrograms. simpl fold_left.
    apply (saveProgram_duplicate (no_saving _ _ (store first)) g n
             (Program.construct (next_id d) g)).
    - rewrite E1. reflexivity.
    - exact Hn.
    - rewrite E1. simpl. unfold push. apply in_or_app. right. now left.
    - simpl. rewrite Hn. reflexivity. }
  rewrite E2, E1. repeat split.
Qed.

(** ** Letter case *)

(** [toLowerCase] moves a capital up by 32 and leaves every other code unit
    alone, so two strings have the same lower-case image exactly when they
    are equal up to letter case. *)
Lemma lower_char_capital (c : ascii) :
  is_capital (nat_of_ascii c) ->
  Js.lower_char c = ascii_of_nat (nat_of_ascii c + 32).
Proof.
  intros H. unfold Js.lower_char.
  replace (_ || _) with true; [reflexivity|].
  symmetry. rewrite orb_true_iff, !andb_true_iff, negb_true_iff, !Nat.leb_le,
    Nat.eqb_neq. unfold is_capital in H. lia.
Qed.

Lemma lower_char_other (c : ascii) :
  ~ is_capital (nat_of_ascii c) -> Js.lower_char c = c.
Proof.
  intros H. unfold Js.lower_char.
  replace (_ || _) with false; [reflexivity|].
  symmetry. apply not_true_is_false. intros E. apply H.
  rewrite orb_true_iff, !andb_true_iff, negb_true_iff, !Nat.leb_le,
    Nat.eqb_neq in E. unfold is_capital. lia.
Qed.

Lemma is_capital_dec (n : nat) : is_capital n \/ ~ is_capital n.
Proof. unfold is_capital. lia. Qed.

Lemma lower_char_same (a b : ascii) :
  Js.lower_char a = Js.lower_char b <-> same_letter a b.
Proof.
  pose proof (nat_ascii_bounded a) as Ha.
  pose proof (nat_ascii_bounded b) as Hb.
  unfold same_letter.
  destruct (is_capital_dec (nat_of_ascii a)) as [Ca | Na],
           (is_capital_dec (nat_of_ascii b)) as [Cb | Nb].
  - rewrite (lower_char_capital a Ca), (lower_char_capital b Cb). split.
    + intros E. left. apply (f_equal nat_of_ascii) in E.
      rewrite !nat_ascii_embedding in E by (unfold is_capital in *; lia).
      rewrite <- (ascii_nat_embedding a), <- (ascii_nat_embedding b).
      f_equal. lia.
    + intros [-> | [[_ E] | [_ E]]]; [reflexivity | |];
        unfold is_capital in *; lia.
  - rewrite (lower_char_capital a Ca), (lower_char_other b Nb). split.
    + intros E. right. left. split; [exact Ca|]. rewrite <- E.
      apply nat_ascii_embedding. unfold is_capital in *; lia.
    + intros [-> | [[_ E] | [C _]]]; [contradiction | | contradiction].
      rewrite <- E. now rewrite ascii_nat_embedding.
  - rewrite (lower_char_other a Na), (lower_char_capital b Cb). split.
    + intros E. right. right. split; [exact Cb|]. rewrite E.
      apply nat_ascii_embedding. unfold is_capital in *; lia.
    + intros [-> | [[C _] | [_ E]]]; [contradiction | contradiction |].
      rewrite <- E. now rewrite ascii_nat_embedding.
  - rewrite (lower_char_other a Na), (lower_char_other b Nb). split.
    + intros ->. now left.
    + intros [-> | [[C _] | [C _]]]; [reflexivity | contradiction | contradiction].
Qed.

Lemma toLowerCase_same (a b : string) :
  Js.toLowerCase a = Js.toLowerCase b <-> same_ignoring_case a b.
Proof.
  split.
  - revert b. induction a as [|x a IH]; intros [|y b] H; try discriminate H.
    + constructor.
    + simpl in H. injection H as Hc Hr. constructor.
      * now apply lower_char_same.
      * now apply IH.
  - intros H. induction H as [|x y r r' Hl _ IH]; [reflexivity|].
    simpl. apply lower_char_same in Hl. now rewrite Hl, IH.
Qed.

Example art_club_in_capitals : same_ignoring_case "Art Club" "ART CLUB".
Proof.
  repeat (constructor;
          [first [ left; reflexivity
                 | right; right; split;
                   [unfold is_capital; vm_compute; lia | reflexivity] ]|]).
  constructor.
Qed.

(** C6: in a store that answers its calls, the loop body settles a valid
    record by its natural key.  A participant is a duplicate exactly when
    some stored participant has the very same identification number (string
    equality, so letter case counts); a program is a duplicate exactly when
    some stored program has the record's name up to letter case.  A
    duplicate is skipped: nothing is saved, the store is untouched and the
    already-exists error is added to the save errors.  Any other record is
    inserted: a new active document with the record's key, under the
    store's next identifier, is appended to the collection and to the saved
    documents, and no error is added. *)
Theorem duplicate_check_then_skip_or_insert (Date_valid : string -> bool)
  (s : saving ParticipantData.t ParticipantDoc.t) (r : ParticipantData.t)
  (sg : saving ProgramData.t ProgramDoc.t) (g : ProgramData.t) :
  isValid (validateParticipantData Date_valid r) = true ->
  isValid (validateProgramData g) = true ->
  faults (store s) = [] ->
  faults (store sg) = [] ->
  (((exists p, In p (participants (store s))
               /\ Some (ParticipantDoc.identificationNumber p)
                  = ParticipantData.identificationNumber r)
    /\ saved_docs (saveParticipant s r) = saved_docs s
    /\ save_errors (saveParticipant s r)
       = (save_errors s
          ++ [(r, "Participant with this identification number already exists")])%list
    /\ store (saveParticipant s r) = store s)
   \/
   ((forall p, In p (participants (store s)) ->
               Some (ParticipantDoc.identificationNumber p)
               <> ParticipantData.identificationNumber r)
    /\ exists d,
         saved_docs (saveParticipant s r) = (saved_docs s ++ [d])%list
         /\ save_errors (saveParticipant s r) = save_errors s
         /\ participants (store (saveParticipant s r))
            = (participants (store s) ++ [d])%list
         /\ programs (store (saveParticipant s r)) = programs (store s)
         /\ ParticipantDoc.id d = next_id (store s)
         /\ Some (ParticipantDoc.identificationNumber d)
            = ParticipantData.identificationNumber r
         /\ Some (ParticipantDoc.name d) = ParticipantData.name r
         /\ ParticipantDoc.isActive d = true))
  /\
  (((exists p n, In p (programs (store sg))
                 /\ ProgramData.name g = Some n
                 /\ same_ignoring_case (ProgramDoc.name p) n)
    /\ saved_docs (saveProgram sg g) = saved_docs sg
    /\ save_errors (saveProgram sg g)
       = (save_errors sg ++ [(g, "Program with this name already exists")])%list
    /\ store (saveProgram sg g) = store sg)
   \/
   ((forall p n, In p (programs (store sg)) -> ProgramData.name g = Some n ->
                 ~ same_ignoring_case (ProgramDoc.name p) n)
    /\ exists d,
         saved_docs (saveProgram sg g) = (saved_docs sg ++ [d])%list
         /\ save_errors (saveProgram sg g) = save_errors sg
         /\ programs (store (saveProgram sg g))
            = (programs (store sg) ++ [d])%list
         /\ participants (store (saveProgram sg g)) = participants (store sg)
         /\ ProgramDoc.id d = next_id (store sg)
         /\ Some (ProgramDoc.name d) = ProgramData.name g
         /\ Some (ProgramDoc.description d) = ProgramData.description g
         /\ ProgramDoc.isActive d = true)).
Proof.
  intros Hr Hg Hf Hfg. split.
  - destruct (find (same_identificationNumber r) (participants (store s)))
      as [p|] eqn:E.
    + left. apply find_some in E. destruct E as [Hin Hsame]. split.
      * exists p. split; [exact Hin|].
        apply same_identificationNumber_true. exact Hsame.
      * rewrite (saveParticipant_duplicate s r p Hf Hin Hsame).
        destruct s as [saved0 errors0 d0]. simpl. repeat split.
    + right. pose proof (find_none _ _ E) as Hnone. split.
      * intros p Hp. apply same_identificationNumber_false.
        apply Hnone. exact Hp.
      * rewrite (saveParticipant_fresh s r Hf Hnone).
        destruct (valid_participant_has_id Date_valid r Hr) as [i [Hi _]].
        assert (Hname : exists n, ParticipantData.name r = Some n).
        { rewrite validateParticipantData_isValid in Hr.
          destruct (ParticipantData.name r) as [n|];
            [now exists n|discriminate]. }
        destruct Hname as [n Hn].
        exists (Participant.construct (next_id (store s)) r).
        simpl. rewrite Hi, Hn. repeat split.
  - destruct (valid_program_has_name g Hg) as [n [Hn _]].
    destruct (find (fun q => String.eqb (Js.toLowerCase (ProgramDoc.name q))
                                        (Js.toLowerCase n))
                   (programs (store sg))) as [p|] eqn:E.
    + left. apply find_some in E. destruct E as [Hin Hsame].
      apply String.eqb_eq in Hsame. split.
      * exists p, n. split; [exact Hin|]. split; [exact Hn|].
        now apply toLowerCase_same.
      * rewrite (saveProgram_duplicate sg g n p Hfg Hn Hin Hsame).
        destruct sg as [saved0 errors0 d0]. simpl. repeat split.
    + right. pose proof (find_none _ _ E) as Hnone. split.
      * intros p n' Hp Hn' Hsame. rewrite Hn in Hn'. injection Hn' as <-.
        apply toLowerCase_same in Hsame. apply Hnone in Hp. simpl in Hp.
        apply String.eqb_neq in Hp. contradiction.
      * rewrite (saveProgram_fresh sg g n Hfg Hn).
        2:{ intros p Hp. apply String.eqb_neq. apply (Hnone p Hp). }
        assert (Hdesc : exists t, ProgramData.description g = Some t).
        { rewrite validateProgramData_isValid in Hg.
          apply andb_true_iff in Hg. destruct Hg as [_ Hg].
          destruct (ProgramData.description g) as [t|];
            [now exists t|discriminate]. }
        destruct Hdesc as [t Ht].
        exists (Program.construct (next_id (store sg)) g).
        simpl. rewrite Hn, Ht. repeat split.
Qed.

Lemma duplicate_check_then_skip_or_insert_witness :
  (exists d,
     saved_docs (saveParticipant (no_saving _ _ sample_store) ana) = [d]
     /\ participants (store (saveParticipant (no_saving _ _ sample_store) ana))
        = [carla_doc; d]
     /\ ParticipantDoc.id d = 2
     /\ Some (ParticipantDoc.identificationNumber d) = Some "HS-001")
  /\ (saved_docs (saveProgram (no_saving _ _ sample_store) art_club_shouting) = []
      /\ save_errors (saveProgram (no_saving _ _ sample_store) art_club_shouting)
         = [(art_club_shouting, "Program with this name already exists")]
      /\ store (saveProgram (no_saving _ _ sample_store) art_club_shouting)
         = sample_store).
Proof.
  destruct (duplicate_check_then_skip_or_insert node_Date_valid
              (no_saving _ _ sample_store) ana
              (no_saving _ _ sample_store) art_club_shouting
              eq_refl eq_refl eq_refl eq_refl)
    as [[[[p [Hin Heq]] _]
        | [_ [d [Hsaved [_ [Hstored [_ [Hid [Hnumber _]]]]]]]]]
        [[_ Hskipped] | [Hnone _]]].
  - destruct Hin as [<- | []]. discriminate Heq.
  - destruct Hin as [<- | []]. discriminate Heq.
  - split; [|exact Hskipped].
    exists d. split; [exact Hsaved|]. split; [exact Hstored|].
    split; [exact Hid | exact Hnumber].
  - exfalso. apply (Hnone art_club_doc "ART CLUB"); [now left | reflexivity |].
    apply art_club_in_capitals.
Defined.

(** ** Pipeline orchestrator *)

Lemma isDryRun_true (req : request) :
  dryRun req = Some "true" -> isDryRun req = true.
Proof. unfold isDryRun. intros ->. reflexivity. Qed.

Lemma importParticipants_dry_db (Date_valid : string -> bool)
  (openai : model ParticipantData.t) (req : request) (w : world) :
  dryRun req = Some "true" ->
  db (snd (importParticipants Date_valid openai req w)) = db w.
Proof.
  intros Hdry. unfold importParticipants, caught.
  rewrite (isDryRun_true req Hdry).
  destruct (file req) as [f|]; [|reflexivity].
  destruct (parseFile (files w) (path f)) as [[rows|m]|];
    [|reflexivity|reflexivity].
  destruct (processParticipantData openai rows) as [[recs|]|e]; reflexivity.
Qed.

Lemma importPrograms_dry_db (openai : model ProgramData.t) (req : request)
  (w : world) :
  dryRun req = Some "true" ->
  db (snd (importPrograms openai req w)) = db w.
Proof.
  intros Hdry. unfold importPrograms, caught.
  rewrite (isDryRun_true req Hdry).
  destruct (file req) as [f|]; [|reflexivity].
  destruct (parseFile (files w) (path f)) as [[rows|m]|];
    [|reflexivity|reflexivity].
  destruct (processProgramData openai rows) as [[recs|]|e]; reflexivity.
Qed.

(** A run of requests, each of which leaves the store as it found it, leaves
    the store as it found it. *)
Lemma run_all_db {Q Resp : Type} (handler : Q -> world -> Resp * world)
  (good : Q -> Prop) :
  (forall q w, good q -> db (snd (handler q w)) = db w) ->
  forall requests w, Forall good requests ->
    db (snd (run_all handler requests w)) = db w.
Proof.
  intros Hstep requests.
  induction requests as [|q rest IH]; intros w Hall; [reflexivity|].
  inversion Hall as [|q' rest' Hq Hrest]; subst.
  simpl. specialize (Hstep q w Hq).
  destruct (handler q w) as [r w1]. simpl in Hstep.
  specialize (IH w1 Hrest).
  destruct (run_all handler rest w1) as [rs w2]. simpl in IH |- *.
  congruence.
Qed.

(** Filtering the records paired with their validation results. *)
Lemma filter_paired {A B : Type} (v : A -> B) (keep : B -> bool) (l : list A) :
  filter (fun result => keep (snd result)) (map (fun x => (x, v x)) l)
  = map (fun x => (x, v x)) (filter (fun x => keep (v x)) l).
Proof.
  induction l as [|x l IH]; [reflexivity|].
  simpl. destruct (keep (v x)); simpl; rewrite IH; reflexivity.
Qed.

Lemma map_fst_paired {A B : Type} (v : A -> B) (l : list A) :
  map fst (map (fun x => (x, v x)) l) = l.
Proof.
  induction l as [|x l IH]; [reflexivity|]. simpl. now rewrite IH.
Qed.

(** With the dry-run flag set the handler parses, extracts and validates,
    and answers with the partition of the extracted records. *)
Lemma dry_run_reports_validation (Date_valid : string -> bool)
  (openai : model ParticipantData.t) (req : request) (f : uploaded_file)
  (w : world) (rows : list Row) (recs : list ParticipantData.t) :
  file req = Some f ->
  dryRun req = Some "true" ->
  parseFile (files w) (path f) = Ok rows ->
  processParticipantData openai rows = AiSuccess (DataArray recs) ->
  let valid :=
    filter (fun p => isValid (validateParticipantData Date_valid p)) recs in
  let invalid :=
    filter (fun p => negb (isValid (validateParticipantData Date_valid p))) recs in
  fst (importParticipants Date_valid openai req w)
  = DryRunCompleted (List.length recs) (List.length valid) (List.length invalid)
      valid
      (map (fun p => (p, errors (validateParticipantData Date_valid p))) invalid).
Proof.
  intros Hfile Hdry Hparse Hai valid invalid.
  unfold importParticipants.
  rewrite Hfile, Hparse, Hai, (isDryRun_true req Hdry). simpl fst.
  rewrite (filter_paired (validateParticipantData Date_valid) isValid).
  rewrite (filter_paired (validateParticipantData Date_valid)
             (fun v => negb (isValid v))).
  rewrite map_fst_paired, map_map, !length_map.
  reflexivity.
Qed.

(** C1: requests with the dry-run flag set ([dryRun] is the string [true]),
    however many and whatever the files and the model's answers, leave the
    document store exactly as it was, and so its record count: the
    participants handler and the programs handler never reach the store. *)
Theorem dry_run_never_writes (Date_valid : string -> bool)
  (ps : list (model ParticipantData.t * request))
  (gs : list (model ProgramData.t * request)) (w : world) :
  Forall (fun q => dryRun (snd q) = Some "true") ps ->
  Forall (fun q => dryRun (snd q) = Some "true") gs ->
  db (snd (run_all (fun q => importParticipants Date_valid (fst q) (snd q)) ps w))
  = db w
  /\ db (snd (run_all (fun q => importPrograms (fst q) (snd q)) gs w)) = db w.
Proof.
  intros Hps Hgs. split.
  - apply (run_all_db _ (fun q => dryRun (snd q) = Some "true")); [|exact Hps].
    intros q w0 Hq. apply importParticipants_dry_db. exact Hq.
  - apply (run_all_db _ (fun q => dryRun (snd q) = Some "true")); [|exact Hgs].
    intros q w0 Hq. apply importPrograms_dry_db. exact Hq.
Qed.

Lemma dry_run_never_writes_witness :
  db (snd (run_all (fun q => importParticipants node_Date_valid (fst q) (snd q))
             dry_participant_requests sample_world))
  = sample_store
  /\ db (snd (run_all (fun q => importPrograms (fst q) (snd q))
                dry_program_requests sample_world))
     = sample_store.
Proof.
  apply (dry_run_never_writes node_Date_valid dry_participant_requests
           dry_program_requests sample_world).
  - repeat constructor.
  - repeat constructor.
Defined.

(** The first of those dry runs does validate: Ana is valid, Ben is not. *)
Example dry_run_of_two_rows :
  fst (importParticipants node_Date_valid answers_ana_ben
         (csv_request (Some "true")) sample_world)
  = DryRunCompleted 2 1 1 [ana]
      [(ben, ["Identification number is required and must be at least 3 characters"])].
Proof. reflexivity. Qed.

(** ** Temporary file *)

Lemma read_file_unlink (fs : filesystem) (p : string) :
  read_file (unlink p fs) p = None.
Proof.
  induction fs as [|[q c] fs IH]; [reflexivity|].
  simpl. destruct (String.eqb q p) eqn:E; simpl; [exact IH|].
  rewrite E. exact IH.
Qed.

Lemma exists_file_unlink (fs : filesystem) (p : string) :
  exists_file (unlink p fs) p = false.
Proof. unfold exists_file. now rewrite read_file_unlink. Qed.

Lemma parseFile_ok_exists (fs : filesystem) (p : string) (rows : list Row) :
  parseFile fs p = Ok rows -> exists_file fs p = true.
Proof.
  unfold parseFile, parseCSV, parseExcel, XLSX_readFile, exists_file.
  destruct (read_file fs p) as [c|]; [reflexivity|].
  destruct (String.eqb _ ".csv"); [discriminate|].
  destruct (_ || _); discriminate.
Qed.

(** The parser's promise stays pending only for a file that is not there. *)
Lemma parseFile_pending (fs : filesystem) (p : string) :
  parseFile fs p = NeverSettles -> exists_file fs p = false.
Proof.
  unfold parseFile, parseCSV, exists_file.
  destruct (read_file fs p) as [c|]; [|reflexivity].
  destruct (String.eqb _ ".csv"); [discriminate|].
  destruct (_ || _); discriminate.
Qed.

(** The dry run, the completed import and the [catch] all delete the
    temporary file. *)
Lemma temp_file_deleted_unless_extraction_fails (Date_valid : string -> bool)
  (openai : model ParticipantData.t) (req : request) (f : uploaded_file)
  (w : world) :
  file req = Some f ->
  path f <> "" ->
  (forall rows e, parseFile (files w) (path f) = Ok rows ->
                  processParticipantData openai rows <> AiFailure e) ->
  exists_file (files (snd (importParticipants Date_valid openai req w))) (path f)
  = false.
Proof.
  intros Hfile Hpath Hai. unfold importParticipants, caught. rewrite Hfile.
  apply String.eqb_neq in Hpath.
  destruct (parseFile (files w) (path f)) as [[rows|m]|] eqn:Hparse.
  - specialize (Hai rows).
    destruct (processParticipantData openai rows) as [[recs|]|e].
    + destruct (isDryRun req); simpl; apply exists_file_unlink.
    + simpl. rewrite Hpath. apply exists_file_unlink.
    + exfalso. apply (Hai e); reflexivity.
  - simpl. rewrite Hpath. apply exists_file_unlink.
  - simpl. apply parseFile_pending. exact Hparse.
Qed.

(** When the extraction fails the handler answers 500 and leaves the world,
    temporary file included, as it was. *)
Lemma extraction_failure_returns_early (Date_valid : string -> bool)
  (openai : model ParticipantData.t) (openaiG : model ProgramData.t)
  (req : request) (f : uploaded_file) (w : world) (rows : list Row) :
  file req = Some f ->
  parseFile (files w) (path f) = Ok rows ->
  (forall e, processParticipantData openai rows = AiFailure e ->
     importParticipants Date_valid openai req w
     = (Failure 500 "Failed to process data with AI" (Some e), w))
  /\ (forall e, processProgramData openaiG rows = AiFailure e ->
        importPrograms openaiG req w
        = (Failure 500 "Failed to process data with AI" (Some e), w)).
Proof.
  intros Hfile Hparse. split; intros e Hai.
  - unfold importParticipants. now rewrite Hfile, Hparse, Hai.
  - unfold importPrograms. now rewrite Hfile, Hparse, Hai.
Qed.

(** C3: the temporary file is not deleted on every exit path.  The model
    answers in prose, the extraction fails, and after the 500 response the
    uploaded file is still on disk, for participants and for programs; the
    same upload run dry is cleaned up. *)
Theorem extraction_failure_leaves_temp_file :
  importParticipants node_Date_valid answers_prose (csv_request None) sample_world
  = (Failure 500 "Failed to process data with AI"
       (Some "Unexpected token H in JSON at position 0"),
     sample_world)
  /\ exists_file (files sample_world) temp_csv = true
  /\ exists_file
       (files (snd (importPrograms answers_prose (csv_request None) sample_world)))
       temp_csv = true
  /\ exists_file
       (files (snd (importParticipants node_Date_valid answers_ana_ben
                      (csv_request (Some "true")) sample_world)))
       temp_csv = false.
Proof. repeat split. Qed.

(** ** Extraction client *)

(** C8, as the specification words it, fails: the call succeeded and the
    text of the answer parsed as JSON, to [null], yet the client reports a
    failure. *)
Lemma null_answer_is_a_failure :
  answers_null two_rows = Parsed (@JsonNull ParticipantData.t)
  /\ processParticipantData answers_null two_rows
     = AiFailure "Cannot read properties of null (reading 'participants')".
Proof. split; reflexivity. Qed.

(** C8 (amended): the client returns [{success: true, data}] exactly when
    the call succeeds and the text of its answer parses as JSON to a value
    other than [null]; it returns [{success: false, error}] with the error's
    message when the call fails, when the answer has no text, when the text
    does not parse, and when it parses to [null].  On a failure the handler
    answers 500 once, with that message as details, and changes nothing. *)
Theorem extraction_succeeds_iff_json_not_null (Date_valid : string -> bool)
  (openai : model ParticipantData.t) (rows : list Row) (req : request)
  (f : uploaded_file) (w : world) :
  file req = Some f ->
  parseFile (files w) (path f) = Ok rows ->
  ((exists data, processParticipantData openai rows = AiSuccess data)
   <-> (exists v, openai rows = Parsed v /\ v <> JsonNull))
  /\ (forall m, openai rows = CallRejected m \/ openai rows = NoContent m
                \/ openai rows = NotJson m ->
                processParticipantData openai rows = AiFailure m)
  /\ (openai rows = Parsed JsonNull ->
      processParticipantData openai rows
      = AiFailure (null_property_message "participants"))
  /\ (forall e, processParticipantData openai rows = AiFailure e ->
        importParticipants Date_valid openai req w
        = (Failure 500 "Failed to process data with AI" (Some e), w)).
Proof.
  intros Hfile Hparse. repeat split.
  - intros [data H]. unfold processParticipantData in H.
    destruct (openai rows) as [m|m|m|v]; try discriminate H.
    exists v. split; [reflexivity|]. intros ->. discriminate H.
  - intros [v [Hv Hnot]]. unfold processParticipantData. rewrite Hv.
    destruct v as [|k|]; [contradiction| |]; eexists; reflexivity.
  - intros m [H | [H | H]]; unfold processParticipantData; now rewrite H.
  - intros H. unfold processParticipantData. now rewrite H.
  - intros e Hai. unfold importParticipants. now rewrite Hfile, Hparse, Hai.
Qed.

Lemma extraction_succeeds_iff_json_not_null_witness :
  processParticipantData answers_prose two_rows
  = AiFailure "Unexpected token H in JSON at position 0"
  /\ importParticipants node_Date_valid answers_prose (csv_request None)
       sample_world
     = (Failure 500 "Failed to process data with AI"
          (Some "Unexpected token H in JSON at position 0"), sample_world).
Proof.
  destruct (extraction_succeeds_iff_json_not_null node_Date_valid answers_prose
              two_rows (csv_request None)
              (req_file temp_csv "youth.csv" "text/csv") sample_world
              eq_refl eq_refl) as [_ [Hfail [_ Hcaller]]].
  split.
  - apply Hfail. right. right. reflexivity.
  - apply Hcaller. apply Hfail. right. right. reflexivity.
Defined.

(** C10, as the specification words it, fails: [null] is well-formed JSON
    without the expected key, and the programs handler answers 500 instead
    of completing with nothing processed. *)
Lemma null_answer_is_not_an_empty_import :
  answers_null two_rows = Parsed (@JsonNull ProgramData.t)
  /\ lacks_expected_key (@JsonNull ProgramData.t) = true
  /\ importPrograms answers_null (csv_request None) sample_world
     = (Failure 500 "Failed to process data with AI"
          (Some "Cannot read properties of null (reading 'programs')"),
        sample_world).
Proof. repeat split. Qed.

(** C10 (amended): if the text of the answer parses as JSON to a value
    other than [null] that does not hold the expected key, the client
    returns success with an empty array, and the handler completes normally
    with [totalProcessed] 0 — a dry run or an import with nothing saved and
    no error — and the store as it was. *)
Theorem missing_key_is_an_empty_import (Date_valid : string -> bool)
  (openai : model ParticipantData.t) (openaiG : model ProgramData.t)
  (rows : list Row) (v : json ParticipantData.t) (vg : json ProgramData.t)
  (req : request) (f : uploaded_file) (w : world) :
  file req = Some f ->
  parseFile (files w) (path f) = Ok rows ->
  openai rows = Parsed v -> lacks_expected_key v = true -> v <> JsonNull ->
  openaiG rows = Parsed vg -> lacks_expected_key vg = true -> vg <> JsonNull ->
  processParticipantData openai rows = AiSuccess (DataArray [])
  /\ processProgramData openaiG rows = AiSuccess (DataArray [])
  /\ fst (importParticipants Date_valid openai req w)
     = (if isDryRun req then DryRunCompleted 0 0 0 [] []
        else ImportCompleted 0 0 0 0 [] [] [])
  /\ fst (importPrograms openaiG req w)
     = (if isDryRun req then DryRunCompleted 0 0 0 [] []
        else ImportCompleted 0 0 0 0 [] [] [])
  /\ db (snd (importParticipants Date_valid openai req w)) = db w
  /\ db (snd (importPrograms openaiG req w)) = db w.
Proof.
  intros Hfile Hparse Hv Hlack Hnot Hvg Hlackg Hnotg.
  assert (Hp : processParticipantData openai rows = AiSuccess (DataArray [])).
  { unfold processParticipantData. rewrite Hv.
    destruct v as [|[| |l|]|]; try discriminate Hlack;
      [contradiction|reflexivity|reflexivity]. }
  assert (Hg : processProgramData openaiG rows = AiSuccess (DataArray [])).
  { unfold processProgramData. rewrite Hvg.
    destruct vg as [|[| |l|]|]; try discriminate Hlackg;
      [contradiction|reflexivity|reflexivity]. }
  unfold importParticipants, importPrograms.
  rewrite Hfile, Hparse, Hp, Hg.
  destruct (isDryRun req); repeat split.
Qed.

Lemma missing_key_is_an_empty_import_witness :
  fst (importParticipants node_Date_valid answers_other_key (csv_request None)
         sample_world)
  = ImportCompleted 0 0 0 0 [] [] []
  /\ fst (importPrograms answers_other_key (csv_request None) sample_world)
     = ImportCompleted 0 0 0 0 [] [] [].
Proof.
  destruct (missing_key_is_an_empty_import node_Date_valid
              answers_other_key answers_other_key two_rows
              (JsonObject KeyAbsent) (JsonObject KeyAbsent)
              (csv_request None) (req_file temp_csv "youth.csv" "text/csv")
              sample_world eq_refl eq_refl eq_refl eq_refl
              ltac:(discriminate) eq_refl eq_refl ltac:(discriminate))
    as [_ [_ [Hp [Hg _]]]].
  split; [exact Hp | exact Hg].
Defined.

(** ** File parser *)

Lemma parse_failure_aborts (Date_valid : string -> bool)
  (openai : model ParticipantData.t) (openaiG : model ProgramData.t)
  (req : request) (f : uploaded_file) (w : world) (m : string) :
  file req = Some f ->
  parseFile (files w) (path f) = Threw m ->
  fst (importParticipants Date_valid openai req w) = Failure 500 m None
  /\ db (snd (importParticipants Date_valid openai req w)) = db w
  /\ fst (importPrograms openaiG req w) = Failure 500 m None
  /\ db (snd (importPrograms openaiG req w)) = db w.
Proof.
  intros Hfile Hparse. unfold importParticipants, importPrograms.
  rewrite Hfile, Hparse. repeat split.
Qed.

(** C9: the parser dispatches on the lower-cased extension of the path.  For
    a file on disk, [.csv] gives what the delimited-text reader makes of it;
    [.xlsx] and [.xls] give the rows of the workbook's first sheet, or, when
    the workbook cannot be read, an error whose message is the reader's
    behind the words [Error parsing Excel file: ]; any other extension
    gives the error [Unsupported file format].  An error of the parser
    aborts either handler: a single 500 response with the error's message,
    the model's answer unused and the store as it was. *)
Theorem parseFile_dispatches_on_extension (fs : filesystem)
  (filePath : string) (c : file_content) :
  read_file fs filePath = Some c ->
  let ext := Js.toLowerCase (Path.extname filePath) in
  (ext = ".csv" -> parseFile fs filePath = as_csv c)
  /\ (ext = ".xlsx" \/ ext = ".xls" ->
      forall workbook, as_workbook c = Ok workbook ->
        parseFile fs filePath = Ok (first_sheet workbook))
  /\ (ext = ".xlsx" \/ ext = ".xls" ->
      forall m, as_workbook c = Threw m ->
        parseFile fs filePath = Threw ("Error parsing Excel file: " ++ m))
  /\ (ext <> ".csv" -> ext <> ".xlsx" -> ext <> ".xls" ->
      parseFile fs filePath = Threw "Unsupported file format")
  /\ (forall Date_valid openai openaiG req f w m,
        file req = Some f -> files w = fs -> path f = filePath ->
        parseFile fs filePath = Threw m ->
        fst (importParticipants Date_valid openai req w) = Failure 500 m None
        /\ db (snd (importParticipants Date_valid openai req w)) = db w
        /\ fst (importPrograms openaiG req w) = Failure 500 m None
        /\ db (snd (importPrograms openaiG req w)) = db w).
Proof.
  intros Hread ext.
  assert (Hexcel : ext = ".xlsx" \/ ext = ".xls" ->
                   parseFile fs filePath = parseExcel fs filePath).
  { intros H. unfold parseFile. fold ext.
    destruct H as [-> | ->]; reflexivity. }
  split; [|split; [|split; [|split]]].
  - intros H. unfold parseFile, parseCSV. fold ext. rewrite H. simpl.
    now rewrite Hread.
  - intros H workbook Hwb. rewrite (Hexcel H).
    unfold parseExcel, XLSX_readFile. rewrite Hread, Hwb.
    destruct workbook as [|[name rows] others]; reflexivity.
  - intros H m Hwb. rewrite (Hexcel H).
    unfold parseExcel, XLSX_readFile. now rewrite Hread, Hwb.
  - intros H1 H2 H3. unfold parseFile. fold ext.
    apply String.eqb_neq in H1, H2, H3. now rewrite H1, H2, H3.
  - intros Date_valid openai openaiG req f w m Hfile Hfs Hpath Hthrew.
    apply (parse_failure_aborts Date_valid openai openaiG req f w m Hfile).
    now rewrite Hfs, Hpath.
Qed.

Lemma parseFile_dispatches_on_extension_witness :
  Path.extname temp_xlsx = ".XLSX"
  /\ parseFile (files sample_world) temp_xlsx
     = Threw "Error parsing Excel file: Unsupported ZIP file".
Proof.
  split; [reflexivity|].
  destruct (parseFile_dispatches_on_extension (files sample_world) temp_xlsx
              corrupt_file eq_refl) as [_ [_ [Hcorrupt _]]].
  apply Hcorrupt; [left|]; reflexivity.
Defined.

Example parseFile_csv :
  parseFile (files sample_world) temp_csv = Ok two_rows.
Proof. reflexivity. Qed.

Example parseFile_txt :
  parseFile (files sample_world) temp_txt = Threw "Unsupported file format".
Proof. reflexivity. Qed.

(** ** Upload filter *)

Lemma includes_In (array : list string) (x : string) :
  includes array x = true <-> In x array.
Proof.
  unfold includes. rewrite existsb_exists. split.
  - intros [y [Hin Heq]]. apply String.eqb_eq in Heq. now subst.
  - intros Hin. exists x. split; [exact Hin | apply String.eqb_refl].
Qed.

Lemma includes_not_In (array : list string) (x : string) :
  includes array x = false <-> ~ In x array.
Proof.
  rewrite <- includes_In. destruct (includes array x); split; congruence.
Qed.





(** A file that passes the filter and is larger than the limit is refused
    with a 400 as well. *)
Lemma oversized_upload_is_refused
  (Date_valid : string -> bool) (openai : model ParticipantData.t)
  (tempDir timestamp : string) (f : file_part) (dry : option string)
  (w : world) :
  fieldname f = "file" ->
  part_originalname f <> "" ->
  fileFilter f = true ->
  (fileSizeLimit < part_size f)%N ->
  postParticipants Date_valid openai tempDir timestamp
    {| part := Some f; body_dryRun := dry |} w
  = (Responded (Failure 400 "File size too large. Maximum size is 10MB." None), w).
Proof.
  intros Hfield Hname Hok Hbig. destruct w as [d fs].
  apply String.eqb_neq in Hname. apply N.ltb_lt in Hbig.
  unfold postParticipants, uploadSingle. cbn [part files].
  rewrite Hfield, Hname, Hok, Hbig. reflexivity.
Qed.

(** A part with an empty file name counts as no file, whatever its type. *)
Example nameless_upload_is_no_file :
  postParticipants node_Date_valid answers_ana_ben "/app/backend/temp"
    "1700000000008"
    {| part := Some {| fieldname := "file"; part_originalname := "";
                       part_mimetype := "text/csv"; part_size := 120%N;
                       part_content := sheet_file |};
       body_dryRun := None |}
    sample_world
  = (Responded (Failure 400 "No file uploaded" None), sample_world).
Proof. reflexivity. Qed.

(** A part with no field name is refused by the middleware with an error
    the upload error handler does not know: it is passed on. *)
Example unnamed_field_is_passed_on :
  postParticipants node_Date_valid answers_ana_ben "/app/backend/temp"
    "1700000000009"
    {| part := Some {| fieldname := ""; part_originalname := "youth.csv";
                       part_mimetype := "text/csv"; part_size := 120%N;
                       part_content := sheet_file |};
       body_dryRun := None |}
    sample_world
  = (PassedOn (multer_error "MISSING_FIELD_NAME" "Field name missing"),
     sample_world).
Proof. reflexivity. Qed.

(** A spreadsheet under the size limit is stored and imported. *)
Example csv_upload_is_imported :
  fst (postParticipants node_Date_valid answers_ana_ben "/app/backend/temp"
         "1700000000004"
         {| part := Some csv_part; body_dryRun := Some "false" |}
         sample_world)
  = Responded
      (ImportCompleted 2 1 0 1 [Participant.construct 2 ana] []
         [(ben, ["Identification number is required and must be at least 3 characters"])]).
Proof. vm_compute. reflexivity. Qed.

(** The same two-row file imported twice into an empty store: the first
    import saves both participants, the second saves none and reports both
    as existing. *)
Example same_file_imported_twice :
  let upload := {| part := Some csv_part; body_dryRun := None |} in
  fst (run_all (postParticipants node_Date_valid answers_ana_dan
                  "/app/backend/temp" "1700000000005")
         [upload; upload] {| db := empty_store; files := [] |})
  = [Responded
       (ImportCompleted 2 2 0 0
          [Participant.construct 0 ana; Participant.construct 1 dan] [] []);
     Responded
       (ImportCompleted 2 0 2 0 []
          [(ana, "Participant with this identification number already exists");
           (dan, "Participant with this identification number already exists")]
          [])].
Proof. vm_compute. reflexivity. Qed.

(** * Further properties of the import pipeline *)

(** ** The persistence loop, whatever the store answers *)

Lemma store_call_frame (d : firestore) :
  participants (snd (store_call d)) = participants d
  /\ programs (snd (store_call d)) = programs d
  /\ next_id (snd (store_call d)) = next_id d.
Proof.
  unfold store_call. destruct (faults d); repeat split.
Qed.

(** One turn of the participants loop either records an error and leaves the
    collections alone, or appends the new document and records it as saved. *)
Lemma saveParticipant_cases
  (s : saving ParticipantData.t ParticipantDoc.t) (r : ParticipantData.t) :
  (saved_docs (saveParticipant s r) = saved_docs s
   /\ (exists m, save_errors (saveParticipant s r) = push (save_errors s) (r, m))
   /\ participants (store (saveParticipant s r)) = participants (store s)
   /\ programs (store (saveParticipant s r)) = programs (store s)
   /\ next_id (store (saveParticipant s r)) = next_id (store s))
  \/
  (let d := Participant.construct (next_id (store s)) r in
   saved_docs (saveParticipant s r) = push (saved_docs s) d
   /\ save_errors (saveParticipant s r) = save_errors s
   /\ participants (store (saveParticipant s r)) = push (participants (store s)) d
   /\ programs (store (saveParticipant s r)) = programs (store s)
   /\ next_id (store (saveParticipant s r)) = S (next_id (store s))
   /\ find (same_identificationNumber r) (participants (store s)) = None).
Proof.
  unfold saveParticipant, Participant.getAll, Participant.create.
  destruct (store_call_frame (store s)) as [Hp [Hg Hn]].
  destruct (store_call (store s)) as [fault d1]. simpl in Hp, Hg, Hn.
  destruct fault as [m|].
  - left. simpl. repeat split; try assumption. eexists; reflexivity.
  - rewrite Hp.
    destruct (find (same_identificationNumber r) (participants (store s)))
      as [p|] eqn:Hfind.
    + left. simpl. repeat split; try assumption. eexists. reflexivity.
    + destruct (store_call_frame d1) as [Hp2 [Hg2 Hn2]].
      destruct (store_call d1) as [fault2 d2]. simpl in Hp2, Hg2, Hn2.
      destruct fault2 as [m|].
      * left. simpl. repeat split; try congruence. eexists; reflexivity.
      * right. simpl. rewrite Hp2, Hg2, Hn2, Hp, Hg, Hn. repeat split.
Qed.

(** The same for programs; the name check itself may throw. *)
Lemma saveProgram_cases
  (s : saving ProgramData.t ProgramDoc.t) (g : ProgramData.t) :
  (saved_docs (saveProgram s g) = saved_docs s
   /\ (exists m, save_errors (saveProgram s g) = push (save_errors s) (g, m))
   /\ participants (store (saveProgram s g)) = participants (store s)
   /\ programs (store (saveProgram s g)) = programs (store s)
   /\ next_id (store (saveProgram s g)) = next_id (store s))
  \/
  (let d := Program.construct (next_id (store s)) g in
   saved_docs (saveProgram s g) = push (saved_docs s) d
   /\ save_errors (saveProgram s g) = save_errors s
   /\ participants (store (saveProgram s g)) = participants (store s)
   /\ programs (store (saveProgram s g)) = push (programs (store s)) d
   /\ next_id (store (saveProgram s g)) = S (next_id (store s))
   /\ find_same_name g (programs (store s)) = Ok None).
Proof.
  unfold saveProgram, Program.getAll, Program.create.
  destruct (store_call_frame (store s)) as [Hp [Hg Hn]].
  destruct (store_call (store s)) as [fault d1]. simpl in Hp, Hg, Hn.
  destruct fault as [m|].
  - left. simpl. repeat split; try assumption. eexists; reflexivity.
  - rewrite Hg.
    destruct (find_same_name g (programs (store s))) as [[p|]|m] eqn:Hfind.
    + left. simpl. repeat split; try assumption. eexists. reflexivity.
    + destruct (store_call_frame d1) as [Hp2 [Hg2 Hn2]].
      destruct (store_call d1) as [fault2 d2]. simpl in Hp2, Hg2, Hn2.
      destruct fault2 as [m|].
      * left. simpl. repeat split; try congruence. eexists; reflexivity.
      * right. simpl. rewrite Hp2, Hg2, Hn2, Hp, Hg, Hn. repeat split.
    + left. simpl. repeat split; try assumption. eexists; reflexivity.
Qed.

(** What the whole loop keeps, one turn after the other. *)
Lemma save_loop_invariant {R D : Type} (step : saving R D -> R -> saving R D)
  (collection : firestore -> list D)
  (l : list R) :
  (forall s r,
     (saved_docs (step s r) = saved_docs s
      /\ (exists m, save_errors (step s r) = push (save_errors s) (r, m))
      /\ collection (store (step s r)) = collection (store s))
     \/ (exists d, saved_docs (step s r) = push (saved_docs s) d
         /\ save_errors (step s r) = save_errors s
         /\ collection (store (step s r)) = push (collection (store s)) d)) ->
  forall s,
    exists added,
      saved_docs (fold_left step l s) = (saved_docs s ++ added)%list
      /\ collection (store (fold_left step l s))
         = (collection (store s) ++ added)%list
      /\ List.length (saved_docs (fold_left step l s))
         + List.length (save_errors (fold_left step l s))
         = List.length (saved_docs s) + List.length (save_errors s)
           + List.length l.
Proof.
  intros Hstep. induction l as [|r l IH]; intros s.
  - exists []. simpl. rewrite !app_nil_r. repeat split. lia.
  - simpl. destruct (IH (step s r)) as [added [Hs [Hc Hn]]].
    destruct (Hstep s r) as [[H1 [[m H2] H3]] | [d [H1 [H2 H3]]]].
    + exists added. split; [|split].
      * now rewrite Hs, H1.
      * now rewrite Hc, H3.
      * rewrite Hn, H1, H2. unfold push. rewrite length_app. simpl. lia.
    + exists (d :: added). split; [|split].
      * rewrite Hs, H1. unfold push. now rewrite <- app_assoc.
      * rewrite Hc, H3. unfold push. now rewrite <- app_assoc.
      * rewrite Hn, H1, H2. unfold push. rewrite length_app. simpl. lia.
Qed.

Lemma saveParticipants_frame (l : list ParticipantData.t)
  (s : saving ParticipantData.t ParticipantDoc.t) :
  programs (store (fold_left saveParticipant l s)) = programs (store s).
Proof.
  revert s. induction l as [|r l IH]; intros s; [reflexivity|].
  simpl. rewrite IH.
  destruct (saveParticipant_cases s r) as [[_ [_ [_ [H _]]]] | [_ [_ [_ [H _]]]]];
    exact H.
Qed.

Lemma savePrograms_frame (l : list ProgramData.t)
  (s : saving ProgramData.t ProgramDoc.t) :
  participants (store (fold_left saveProgram l s)) = participants (store s).
Proof.
  revert s. induction l as [|g l IH]; intros s; [reflexivity|].
  simpl. rewrite IH.
  destruct (saveProgram_cases s g) as [[_ [_ [H _]]] | [_ [_ [H _]]]];
    exact H.
Qed.

(** The participants loop: the saved documents are exactly the documents
    appended to the collection, the programs are left alone, and every
    record ends in one of the two lists. *)
Lemma saveParticipants_spec (l : list ParticipantData.t) (d : firestore) :
  participants (store (saveParticipants l d))
  = (participants d ++ saved_docs (saveParticipants l d))%list
  /\ programs (store (saveParticipants l d)) = programs d
  /\ List.length (saved_docs (saveParticipants l d))
     + List.length (save_errors (saveParticipants l d))
     = List.length l.
Proof.
  unfold saveParticipants.
  destruct (save_loop_invariant saveParticipant participants l) with
    (s := {| saved_docs := @nil ParticipantDoc.t;
             save_errors := @nil (ParticipantData.t * string);
             store := d |})
    as [added [Hs [Hc Hn]]].
  - intros s r.
    destruct (saveParticipant_cases s r)
      as [[H1 [H2 [H3 _]]] | [H1 [H2 [H3 _]]]].
    + left. repeat split; assumption.
    + right. eexists. repeat split; eassumption.
  - simpl in Hs, Hc, Hn. rewrite Hs, Hc. repeat split.
    + apply (saveParticipants_frame l).
    + rewrite <- Hs. exact Hn.
Qed.

Lemma savePrograms_spec (l : list ProgramData.t) (d : firestore) :
  programs (store (savePrograms l d))
  = (programs d ++ saved_docs (savePrograms l d))%list
  /\ participants (store (savePrograms l d)) = participants d
  /\ List.length (saved_docs (savePrograms l d))
     + List.length (save_errors (savePrograms l d))
     = List.length l.
Proof.
  unfold savePrograms.
  destruct (save_loop_invariant saveProgram programs l) with
    (s := {| saved_docs := @nil ProgramDoc.t;
             save_errors := @nil (ProgramData.t * string);
             store := d |})
    as [added [Hs [Hc Hn]]].
  - intros s g.
    destruct (saveProgram_cases s g)
      as [[H1 [H2 [_ [H3 _]]]] | [H1 [H2 [_ [H3 _]]]]].
    + left. repeat split; assumption.
    + right. eexists. repeat split; eassumption.
  - simpl in Hs, Hc, Hn. rewrite Hs, Hc. repeat split.
    + apply (savePrograms_frame l).
    + rewrite <- Hs. exact Hn.
Qed.

(** The records the handlers keep as valid and as invalid. *)
Lemma valid_invalid_lengths {A : Type} (v : A -> ValidationResult)
  (l : list A) :
  List.length
    (map fst (filter (fun result : A * ValidationResult => isValid (snd result))
                (map (fun x => (x, v x)) l)))
  + List.length
      (map (fun result : A * ValidationResult => (fst result, errors (snd result)))
         (filter (fun result : A * ValidationResult => negb (isValid (snd result)))
            (map (fun x => (x, v x)) l)))
  = List.length l.
Proof.
  rewrite (filter_paired v isValid).
  rewrite (filter_paired v (fun r => negb (isValid r))).
  rewrite !length_map.
  apply (filter_length (fun x => isValid (v x))).
Qed.

(** X1.  The summary of every response adds up: each count is the length of
    the list it stands for, a dry run's valid and invalid records make up
    [totalProcessed], and so do an import's saved records, save errors and
    validation errors — whatever the store answered along the way. *)
Theorem import_summary_adds_up (Date_valid : string -> bool)
  (openai : model ParticipantData.t) (openaiG : model ProgramData.t)
  (req : request) (w : world) :
  accounted (fst (importParticipants Date_valid openai req w))
  /\ accounted (fst (importPrograms openaiG req w)).
Proof.
  split.
  - unfold importParticipants, caught.
    destruct (file req) as [f|]; [|exact I].
    destruct (parseFile (files w) (path f)) as [[rows|m]|];
      [|exact I|exact I].
    destruct (processParticipantData openai rows) as [[recs|]|e];
      try exact I.
    pose proof (valid_invalid_lengths (validateParticipantData Date_valid) recs)
      as Hsplit.
    destruct (isDryRun req); simpl.
    + repeat split. lia.
    + match goal with
      | |- context [saveParticipants ?l ?d] =>
          destruct (saveParticipants_spec l d) as [_ [_ Hloop]]
      end.
      repeat split. lia.
  - unfold importPrograms, caught.
    destruct (file req) as [f|]; [|exact I].
    destruct (parseFile (files w) (path f)) as [[rows|m]|];
      [|exact I|exact I].
    destruct (processProgramData openaiG rows) as [[recs|]|e];
      try exact I.
    pose proof (valid_invalid_lengths validateProgramData recs) as Hsplit.
    destruct (isDryRun req); simpl.
    + repeat split. lia.
    + match goal with
      | |- context [savePrograms ?l ?d] =>
          destruct (savePrograms_spec l d) as [_ [_ Hloop]]
      end.
      repeat split. lia.
Qed.

(** X2.  A handler only ever appends: after any request the participants
    collection is the old one followed by exactly the documents the response
    lists as saved, in that order, and the other collection is untouched;
    nothing stored before is changed, reordered or removed. *)
Theorem import_appends_exactly_the_saved (Date_valid : string -> bool)
  (openai : model ParticipantData.t) (openaiG : model ProgramData.t)
  (req : request) (w : world) :
  (participants (db (snd (importParticipants Date_valid openai req w)))
   = (participants (db w)
      ++ saved_of (fst (importParticipants Date_valid openai req w)))%list
   /\ programs (db (snd (importParticipants Date_valid openai req w)))
      = programs (db w))
  /\ (programs (db (snd (importPrograms openaiG req w)))
      = (programs (db w) ++ saved_of (fst (importPrograms openaiG req w)))%list
      /\ participants (db (snd (importPrograms openaiG req w)))
         = participants (db w)).
Proof.
  split.
  - unfold importParticipants, caught.
    destruct (file req) as [f|]; [|simpl; now rewrite app_nil_r].
    destruct (parseFile (files w) (path f)) as [[rows|m]|];
      [|simpl; now rewrite app_nil_r|simpl; now rewrite app_nil_r].
    destruct (processParticipantData openai rows) as [[recs|]|e];
      try (simpl; now rewrite app_nil_r).
    destruct (isDryRun req); [simpl; now rewrite app_nil_r|].
    simpl.
    match goal with
    | |- context [saveParticipants ?l ?d] =>
        destruct (saveParticipants_spec l d) as [Hp [Hg _]]
    end.
    split; assumption.
  - unfold importPrograms, caught.
    destruct (file req) as [f|]; [|simpl; now rewrite app_nil_r].
    destruct (parseFile (files w) (path f)) as [[rows|m]|];
      [|simpl; now rewrite app_nil_r|simpl; now rewrite app_nil_r].
    destruct (processProgramData openaiG rows) as [[recs|]|e];
      try (simpl; now rewrite app_nil_r).
    destruct (isDryRun req); [simpl; now rewrite app_nil_r|].
    simpl.
    match goal with
    | |- context [savePrograms ?l ?d] =>
        destruct (savePrograms_spec l d) as [Hg [Hp _]]
    end.
    split; assumption.
Qed.

(** ** Natural keys stay unique *)

Lemma NoDup_map_push {A B : Type} (key : A -> B) (l : list A) (x : A) :
  NoDup (map key l) ->
  (forall y, In y l -> key y <> key x) ->
  NoDup (map key (push l x)).
Proof.
  intros Hl Hfresh. unfold push. rewrite map_app. apply NoDup_app.
  - exact Hl.
  - simpl. constructor; [intros []|constructor].
  - intros k Hk [<- | []]. apply in_map_iff in Hk.
    destruct Hk as [y [Hy Hin]]. apply (Hfresh y Hin). exact Hy.
Qed.

Lemma saveParticipant_keeps_ids_unique
  (s : saving ParticipantData.t ParticipantDoc.t) (r : ParticipantData.t) :
  ParticipantData.identificationNumber r <> None ->
  NoDup (map ParticipantDoc.identificationNumber (participants (store s))) ->
  NoDup (map ParticipantDoc.identificationNumber
           (participants (store (saveParticipant s r)))).
Proof.
  intros Hid Hnodup.
  destruct (saveParticipant_cases s r)
    as [[_ [_ [H _]]] | [_ [_ [H [_ [_ Hfind]]]]]]; rewrite H; [exact Hnodup|].
  apply NoDup_map_push; [exact Hnodup|].
  intros p Hp. pose proof (find_none _ _ Hfind p Hp) as Hdiff.
  apply same_identificationNumber_false in Hdiff.
  destruct (ParticipantData.identificationNumber r) as [i|] eqn:Hi;
    [|contradiction].
  simpl. rewrite Hi. simpl. congruence.
Qed.

Lemma saveProgram_keeps_names_unique
  (s : saving ProgramData.t ProgramDoc.t) (g : ProgramData.t) :
  ProgramData.name g <> None ->
  NoDup (map (fun p => Js.toLowerCase (ProgramDoc.name p)) (programs (store s))) ->
  NoDup (map (fun p => Js.toLowerCase (ProgramDoc.name p))
           (programs (store (saveProgram s g)))).
Proof.
  intros Hname Hnodup.
  destruct (saveProgram_cases s g)
    as [[_ [_ [_ [H _]]]] | [_ [_ [_ [H [_ Hfind]]]]]]; rewrite H;
    [exact Hnodup|].
  apply NoDup_map_push; [exact Hnodup|].
  intros p Hp. unfold find_same_name in Hfind.
  destruct (ProgramData.name g) as [n|] eqn:Hn; [|contradiction].
  injection Hfind as Hfind.
  pose proof (find_none _ _ Hfind p Hp) as Hdiff. simpl in Hdiff.
  apply String.eqb_neq in Hdiff. simpl. rewrite Hn. exact Hdiff.
Qed.

Lemma fold_left_keeps {A B : Type} (step : A -> B -> A) (good : B -> Prop)
  (inv : A -> Prop) :
  (forall a b, good b -> inv a -> inv (step a b)) ->
  forall l a, Forall good l -> inv a -> inv (fold_left step l a).
Proof.
  intros Hstep. induction l as [|b l IH]; intros a Hall Ha; [exact Ha|].
  inversion Hall; subst. simpl. apply IH; [assumption|]. now apply Hstep.
Qed.

Lemma valid_records_kept {A : Type} (v : A -> ValidationResult) (l : list A) :
  Forall (fun x => isValid (v x) = true)
    (map fst (filter (fun result : A * ValidationResult => isValid (snd result))
                (map (fun x => (x, v x)) l))).
Proof.
  rewrite (filter_paired v isValid), map_fst_paired.
  apply Forall_forall. intros x Hx. apply filter_In in Hx. tauto.
Qed.

(** X3.  The handlers keep the natural keys unique.  If no two stored
    participants share an identification number, none do after a request to
    the participants handler; if no two stored programs share a name up to
    letter case, none do after a request to the programs handler.  This
    holds for every file, every answer of the model and every failure of
    the store. *)
Theorem import_keeps_natural_keys_unique (Date_valid : string -> bool)
  (openai : model ParticipantData.t) (openaiG : model ProgramData.t)
  (req : request) (w : world) :
  NoDup (map ParticipantDoc.identificationNumber (participants (db w))) ->
  NoDup (map (fun p => Js.toLowerCase (ProgramDoc.name p)) (programs (db w))) ->
  NoDup (map ParticipantDoc.identificationNumber
           (participants (db (snd (importParticipants Date_valid openai req w)))))
  /\ NoDup (map (fun p => Js.toLowerCase (ProgramDoc.name p))
              (programs (db (snd (importPrograms openaiG req w))))).
Proof.
  intros Hids Hnames. split.
  - unfold importParticipants, caught.
    destruct (file req) as [f|]; [|exact Hids].
    destruct (parseFile (files w) (path f)) as [[rows|m]|];
      [|exact Hids|exact Hids].
    destruct (processParticipantData openai rows) as [[recs|]|e];
      try exact Hids.
    destruct (isDryRun req); [exact Hids|].
    simpl. unfold saveParticipants.
    apply (fold_left_keeps saveParticipant
             (fun r => isValid (validateParticipantData Date_valid r) = true)
             (fun s => NoDup (map ParticipantDoc.identificationNumber
                                (participants (store s))))).
    + intros s r Hr. apply saveParticipant_keeps_ids_unique.
      destruct (valid_participant_has_id Date_valid r Hr) as [i [Hi _]].
      congruence.
    + apply valid_records_kept.
    + exact Hids.
  - unfold importPrograms, caught.
    destruct (file req) as [f|]; [|exact Hnames].
    destruct (parseFile (files w) (path f)) as [[rows|m]|];
      [|exact Hnames|exact Hnames].
    destruct (processProgramData openaiG rows) as [[recs|]|e];
      try exact Hnames.
    destruct (isDryRun req); [exact Hnames|].
    simpl. unfold savePrograms.
    apply (fold_left_keeps saveProgram
             (fun g => isValid (validateProgramData g) = true)
             (fun s => NoDup (map (fun p => Js.toLowerCase (ProgramDoc.name p))
                                (programs (store s))))).
    + intros s g Hg. apply saveProgram_keeps_names_unique.
      destruct (valid_program_has_name g Hg) as [n [Hn _]]. congruence.
    + apply valid_records_kept.
    + exact Hnames.
Qed.

Lemma import_keeps_natural_keys_unique_witness :
  NoDup (map ParticipantDoc.identificationNumber
           (participants
              (db (snd (importParticipants node_Date_valid answers_ana_twice
                          (csv_request None) sample_world)))))
  /\ NoDup (map (fun p => Js.toLowerCase (ProgramDoc.name p))
              (programs
                 (db (snd (importPrograms answers_art_club (csv_request None)
                             sample_world))))).
Proof.
  apply (import_keeps_natural_keys_unique node_Date_valid answers_ana_twice
           answers_art_club (csv_request None) sample_world).
  - simpl. constructor; [intros []|constructor].
  - simpl. constructor; [intros []|constructor].
Defined.

(** ** Round trip through the store *)

Lemma find_push_fresh {A : Type} (f : A -> bool) (l : list A) (x : A) :
  (forall y, In y l -> f y = false) -> f x = true ->
  find f (push l x) = Some x.
Proof.
  intros Hl Hx. unfold push. induction l as [|a l IH]; simpl.
  - now rewrite Hx.
  - rewrite (Hl a (or_introl eq_refl)). apply IH.
    intros y Hy. apply Hl. now right.
Qed.

(** X4.  Round trip.  A valid participant record whose identification
    number is new, saved by one turn of the loop in a store that answers its
    calls, is what [getAll] and the look-up by identification number then
    return: it is the document reported as saved, its name and
    identification number are the record's, its other fields are the
    record's with [''] or [[]] for a missing one, and it is active. *)
Theorem saved_participant_is_found_by_its_number (Date_valid : string -> bool)
  (s : saving ParticipantData.t ParticipantDoc.t) (r : ParticipantData.t) :
  isValid (validateParticipantData Date_valid r) = true ->
  faults (store s) = [] ->
  (forall p, In p (participants (store s)) ->
             Some (ParticipantDoc.identificationNumber p)
             <> ParticipantData.identificationNumber r) ->
  exists d,
    Participant.getAll (store (saveParticipant s r))
    = (Ok (participants (store (saveParticipant s r))),
       store (saveParticipant s r))
    /\ find (same_identificationNumber r)
         (participants (store (saveParticipant s r))) = Some d
    /\ saved_docs (saveParticipant s r) = push (saved_docs s) d
    /\ Some (ParticipantDoc.name d) = ParticipantData.name r
    /\ Some (ParticipantDoc.identificationNumber d)
       = ParticipantData.identificationNumber r
    /\ ParticipantDoc.dateOfBirth d = Js.or_empty (ParticipantData.dateOfBirth r)
    /\ ParticipantDoc.address d = Js.or_empty (ParticipantData.address r)
    /\ ParticipantDoc.referralDate d
       = Js.or_empty (ParticipantData.referralDate r)
    /\ ParticipantDoc.school d = Js.or_empty (ParticipantData.school r)
    /\ ParticipantDoc.programs d = Js.or_nil (ParticipantData.programs r)
    /\ ParticipantDoc.notes d = Js.or_nil (ParticipantData.notes r)
    /\ ParticipantDoc.isActive d = true.
Proof.
  intros Hvalid Hf Hfresh.
  assert (Hfresh' : forall p, In p (participants (store s)) ->
                              same_identificationNumber r p = false).
  { intros p Hp. apply same_identificationNumber_false. now apply Hfresh. }
  rewrite (saveParticipant_fresh s r Hf Hfresh').
  destruct (valid_participant_has_id Date_valid r Hvalid) as [i [Hi _]].
  assert (Hname : exists n, ParticipantData.name r = Some n).
  { rewrite validateParticipantData_isValid in Hvalid.
    destruct (ParticipantData.name r) as [n|]; [now exists n|discriminate]. }
  destruct Hname as [n Hn].
  exists (Participant.construct (next_id (store s)) r).
  simpl. rewrite Hi, Hn. simpl. repeat split.
  apply find_push_fresh; [exact Hfresh'|].
  apply same_identificationNumber_true. simpl. now rewrite Hi.
Qed.

Lemma saved_participant_is_found_by_its_number_witness :
  exists d,
    find (same_identificationNumber ana)
      (participants (store (saveParticipant (no_saving _ _ sample_store) ana)))
    = Some d
    /\ Some (ParticipantDoc.name d) = ParticipantData.name ana.
Proof.
  destruct (saved_participant_is_found_by_its_number node_Date_valid
              (no_saving _ _ sample_store) ana eq_refl eq_refl)
    as [d [_ [Hfind [_ [Hname _]]]]].
  - intros p [<- | []]. simpl. discriminate.
  - exists d. split; [exact Hfind | exact Hname].
Defined.

(** X5.  A valid program record with a new name, saved by one turn of the
    loop in a store that answers its calls, is found by the duplicate check
    under its name in any letter case, with the record's name and
    description. *)
Theorem saved_program_is_found_in_any_case
  (s : saving ProgramData.t ProgramDoc.t) (g other : ProgramData.t)
  (n n' : string) :
  isValid (validateProgramData g) = true ->
  faults (store s) = [] ->
  ProgramData.name g = Some n ->
  ProgramData.name other = Some n' ->
  Js.toLowerCase n' = Js.toLowerCase n ->
  (forall p, In p (programs (store s)) ->
             Js.toLowerCase (ProgramDoc.name p) <> Js.toLowerCase n) ->
  exists d,
    find_same_name other (programs (store (saveProgram s g))) = Ok (Some d)
    /\ saved_docs (saveProgram s g) = push (saved_docs s) d
    /\ ProgramDoc.name d = n
    /\ Some (ProgramDoc.description d) = ProgramData.description g
    /\ ProgramDoc.participants d = Js.or_nil (ProgramData.participants g)
    /\ ProgramDoc.isActive d = true.
Proof.
  intros Hvalid Hf Hn Hn' Hsame Hfresh.
  rewrite (saveProgram_fresh s g n Hf Hn Hfresh).
  assert (Hdesc : exists t, ProgramData.description g = Some t).
  { rewrite validateProgramData_isValid in Hvalid.
    apply andb_true_iff in Hvalid. destruct Hvalid as [_ Hvalid].
    destruct (ProgramData.description g) as [t|]; [now exists t|discriminate]. }
  destruct Hdesc as [t Ht].
  exists (Program.construct (next_id (store s)) g).
  unfold find_same_name. simpl. rewrite Hn', Hn, Ht. simpl. repeat split.
  f_equal. apply find_push_fresh.
  - intros p Hp. apply String.eqb_neq. rewrite Hsame. now apply Hfresh.
  - simpl. rewrite Hn. simpl. apply String.eqb_eq. now rewrite Hsame.
Qed.

Lemma saved_program_is_found_in_any_case_witness :
  exists d,
    find_same_name art_club_shouting
      (programs (store (saveProgram (no_saving _ _ empty_store) art_club)))
    = Ok (Some d)
    /\ ProgramDoc.name d = "Art Club".
Proof.
  destruct (saved_program_is_found_in_any_case (no_saving _ _ empty_store)
              art_club art_club_shouting "Art Club" "ART CLUB"
              eq_refl eq_refl eq_refl eq_refl eq_refl)
    as [d [Hfind [_ [Hname _]]]].
  - intros p [].
  - exists d. split; [exact Hfind | exact Hname].
Defined.

(** ** The temporary file *)

Lemma read_file_unlink_other (fs : filesystem) (p q : string) :
  q <> p -> read_file (unlink p fs) q = read_file fs q.
Proof.
  intros Hq. induction fs as [|[x c] fs IH]; [reflexivity|].
  simpl. destruct (String.eqb x p) eqn:Exp; simpl.
  - apply String.eqb_eq in Exp. subst x.
    destruct (String.eqb p q) eqn:Epq; [|exact IH].
    apply String.eqb_eq in Epq. congruence.
  - now rewrite IH.
Qed.

(** X6.  A handler touches no file but its own upload: every other path
    reads after the request as it read before. *)
Theorem import_touches_only_its_upload (Date_valid : string -> bool)
  (openai : model ParticipantData.t) (openaiG : model ProgramData.t)
  (req : request) (w : world) (q : string) :
  (forall f, file req = Some f -> q <> path f) ->
  read_file (files (snd (importParticipants Date_valid openai req w))) q
  = read_file (files w) q
  /\ read_file (files (snd (importPrograms openaiG req w))) q
     = read_file (files w) q.
Proof.
  intros Hq. split.
  - unfold importParticipants, caught.
    destruct (file req) as [f|]; [|reflexivity].
    specialize (Hq f eq_refl).
    destruct (parseFile (files w) (path f)) as [[rows|m]|].
    + destruct (processParticipantData openai rows) as [[recs|]|e].
      * destruct (isDryRun req); simpl; now apply read_file_unlink_other.
      * simpl. destruct (negb _); [now apply read_file_unlink_other|reflexivity].
      * reflexivity.
    + simpl. destruct (negb _); [now apply read_file_unlink_other|reflexivity].
    + reflexivity.
  - unfold importPrograms, caught.
    destruct (file req) as [f|]; [|reflexivity].
    specialize (Hq f eq_refl).
    destruct (parseFile (files w) (path f)) as [[rows|m]|].
    + destruct (processProgramData openaiG rows) as [[recs|]|e].
      * destruct (isDryRun req); simpl; now apply read_file_unlink_other.
      * simpl. destruct (negb _); [now apply read_file_unlink_other|reflexivity].
      * reflexivity.
    + simpl. destruct (negb _); [now apply read_file_unlink_other|reflexivity].
    + reflexivity.
Qed.

Lemma import_touches_only_its_upload_witness :
  read_file (files (snd (importParticipants node_Date_valid answers_ana_ben
                           (csv_request None) sample_world))) temp_xlsx
  = Some corrupt_file
  /\ read_file (files (snd (importPrograms answers_art_club (csv_request None)
                              sample_world))) temp_xlsx
     = Some corrupt_file.
Proof.
  apply (import_touches_only_its_upload node_Date_valid answers_ana_ben
           answers_art_club (csv_request None) sample_world temp_xlsx).
  intros f [= <-]. apply String.eqb_neq. reflexivity.
Defined.

(** X7.  Unless the answer is the 500 of a failed extraction, the upload is
    gone from the temporary directory when a handler has answered: after a
    dry run, after an import, and after the 500 of a parse error or of any
    other exception. *)
Theorem temp_file_removed_unless_extraction_failed (Date_valid : string -> bool)
  (openai : model ParticipantData.t) (openaiG : model ProgramData.t)
  (req : request) (f : uploaded_file) (w : world) :
  file req = Some f ->
  path f <> "" ->
  (forall e, fst (importParticipants Date_valid openai req w)
             <> Failure 500 "Failed to process data with AI" (Some e)) ->
  (forall e, fst (importPrograms openaiG req w)
             <> Failure 500 "Failed to process data with AI" (Some e)) ->
  exists_file (files (snd (importParticipants Date_valid openai req w))) (path f)
  = false
  /\ exists_file (files (snd (importPrograms openaiG req w))) (path f) = false.
Proof.
  intros Hfile Hpath Hp Hg. apply String.eqb_neq in Hpath. split.
  - revert Hp. unfold importParticipants, caught. rewrite Hfile.
    destruct (parseFile (files w) (path f)) as [[rows|m]|] eqn:Hparse.
    + destruct (processParticipantData openai rows) as [[recs|]|e].
      * intros _. destruct (isDryRun req); simpl; apply exists_file_unlink.
      * intros _. simpl. rewrite Hpath. apply exists_file_unlink.
      * intros H. exfalso. apply (H e). reflexivity.
    + intros _. simpl. rewrite Hpath. apply exists_file_unlink.
    + intros _. simpl. apply parseFile_pending. exact Hparse.
  - revert Hg. unfold importPrograms, caught. rewrite Hfile.
    destruct (parseFile (files w) (path f)) as [[rows|m]|] eqn:Hparse.
    + destruct (processProgramData openaiG rows) as [[recs|]|e].
      * intros _. destruct (isDryRun req); simpl; apply exists_file_unlink.
      * intros _. simpl. rewrite Hpath. apply exists_file_unlink.
      * intros H. exfalso. apply (H e). reflexivity.
    + intros _. simpl. rewrite Hpath. apply exists_file_unlink.
    + intros _. simpl. apply parseFile_pending. exact Hparse.
Qed.

Lemma temp_file_removed_unless_extraction_failed_witness :
  exists_file
    (files (snd (importParticipants node_Date_valid answers_ana_ben
                   (csv_request (Some "true")) sample_world))) temp_csv
  = false
  /\ exists_file
       (files (snd (importPrograms answers_art_club (csv_request (Some "true"))
                      sample_world))) temp_csv
     = false.
Proof.
  apply (temp_file_removed_unless_extraction_failed node_Date_valid
           answers_ana_ben answers_art_club (csv_request (Some "true"))
           (req_file temp_csv "youth.csv" "text/csv") sample_world).
  - reflexivity.
  - apply String.eqb_neq. reflexivity.
  - intros e. vm_compute. discriminate.
  - intros e. vm_compute. discriminate.
Defined.

(** ** Refused uploads *)

Lemma import_never_answers_400_for_a_file (Date_valid : string -> bool)
  (openai : model ParticipantData.t) (openaiG : model ProgramData.t)
  (req : request) (f : uploaded_file) (w : world) :
  file req = Some f ->
  status_of (fst (importParticipants Date_valid openai req w)) <> Some 400
  /\ status_of (fst (importPrograms openaiG req w)) <> Some 400.
Proof.
  intros Hfile. split.
  - unfold importParticipants, caught. rewrite Hfile.
    destruct (parseFile (files w) (path f)) as [[rows|m]|];
      [|simpl; discriminate|simpl; discriminate].
    destruct (processParticipantData openai rows) as [[recs|]|e];
      try (simpl; discriminate).
    destruct (isDryRun req); simpl; discriminate.
  - unfold importPrograms, caught. rewrite Hfile.
    destruct (parseFile (files w) (path f)) as [[rows|m]|];
      [|simpl; discriminate|simpl; discriminate].
    destruct (processProgramData openaiG rows) as [[recs|]|e];
      try (simpl; discriminate).
    destruct (isDryRun req); simpl; discriminate.
Qed.

(** X8.  A 400 from an import route means nothing happened: whether the
    file part was missing, under an unexpected field, of a refused type or
    too large, no file is left in the temporary directory that was not
    there and the store is as it was. *)
Theorem a_400_changes_nothing (Date_valid : string -> bool)
  (openai : model ParticipantData.t) (openaiG : model ProgramData.t)
  (tempDir timestamp : string) (u : upload_request) (w : world)
  (error : string) (details : option string) :
  (fst (postParticipants Date_valid openai tempDir timestamp u w)
   = Responded (Failure 400 error details) ->
   snd (postParticipants Date_valid openai tempDir timestamp u w) = w)
  /\ (fst (postPrograms openaiG tempDir timestamp u w)
      = Responded (Failure 400 error details) ->
      snd (postPrograms openaiG tempDir timestamp u w) = w).
Proof.
  destruct w as [d fs]. split.
  - unfold postParticipants, uploadSingle. cbn [files db].
    destruct (part u) as [p|].
    + destruct (String.eqb (fieldname p) ""); [reflexivity|].
      destruct (String.eqb (part_originalname p) ""); [reflexivity|].
      destruct (negb (String.eqb (fieldname p) "file")); [reflexivity|].
      destruct (negb (fileFilter p)); [reflexivity|].
      destruct (N.ltb fileSizeLimit (part_size p)); [reflexivity|].
      match goal with
      | |- context [importParticipants _ _ ?r ?w0] =>
          pose proof (proj1 (import_never_answers_400_for_a_file Date_valid
                               openai openaiG r _ w0 eq_refl)) as Hnot;
          destruct (importParticipants Date_valid openai r w0) as [resp w1]
      end.
      simpl. intros [= ->]. simpl in Hnot. contradiction.
    + reflexivity.
  - unfold postPrograms, uploadSingle. cbn [files db].
    destruct (part u) as [p|].
    + destruct (String.eqb (fieldname p) ""); [reflexivity|].
      destruct (String.eqb (part_originalname p) ""); [reflexivity|].
      destruct (negb (String.eqb (fieldname p) "file")); [reflexivity|].
      destruct (negb (fileFilter p)); [reflexivity|].
      destruct (N.ltb fileSizeLimit (part_size p)); [reflexivity|].
      match goal with
      | |- context [importPrograms _ ?r ?w0] =>
          pose proof (proj2 (import_never_answers_400_for_a_file Date_valid
                               openai openaiG r _ w0 eq_refl)) as Hnot;
          destruct (importPrograms openaiG r w0) as [resp w1]
      end.
      simpl. intros [= ->]. simpl in Hnot. contradiction.
    + reflexivity.
Qed.

Lemma a_400_changes_nothing_witness :
  snd (postParticipants node_Date_valid answers_ana_ben "/app/backend/temp"
         "1700000000006" {| part := Some photo_part; body_dryRun := None |}
         sample_world)
  = sample_world.
Proof.
  apply (proj1 (a_400_changes_nothing node_Date_valid answers_ana_ben
                  answers_art_club "/app/backend/temp" "1700000000006"
                  {| part := Some photo_part; body_dryRun := None |}
                  sample_world "Only CSV and Excel files are allowed" None)).
  vm_compute. reflexivity.
Defined.

(** ** Blank fields *)

Lemma trimStart_blank (s : string) :
  Forall (fun c => Js.is_space c = true) (list_ascii_of_string s) ->
  Js.trimStart s = "".
Proof.
  induction s as [|c r IH]; simpl; intros H; [reflexivity|].
  inversion H as [|c' r' Hc Hr]; subst. rewrite Hc. now apply IH.
Qed.

Lemma missing_or_shorter_blank (s : string) (n : nat) :
  0 < n ->
  Forall (fun c => Js.is_space c = true) (list_ascii_of_string s) ->
  missing_or_shorter (Some s) n = true.
Proof.
  intros Hn Hblank. unfold missing_or_shorter, Js.trim.
  rewrite (trimStart_blank s Hblank). simpl.
  apply orb_true_iff. right. apply Nat.ltb_lt. exact Hn.
Qed.

(** X9.  A name made of white space only is as good as no name: whatever
    its length, the participant validator and the program validator refuse
    the record with their name error. *)
Theorem blank_name_is_refused (Date_valid : string -> bool)
  (p : ParticipantData.t) (g : ProgramData.t) (n : string) :
  ParticipantData.name p = Some n ->
  ProgramData.name g = Some n ->
  Forall (fun c => Js.is_space c = true) (list_ascii_of_string n) ->
  (isValid (validateParticipantData Date_valid p) = false
   /\ In "Name is required and must be at least 2 characters"
        (errors (validateParticipantData Date_valid p)))
  /\ (isValid (validateProgramData g) = false
      /\ In "Program name is required and must be at least 2 characters"
           (errors (validateProgramData g))).
Proof.
  intros Hp Hg Hblank.
  assert (Hshort : missing_or_shorter (Some n) 2 = true)
    by (apply missing_or_shorter_blank; [lia | exact Hblank]).
  split; split.
  - rewrite validateParticipantData_isValid, Hp, Hshort. reflexivity.
  - unfold validateParticipantData. rewrite Hp, Hshort.
    destruct (present_and_invalid_date Date_valid (ParticipantData.dateOfBirth p)),
      (present_and_invalid_date Date_valid (ParticipantData.referralDate p)),
      (missing_or_shorter (ParticipantData.identificationNumber p) 3);
      simpl; tauto.
  - rewrite validateProgramData_isValid, Hg, Hshort. reflexivity.
  - unfold validateProgramData. rewrite Hg, Hshort.
    destruct (missing_or_shorter (ProgramData.description g) 10); simpl; tauto.
Qed.

Lemma blank_name_is_refused_witness :
  isValid (validateParticipantData node_Date_valid blank_participant) = false
  /\ isValid (validateProgramData blank_program) = false.
Proof.
  destruct (blank_name_is_refused node_Date_valid blank_participant
              blank_program "   " eq_refl eq_refl)
    as [[Hp _] [Hg _]].
  - repeat constructor.
  - split; [exact Hp | exact Hg].
Defined.

(** ** Dry run and import *)

(** X10.  The dry run is a faithful preview.  Run on the same upload with
    the same answer of the model, a dry run and an import fail alike, or
    report the same total and the same invalid records with the same
    errors, and the import saves or reports a save error for as many records
    as the dry run lists as valid. *)
Theorem dry_run_predicts_import (Date_valid : string -> bool)
  (openai : model ParticipantData.t) (openaiG : model ProgramData.t)
  (dry real : request) (w : world) :
  file dry = file real ->
  isDryRun dry = true ->
  isDryRun real = false ->
  predicts (fst (importParticipants Date_valid openai dry w))
           (fst (importParticipants Date_valid openai real w))
  /\ predicts (fst (importPrograms openaiG dry w))
              (fst (importPrograms openaiG real w)).
Proof.
  intros Hfile Hdry Hreal. split.
  - unfold importParticipants, caught. rewrite Hfile, Hdry, Hreal.
    destruct (file real) as [f|]; [|simpl; tauto].
    destruct (parseFile (files w) (path f)) as [[rows|m]|];
      [|simpl; tauto|simpl; tauto].
    destruct (processParticipantData openai rows) as [[recs|]|e];
      try (simpl; tauto).
    simpl.
    match goal with
    | |- context [saveParticipants ?l ?d] =>
        destruct (saveParticipants_spec l d) as [_ [_ Hloop]]
    end.
    repeat split. exact Hloop.
  - unfold importPrograms, caught. rewrite Hfile, Hdry, Hreal.
    destruct (file real) as [f|]; [|simpl; tauto].
    destruct (parseFile (files w) (path f)) as [[rows|m]|];
      [|simpl; tauto|simpl; tauto].
    destruct (processProgramData openaiG rows) as [[recs|]|e];
      try (simpl; tauto).
    simpl.
    match goal with
    | |- context [savePrograms ?l ?d] =>
        destruct (savePrograms_spec l d) as [_ [_ Hloop]]
    end.
    repeat split. exact Hloop.
Qed.

Lemma dry_run_predicts_import_witness :
  predicts
    (fst (importParticipants node_Date_valid answers_ana_ben
            (csv_request (Some "true")) sample_world))
    (fst (importParticipants node_Date_valid answers_ana_ben
            (csv_request None) sample_world))
  /\ predicts
       (fst (importPrograms answers_art_club (csv_request (Some "true"))
               sample_world))
       (fst (importPrograms answers_art_club (csv_request None) sample_world)).
Proof.
  apply (dry_run_predicts_import node_Date_valid answers_ana_ben
           answers_art_club (csv_request (Some "true")) (csv_request None)
           sample_world); reflexivity.
Defined.

(** * Authentication and roles *)

Lemma Staff_getById_found (dir : directory) (id : option string)
  (u : StaffDoc.t) :
  Staff.getById dir id = Ok u ->
  id = Some (StaffDoc.id u) /\ In u (staff dir).
Proof.
  unfold Staff.getById.
  destruct (negb (Js.truthy id)) eqn:T; [discriminate|].
  destruct (read_fault dir); [discriminate|].
  destruct (find _ (staff dir)) as [d|] eqn:F; [|discriminate].
  intros [= <-]. apply find_some in F. destruct F as [Hin Heq].
  apply String.eqb_eq in Heq. split; [|exact Hin].
  destruct id as [i|]; [|discriminate T]. simpl in Heq. now subst.
Qed.

(** X11.  Whoever [authenticateToken] lets through is the owner of the
    token: the secret is configured, the header carries a non-empty token
    that verifies under it, and the user placed in [req.user] is the staff
    document with the token's [userId], and is active. *)
Theorem authenticated_user_owns_the_token (secret authHeader : option string)
  (jwt_verify : verifier) (dir : directory) (u : StaffDoc.t) :
  authenticateToken secret authHeader jwt_verify dir = inr u ->
  exists key token,
    secret = Some key /\ key <> ""
    /\ token_of authHeader = Some token /\ token <> ""
    /\ jwt_verify token key = Decoded (Some (StaffDoc.id u))
    /\ In u (staff dir)
    /\ StaffDoc.isActive u = true.
Proof.
  unfold authenticateToken, authentication_caught.
  destruct secret as [key|]; [|discriminate].
  destruct (Js.truthy (Some key)) eqn:Tk; [|discriminate]. simpl negb. cbv iota.
  destruct (token_of authHeader) as [token|]; [|discriminate].
  destruct (Js.truthy (Some token)) eqn:Tt; [|discriminate]. simpl negb. cbv iota.
  simpl Js.or_empty.
  destruct (jwt_verify token key) as [userId|name msg] eqn:V.
  - destruct (Staff.getById dir userId) as [user|m] eqn:G; [|discriminate].
    destruct (StaffDoc.isActive user) eqn:A; [|discriminate].
    intros [= <-]. apply Staff_getById_found in G. destruct G as [-> Hin].
    exists key, token. repeat split; try assumption.
    + intros ->. discriminate Tk.
    + intros ->. discriminate Tt.
  - destruct (String.eqb name "JsonWebTokenError"); [discriminate|].
    destruct (String.eqb name "TokenExpiredError"); discriminate.
Qed.

Lemma authenticated_user_owns_the_token_witness :
  exists key token,
    Some "k3y" = Some key /\ key <> ""
    /\ token_of (Some "Bearer token-of-s1") = Some token /\ token <> ""
    /\ sample_verifier token key = Decoded (Some "s1")
    /\ In (staff_member "s1" "heartSmiles" true) (staff sample_directory)
    /\ StaffDoc.isActive (staff_member "s1" "heartSmiles" true) = true.
Proof.
  apply (authenticated_user_owns_the_token (Some "k3y")
           (Some "Bearer token-of-s1") sample_verifier sample_directory
           (staff_member "s1" "heartSmiles" true)).
  reflexivity.
Defined.

Lemma split_space_scheme (scheme rest : string) :
  Forall (fun c => (nat_of_ascii c =? 32) = false) (list_ascii_of_string scheme) ->
  split_space (scheme ++ " " ++ rest) = scheme :: split_space rest.
Proof.
  induction scheme as [|c r IH]; intros H.
  - reflexivity.
  - inversion H as [|c' r' Hc Hr]; subst.
    specialize (IH Hr). simpl in IH |- *. rewrite Hc, IH. reflexivity.
Qed.

(** X12.  The scheme of the authorization header is never looked at: the
    token is the second piece of the header split at spaces, so any word
    in front of the token, or none, does what [Bearer] does. *)
Theorem authorization_scheme_is_ignored (secret : option string)
  (scheme token : string) (jwt_verify : verifier) (dir : directory) :
  Forall (fun c => (nat_of_ascii c =? 32) = false) (list_ascii_of_string scheme) ->
  authenticateToken secret (Some (scheme ++ " " ++ token)) jwt_verify dir
  = authenticateToken secret (Some ("Bearer " ++ token)) jwt_verify dir.
Proof.
  intros Hscheme.
  assert (Htoken : token_of (Some (scheme ++ " " ++ token))
                   = token_of (Some ("Bearer " ++ token))).
  { unfold token_of.
    replace (Js.truthy (Some (scheme ++ " " ++ token))) with true
      by (destruct scheme; reflexivity).
    change ("Bearer " ++ token)%string with ("Bearer" ++ " " ++ token)%string.
    replace (Js.truthy (Some ("Bearer" ++ " " ++ token))) with true
      by reflexivity.
    rewrite (split_space_scheme scheme token Hscheme).
    rewrite (split_space_scheme "Bearer" token) by (repeat constructor).
    reflexivity. }
  unfold authenticateToken. rewrite Htoken. reflexivity.
Qed.

Lemma authorization_scheme_is_ignored_witness :
  authenticateToken (Some "k3y") (Some "Basic token-of-s1") sample_verifier
    sample_directory
  = inr (staff_member "s1" "heartSmiles" true).
Proof.
  exact (eq_trans
           (authorization_scheme_is_ignored (Some "k3y") "Basic" "token-of-s1"
              sample_verifier sample_directory ltac:(repeat constructor))
           eq_refl).
Defined.

(** X13.  A token that verifies is still refused when its user is gone or
    inactive, and not alike: if no staff document has the token's [userId]
    the answer is 500 [Authentication error], the look-up having thrown; if
    the document is there and inactive the answer is 401. *)
Theorem missing_user_is_500_inactive_user_is_401 (key token id : string)
  (authHeader : option string) (jwt_verify : verifier) (dir : directory) :
  key <> "" ->
  token_of authHeader = Some token -> token <> "" ->
  jwt_verify token key = Decoded (Some id) -> id <> "" ->
  read_fault dir = None ->
  ((forall d, In d (staff dir) -> StaffDoc.id d <> id) ->
   authenticateToken (Some key) authHeader jwt_verify dir
   = inl (refuse 500 "Authentication error"))
  /\ (forall d, find (fun d => String.eqb (StaffDoc.id d) id) (staff dir) = Some d ->
                StaffDoc.isActive d = false ->
                authenticateToken (Some key) authHeader jwt_verify dir
                = inl (refuse 401 "Invalid or inactive user")).
Proof.
  intros Hkey Htoken Hne Hverify Hid Hfault.
  assert (Tk : Js.truthy (Some key) = true)
    by (destruct key; [contradiction | reflexivity]).
  assert (Tt : Js.truthy (Some token) = true)
    by (destruct token; [contradiction | reflexivity]).
  assert (Ti : Js.truthy (Some id) = true)
    by (destruct id; [contradiction | reflexivity]).
  unfold authenticateToken. rewrite Tk, Htoken, Tt. simpl negb. cbv iota.
  simpl Js.or_empty. rewrite Hverify.
  unfold Staff.getById. rewrite Ti, Hfault. simpl negb. cbv iota.
  simpl Js.or_empty. split.
  - intros Hmissing. rewrite find_absent; [reflexivity|].
    intros d Hd. apply String.eqb_neq. now apply Hmissing.
  - intros d Hfind Hinactive. rewrite Hfind, Hinactive. reflexivity.
Qed.

Lemma missing_user_is_500_inactive_user_is_401_witness :
  authenticateToken (Some "k3y") (Some "Bearer token-of-s9") sample_verifier
    sample_directory
  = inl (refuse 500 "Authentication error")
  /\ authenticateToken (Some "k3y") (Some "Bearer token-of-s3") sample_verifier
       sample_directory
     = inl (refuse 401 "Invalid or inactive user").
Proof.
  split.
  - apply (proj1 (missing_user_is_500_inactive_user_is_401 "k3y" "token-of-s9"
                    "s9" (Some "Bearer token-of-s9") sample_verifier
                    sample_directory ltac:(discriminate) eq_refl
                    ltac:(discriminate) eq_refl ltac:(discriminate) eq_refl)).
    intros d [<- | [<- | [<- | []]]]; discriminate.
  - apply (proj2 (missing_user_is_500_inactive_user_is_401 "k3y" "token-of-s3"
                    "s3" (Some "Bearer token-of-s3") sample_verifier
                    sample_directory ltac:(discriminate) eq_refl
                    ltac:(discriminate) eq_refl ltac:(discriminate) eq_refl)
             (staff_member "s3" "heartSmiles" false)); reflexivity.
Defined.

Lemma authenticateToken_refusal_status (secret authHeader : option string)
  (jwt_verify : verifier) (dir : directory) (r : refusal) :
  authenticateToken secret authHeader jwt_verify dir = inl r ->
  refusal_status r = 401 \/ refusal_status r = 500.
Proof.
  unfold authenticateToken, authentication_caught.
  destruct (negb (Js.truthy secret)); [intros [= <-]; now right|].
  destruct (negb (Js.truthy (token_of authHeader))); [intros [= <-]; now left|].
  destruct (jwt_verify _ _) as [userId|name msg].
  - destruct (Staff.getById dir userId) as [user|m].
    + destruct (negb (StaffDoc.isActive user)); [|discriminate].
      intros [= <-]. now left.
    + simpl. intros [= <-]. now right.
  - destruct (String.eqb name "JsonWebTokenError"); [intros [= <-]; now left|].
    destruct (String.eqb name "TokenExpiredError"); intros [= <-];
      [now left | now right].
Qed.

Lemma authenticateToken_active (secret authHeader : option string)
  (jwt_verify : verifier) (dir : directory) (u : StaffDoc.t) :
  authenticateToken secret authHeader jwt_verify dir = inr u ->
  StaffDoc.isActive u = true.
Proof.
  unfold authenticateToken, authentication_caught.
  destruct (negb (Js.truthy secret)); [discriminate|].
  destruct (negb (Js.truthy (token_of authHeader))); [discriminate|].
  destruct (jwt_verify _ _) as [userId|name msg].
  - destruct (Staff.getById dir userId) as [user|m]; [|discriminate].
    destruct (StaffDoc.isActive user) eqn:A; [|discriminate].
    now intros [= <-].
  - destruct (String.eqb name "JsonWebTokenError"); [discriminate|].
    destruct (String.eqb name "TokenExpiredError"); discriminate.
Qed.

Lemma guard_import_outcome {A : Type} (c : credentials) (w : world)
  (route : world -> A * world) :
  guard_outcome c w route (guard_import c w route).
Proof.
  unfold guard_outcome, guard_import.
  destruct (authenticateToken (secret c) (authorization c) (jwt_verify c)
              (staff_directory c)) as [r|user] eqn:Hauth.
  - simpl. split; [reflexivity|].
    destruct (authenticateToken_refusal_status _ _ _ _ _ Hauth) as [-> | ->];
      simpl; tauto.
  - unfold requireHeartSmilesStaff.
    destruct (String.eqb (StaffDoc.role user) "heartSmiles") eqn:Hrole; simpl.
    + destruct (route w) as [a w'] eqn:Hroute. simpl. split; [reflexivity|].
      exists user. apply String.eqb_eq in Hrole. repeat split; [exact Hrole|].
      exact (authenticateToken_active _ _ _ _ _ Hauth).
    + split; [reflexivity|]. tauto.
Qed.

(** X14.  The import routes run for active HeartSmiles staff only.  Any
    other request — no secret configured, no token, a token that does not
    verify, a user that is gone or inactive, a user of another role — is
    refused with 401, 403 or 500 before the upload middleware: no file is
    stored, the model is not called and the world is as it was. *)
Theorem import_routes_are_guarded (c : credentials)
  (Date_valid : string -> bool) (openai : model ParticipantData.t)
  (openaiG : model ProgramData.t) (tempDir timestamp : string)
  (u : upload_request) (w : world) :
  guard_outcome c w (postParticipants Date_valid openai tempDir timestamp u)
    (routeImportParticipants c Date_valid openai tempDir timestamp u w)
  /\ guard_outcome c w (postPrograms openaiG tempDir timestamp u)
       (routeImportPrograms c openaiG tempDir timestamp u w).
Proof.
  split; apply guard_import_outcome.
Qed.

(** A UMD user's upload is refused and leaves nothing behind. *)
Example umd_upload_is_refused :
  routeImportParticipants (credentials_with "Bearer token-of-s2")
    node_Date_valid answers_ana_dan "/app/backend/temp" "1700000000007"
    {| part := Some csv_part; body_dryRun := None |} sample_world
  = (Denied (refuse 403 "HeartSmiles staff access required"), sample_world).
Proof. vm_compute. reflexivity. Qed.

(** X15.  The role gates are nested.  [requireStaffAccess] lets through
    exactly the users one of [requireHeartSmilesStaff] and [requireUMDStaff]
    lets through; a user past [requireHeartSmilesStaff] is never stopped by
    [requireReadOnlyAccess], whatever the method; a user past
    [requireUMDStaff] is stopped by [requireHeartSmilesStaff] and passes
    [requireReadOnlyAccess] for [GET] only. *)
Theorem role_gates_are_nested (user : StaffDoc.t) :
  (requireStaffAccess user = None
   <-> requireHeartSmilesStaff user = None \/ requireUMDStaff user = None)
  /\ (requireHeartSmilesStaff user = None ->
      forall method, requireReadOnlyAccess user method = None)
  /\ (requireUMDStaff user = None ->
      requireHeartSmilesStaff user
      = Some (refuse 403 "HeartSmiles staff access required")
      /\ forall method, requireReadOnlyAccess user method = None
                        <-> method = "GET").
Proof.
  unfold requireStaffAccess, requireHeartSmilesStaff, requireUMDStaff,
    requireReadOnlyAccess, includes.
  simpl existsb.
  destruct (String.eqb (StaffDoc.role user) "heartSmiles") eqn:H1;
    destruct (String.eqb (StaffDoc.role user) "umd") eqn:H2; simpl.
  - apply String.eqb_eq in H1, H2. rewrite H1 in H2. discriminate H2.
  - repeat split; try tauto; try discriminate.
  - repeat split; try tauto; try discriminate.
    + intros Hm. destruct (String.eqb method "GET") eqn:E.
      * now apply String.eqb_eq.
      * discriminate Hm.
    + intros ->. reflexivity.
  - repeat split; try tauto; try discriminate.
    intros [Hm | Hm]; discriminate Hm.
Qed.

(** * The models' own validators *)

(** X16.  Whatever program the import accepts, the model accepts: a record
    that passes [validateProgramData] passes [Program.validate] with no
    error. *)
Theorem import_valid_program_is_model_valid (g : ProgramData.t) :
  isValid (validateProgramData g) = true ->
  ProgramModel.validate g = {| isValid := true; errors := [] |}.
Proof.
  rewrite validateProgramData_isValid. intros H.
  apply andb_true_iff in H. destruct H as [Hname Hdesc].
  apply negb_true_iff in Hname, Hdesc.
  unfold ProgramModel.validate. rewrite Hname.
  destruct (ProgramData.description g) as [t|]; [|discriminate Hdesc].
  unfold missing_or_shorter in Hdesc. apply orb_false_iff in Hdesc.
  destruct Hdesc as [Ht Hlen]. apply negb_false_iff in Ht. rewrite Ht.
  apply Nat.ltb_ge in Hlen.
  replace (String.length (Js.trim t) <? 2) with false
    by (symmetry; apply Nat.ltb_ge; lia).
  reflexivity.
Qed.

Lemma import_valid_program_is_model_valid_witness :
  ProgramModel.validate art_club = {| isValid := true; errors := [] |}.
Proof.
  apply (import_valid_program_is_model_valid art_club). reflexivity.
Defined.

(** X17.  The one thing the import lets through that [Participant.validate]
    refuses is a missing date of birth: a record that passes
    [validateParticipantData], checked by [Participant.validate] (the record
    has no email), passes with no error if it has a date of birth, and
    otherwise fails with the single error that the date of birth is
    required. *)
Theorem import_valid_participant_under_model_validation
  (Date_valid : string -> bool) (r : ParticipantData.t) :
  isValid (validateParticipantData Date_valid r) = true ->
  ParticipantModel.validate Date_valid r None
  = if Js.truthy (ParticipantData.dateOfBirth r)
    then {| isValid := true; errors := [] |}
    else {| isValid := false; errors := ["Date of birth is required"] |}.
Proof.
  rewrite validateParticipantData_isValid. intros H.
  apply andb_true_iff in H. destruct H as [H Hid].
  apply andb_true_iff in H. destruct H as [H _].
  apply andb_true_iff in H. destruct H as [Hname Hdob].
  apply negb_true_iff in Hname, Hid, Hdob.
  unfold ParticipantModel.validate. rewrite Hname, Hid.
  destruct (ParticipantData.dateOfBirth r) as [d|]; [|reflexivity].
  unfold present_and_invalid_date, isValidDate in Hdob.
  destruct (Js.truthy (Some d)) eqn:T; [|reflexivity].
  simpl in Hdob. apply negb_false_iff in Hdob.
  apply andb_true_iff in Hdob. destruct Hdob as [Hdate _].
  simpl. rewrite Hdate. reflexivity.
Qed.

Lemma import_valid_participant_under_model_validation_witness :
  ParticipantModel.validate node_Date_valid ana None
  = {| isValid := false; errors := ["Date of birth is required"] |}.
Proof.
  apply (import_valid_participant_under_model_validation node_Date_valid ana).
  reflexivity.
Defined.

(** ** [isValidEmail] *)

Lemma span_plain_spec (cs : list ascii) :
  cs = (fst (span_plain cs) ++ snd (span_plain cs))%list
  /\ forallb plain (fst (span_plain cs)) = true
  /\ match snd (span_plain cs) with
     | c :: _ => plain c = false
     | [] => True
     end.
Proof.
  induction cs as [|c r IH]; simpl; [repeat split|].
  destruct (plain c) eqn:P.
  - destruct (span_plain r) as [run rest]. simpl in IH |- *.
    destruct IH as [H1 [H2 H3]]. rewrite P, H2. repeat split; [|exact H3].
    now f_equal.
  - simpl. rewrite P. repeat split.
Qed.

Lemma span_plain_split (a : list ascii) (x : ascii) (r : list ascii) :
  forallb plain a = true -> plain x = false ->
  span_plain (a ++ x :: r) = (a, x :: r).
Proof.
  intros Ha Hx. induction a as [|c a IH]; simpl.
  - now rewrite Hx.
  - simpl in Ha. apply andb_true_iff in Ha. destruct Ha as [Hc Ha].
    rewrite Hc, (IH Ha). reflexivity.
Qed.

Lemma is_dot_true (c : ascii) : Path.is_dot c = true -> c = "."%char.
Proof.
  unfold Path.is_dot. intros H. apply Nat.eqb_eq in H.
  rewrite <- (ascii_nat_embedding c), H. reflexivity.
Qed.

Lemma has_inner_dot_iff (cs : list ascii) :
  has_inner_dot cs = true
  <-> exists b c, cs = (b ++ "."%char :: c)%list /\ b <> [] /\ c <> [].
Proof.
  split.
  - destruct cs as [|x r]; [discriminate|]. simpl. intros H.
    apply existsb_exists in H. destruct H as [dot [Hin Hdot]].
    apply is_dot_true in Hdot. subst dot.
    destruct r as [|y r']; [destruct Hin|].
    assert (Hne : y :: r' <> []) by discriminate.
    destruct (exists_last Hne) as [front [l Hr]].
    rewrite Hr in Hin |- *. rewrite removelast_last in Hin.
    apply in_split in Hin. destruct Hin as [p [q Hfront]]. subst front.
    exists (x :: p), (q ++ [l])%list. repeat split.
    + simpl. rewrite <- app_assoc. reflexivity.
    + discriminate.
    + destruct q; discriminate.
  - intros [b [c [-> [Hb Hc]]]].
    destruct b as [|x p]; [contradiction|]. simpl.
    rewrite removelast_app by discriminate.
    rewrite existsb_app. apply orb_true_iff. right.
    destruct c as [|y c']; [contradiction|]. reflexivity.
Qed.

(** X18.  [isValidEmail] accepts exactly the strings [a@b.c] whose three
    parts are non-empty and hold neither white space nor [@]. *)
Theorem isValidEmail_iff (email : string) :
  isValidEmail email = true
  <-> exists a b c,
        list_ascii_of_string email = (a ++ "@"%char :: b ++ "."%char :: c)%list
        /\ a <> [] /\ b <> [] /\ c <> []
        /\ forallb plain a = true /\ forallb plain b = true
        /\ forallb plain c = true.
Proof.
  unfold isValidEmail. split.
  - destruct (span_plain_spec (list_ascii_of_string email)) as [Hcs [Hrun _]].
    destruct (span_plain (list_ascii_of_string email)) as [run rest].
    simpl in Hcs, Hrun.
    destruct run as [|a0 a]; [discriminate|].
    destruct rest as [|at_sign domain]; [discriminate|].
    intros H. apply andb_true_iff in H. destruct H as [H Hdot].
    apply andb_true_iff in H. destruct H as [Hat Hdomain].
    apply Nat.eqb_eq in Hat.
    assert (at_sign = "@"%char) as ->
      by (rewrite <- (ascii_nat_embedding at_sign), Hat; reflexivity).
    apply has_inner_dot_iff in Hdot. destruct Hdot as [b [c [-> [Hb Hc]]]].
    rewrite forallb_app in Hdomain. apply andb_true_iff in Hdomain.
    destruct Hdomain as [Hpb Hpc].
    change (forallb plain ("."%char :: c)) with (forallb plain c) in Hpc.
    exists (a0 :: a), b, c. repeat split; try assumption. discriminate.
  - intros [a [b [c [Hcs [Ha [Hb [Hc [Hpa [Hpb Hpc]]]]]]]]].
    rewrite Hcs, (span_plain_split a "@"%char _ Hpa eq_refl).
    destruct a as [|a0 a]; [contradiction|].
    apply andb_true_iff. split; [apply andb_true_iff; split|].
    + reflexivity.
    + rewrite forallb_app. apply andb_true_iff. split; [exact Hpb|].
      simpl. now rewrite Hpc.
    + apply has_inner_dot_iff. exists b, c. repeat split; assumption.
Qed.

Example emails :
  isValidEmail "ana.lopez@heartsmiles.org" = true
  /\ isValidEmail "ana@heartsmiles" = false
  /\ isValidEmail "ana lopez@heartsmiles.org" = false
  /\ isValidEmail "ana@@heartsmiles.org" = false
  /\ isValidEmail "ana@heartsmiles." = false.
Proof. repeat split. Qed.

(** * The participant model *)

Lemma find_after_update (id : nat)
  (change : ParticipantDoc.t -> ParticipantDoc.t) (l : list ParticipantDoc.t) :
  (forall d, ParticipantDoc.id (change d) = ParticipantDoc.id d) ->
  find (fun d => ParticipantDoc.id d =? id)
    (map (fun d => if ParticipantDoc.id d =? id then change d else d) l)
  = option_map change (find (fun d => ParticipantDoc.id d =? id) l).
Proof.
  intros Hid. induction l as [|d l IH]; [reflexivity|].
  simpl. destruct (ParticipantDoc.id d =? id) eqn:E.
  - rewrite Hid, E. reflexivity.
  - rewrite E. exact IH.
Qed.

Lemma update_doc_reliable (id : nat)
  (change : ParticipantDoc.t -> ParticipantDoc.t) (d : firestore)
  (p : ParticipantDoc.t) :
  faults d = [] ->
  find (fun x => ParticipantDoc.id x =? id) (participants d) = Some p ->
  ParticipantModel.update_doc id change d
  = (Ok tt,
     {| participants :=
          map (fun x => if ParticipantDoc.id x =? id then change x else x)
              (participants d);
        programs := programs d;
        next_id := next_id d;
        faults := [] |}).
Proof.
  intros Hf Hfind. unfold ParticipantModel.update_doc.
  rewrite (store_call_reliable d Hf), Hfind, Hf. reflexivity.
Qed.

Lemma getById_reliable (id : nat) (d : firestore) (p : ParticipantDoc.t) :
  faults d = [] ->
  find (fun x => ParticipantDoc.id x =? id) (participants d) = Some p ->
  ParticipantModel.getById id d = (Ok p, d).
Proof.
  intros Hf Hfind. unfold ParticipantModel.getById.
  rewrite (store_call_reliable d Hf), Hfind. reflexivity.
Qed.

(** X19.  Deleting a participant does not free its identification number.
    After [Participant.delete] in a store that answers its calls, the
    participant is gone from the listing of active participants, yet the
    import still finds it: a record with its identification number is
    skipped, nothing saved, the store left as the deletion left it and the
    already-exists error recorded. *)
Theorem deleted_participant_still_blocks_its_number
  (d : firestore) (p : ParticipantDoc.t) (r : ParticipantData.t) :
  faults d = [] ->
  In p (participants d) ->
  ParticipantData.identificationNumber r
  = Some (ParticipantDoc.identificationNumber p) ->
  let deleted := ParticipantModel.delete (ParticipantDoc.id p) d in
  let active :=
    ParticipantModel.getAllWhere
      {| ParticipantModel.isActive := Some true;
         ParticipantModel.school := None;
         ParticipantModel.programId := None |} (snd deleted) in
  let import :=
    saveParticipant
      {| saved_docs := []; save_errors := []; store := snd deleted |} r in
  fst deleted = Ok true
  /\ (exists l, fst active = Ok l
                /\ forall q, In q l -> ParticipantDoc.id q <> ParticipantDoc.id p)
  /\ saved_docs import = []
  /\ save_errors import
     = [(r, "Participant with this identification number already exists")]
  /\ store import = snd deleted.
Proof.
  intros Hf Hin Hnum deleted active import.
  destruct (find (fun x => ParticipantDoc.id x =? ParticipantDoc.id p)
              (participants d)) as [p0|] eqn:Hfind.
  2:{ pose proof (find_none _ _ Hfind p Hin) as H. simpl in H.
      rewrite Nat.eqb_refl in H. discriminate H. }
  assert (Hdel : deleted
                 = (Ok true,
                    {| participants :=
                         map (fun x =>
                                if ParticipantDoc.id x =? ParticipantDoc.id p
                                then ParticipantModel.with_isActive false x
                                else x) (participants d);
                       programs := programs d;
                       next_id := next_id d;
                       faults := [] |})).
  { subst deleted. unfold ParticipantModel.delete.
    rewrite (update_doc_reliable _ _ d p0 Hf Hfind). reflexivity. }
  subst active import. rewrite Hdel. simpl fst. simpl snd.
  split; [reflexivity|]. split.
  - unfold ParticipantModel.getAllWhere. simpl.
    eexists. split; [reflexivity|].
    intros q Hq. apply filter_In in Hq. destruct Hq as [Hq Hpass].
    apply in_map_iff in Hq. destruct Hq as [x [Hx _]].
    intros Heq.
    destruct (ParticipantDoc.id x =? ParticipantDoc.id p) eqn:E.
    + subst q. discriminate Hpass.
    + subst q. apply Nat.eqb_neq in E. contradiction.
  - match goal with
    | |- context [saveParticipant ?s0 r] =>
        rewrite (saveParticipant_duplicate s0 r
                   (ParticipantModel.with_isActive false p))
    end.
    + repeat split.
    + reflexivity.
    + simpl. apply in_map_iff. exists p. split; [|exact Hin].
      now rewrite Nat.eqb_refl.
    + apply same_identificationNumber_true. simpl. now rewrite Hnum.
Qed.

Lemma deleted_participant_still_blocks_its_number_witness :
  fst (ParticipantModel.delete 7 eva_store) = Ok true
  /\ save_errors
       (saveParticipant
          {| saved_docs := []; save_errors := [];
             store := snd (ParticipantModel.delete 7 eva_store) |} ana)
     = [(ana, "Participant with this identification number already exists")].
Proof.
  destruct (deleted_participant_still_blocks_its_number
              eva_store eva_doc ana eq_refl
              (or_intror (or_introl eq_refl)) eq_refl)
    as [Hdeleted [_ [_ [Hblocked _]]]].
  split; [exact Hdeleted | exact Hblocked].
Defined.

(** X20.  [ProgramController.getById] never answers 404.  The model wraps
    its own [Program not found] before the controller compares the message,
    so the answer for an unknown id, in a store that answers its calls, is a
    500 with [Error getting program: Program not found]. *)
Theorem program_lookup_never_answers_404 (id : nat) (d : firestore) :
  (forall e, fst (ProgramController_getById id d) <> ProgramError 404 e)
  /\ (faults d = [] ->
      (forall g, In g (programs d) -> ProgramDoc.id g <> id) ->
      ProgramController_getById id d
      = (ProgramError 500 "Error getting program: Program not found", d)).
Proof.
  unfold ProgramController_getById, ProgramModel.getById. split.
  - intros e. destruct (store_call d) as [[m|] d1].
    + simpl. discriminate.
    + destruct (find _ (programs d1)); simpl; discriminate.
  - intros Hf Hnone. rewrite (store_call_reliable d Hf).
    rewrite find_absent; [reflexivity|].
    intros g Hg. apply Nat.eqb_neq. now apply Hnone.
Qed.

Lemma program_lookup_never_answers_404_witness :
  ProgramController_getById 42 sample_store
  = (ProgramError 500 "Error getting program: Program not found", sample_store).
Proof.
  apply (proj2 (program_lookup_never_answers_404 42 sample_store)).
  - reflexivity.
  - intros g [<- | []]. discriminate.
Defined.

(** ** Enrolment *)

Lemma includes_arrayUnion (x : string) (array : list string) :
  includes (arrayUnion x array) x = true.
Proof.
  unfold arrayUnion. destruct (includes array x) eqn:E; [exact E|].
  apply includes_In. unfold push. apply in_or_app. right. now left.
Qed.

Lemma arrayRemove_absent (x : string) (array : list string) :
  ~ In x array -> arrayRemove x array = array.
Proof.
  intros H. unfold arrayRemove. induction array as [|y l IH]; [reflexivity|].
  simpl. destruct (String.eqb y x) eqn:E.
  - apply String.eqb_eq in E. subst y. exfalso. apply H. now left.
  - simpl. f_equal. apply IH. intros Hin. apply H. now right.
Qed.

Lemma arrayRemove_arrayUnion (x : string) (array : list string) :
  ~ In x array -> arrayRemove x (arrayUnion x array) = array.
Proof.
  intros H. unfold arrayUnion.
  destruct (includes array x) eqn:E; [apply includes_In in E; contradiction|].
  unfold push, arrayRemove. rewrite filter_app. simpl.
  rewrite String.eqb_refl. simpl. rewrite app_nil_r.
  apply (arrayRemove_absent x array H).
Qed.

(** X21.  [Participant.addToProgram] enrols once.  For a stored participant
    and a store that answers its calls, the document returned lists the
    program, after the programs it listed before and only if it was not
    among them; every other participant is as before; and a second call
    returns the same document and changes nothing. *)
Theorem addToProgram_enrols_once (participantId : nat) (programId : string)
  (d : firestore) (p : ParticipantDoc.t) :
  faults d = [] ->
  find (fun x => ParticipantDoc.id x =? participantId) (participants d) = Some p ->
  let first := ParticipantModel.addToProgram participantId programId d in
  fst first
  = Ok (ParticipantModel.with_programs (arrayUnion programId) p)
  /\ In programId
       (ParticipantDoc.programs
          (ParticipantModel.with_programs (arrayUnion programId) p))
  /\ (forall q, In q (participants d) -> ParticipantDoc.id q <> participantId ->
                In q (participants (snd first)))
  /\ ParticipantModel.addToProgram participantId programId (snd first) = first.
Proof.
  intros Hf Hfind first.
  assert (Hid : forall x,
             ParticipantDoc.id (ParticipantModel.with_programs
                                  (arrayUnion programId) x)
             = ParticipantDoc.id x) by reflexivity.
  destruct (includes (ParticipantDoc.programs p) programId) eqn:Hinc.
  - (* already enrolled: no update *)
    assert (Hfirst : first = (Ok p, d)).
    { subst first. unfold ParticipantModel.addToProgram.
      rewrite (getById_reliable _ d p Hf Hfind), Hinc. simpl negb. cbv iota.
      rewrite (getById_reliable _ d p Hf Hfind). reflexivity. }
    assert (Hsame : ParticipantModel.with_programs (arrayUnion programId) p = p).
    { destruct p. unfold ParticipantModel.with_programs, arrayUnion.
      simpl in Hinc |- *. now rewrite Hinc. }
    rewrite Hfirst, Hsame. simpl. repeat split.
    + now apply includes_In.
    + tauto.
    + unfold ParticipantModel.addToProgram.
      rewrite (getById_reliable _ d p Hf Hfind), Hinc. simpl negb. cbv iota.
      rewrite (getById_reliable _ d p Hf Hfind). reflexivity.
  - set (d1 := {| participants :=
                    map (fun x =>
                           if ParticipantDoc.id x =? participantId
                           then ParticipantModel.with_programs
                                  (arrayUnion programId) x
                           else x) (participants d);
                  programs := programs d;
                  next_id := next_id d;
                  faults := [] |}).
    set (p1 := ParticipantModel.with_programs (arrayUnion programId) p).
    assert (Hfind1 : find (fun x => ParticipantDoc.id x =? participantId)
                       (participants d1) = Some p1).
    { simpl. rewrite (find_after_update _ _ _ Hid), Hfind. reflexivity. }
    assert (Hfirst : first = (Ok p1, d1)).
    { subst first. unfold ParticipantModel.addToProgram.
      rewrite (getById_reliable _ d p Hf Hfind), Hinc. simpl negb. cbv iota.
      rewrite (update_doc_reliable _ _ d p Hf Hfind). fold d1.
      rewrite (getById_reliable _ d1 p1 eq_refl Hfind1). reflexivity. }
    rewrite Hfirst. simpl fst. simpl snd. repeat split.
    + apply includes_In. subst p1. simpl. apply includes_arrayUnion.
    + intros q Hq Hne. simpl. apply in_map_iff. exists q. split; [|exact Hq].
      apply Nat.eqb_neq in Hne. now rewrite Hne.
    + unfold ParticipantModel.addToProgram.
      rewrite (getById_reliable _ d1 p1 eq_refl Hfind1).
      replace (includes (ParticipantDoc.programs p1) programId) with true
        by (symmetry; subst p1; simpl; apply includes_arrayUnion).
      simpl negb. cbv iota.
      rewrite (getById_reliable _ d1 p1 eq_refl Hfind1). reflexivity.
Qed.

Lemma addToProgram_enrols_once_witness :
  fst (ParticipantModel.addToProgram 7 "prog-music" eva_store)
  = Ok (ParticipantModel.with_programs (arrayUnion "prog-music") eva_doc)
  /\ ParticipantModel.addToProgram 7 "prog-music"
       (snd (ParticipantModel.addToProgram 7 "prog-music" eva_store))
     = ParticipantModel.addToProgram 7 "prog-music" eva_store.
Proof.
  destruct (addToProgram_enrols_once 7 "prog-music" eva_store eva_doc
              eq_refl eq_refl) as [Hdoc [_ [_ Hagain]]].
  split; [exact Hdoc | exact Hagain].
Defined.

Lemma map_restores (participantId : nat) (programId : string)
  (l : list ParticipantDoc.t) :
  (forall x, In x l -> ParticipantDoc.id x = participantId ->
             ~ In programId (ParticipantDoc.programs x)) ->
  map (fun x => if ParticipantDoc.id x =? participantId
                then ParticipantModel.with_programs (arrayRemove programId) x
                else x)
    (map (fun x => if ParticipantDoc.id x =? participantId
                   then ParticipantModel.with_programs (arrayUnion programId) x
                   else x) l)
  = l.
Proof.
  intros H. induction l as [|x l IH]; [reflexivity|].
  simpl. rewrite IH by (intros y Hy; apply H; now right). f_equal.
  destruct (ParticipantDoc.id x =? participantId) eqn:E.
  - simpl. rewrite E. apply Nat.eqb_eq in E.
    pose proof (H x (or_introl eq_refl) E) as Hx.
    destruct x. unfold ParticipantModel.with_programs. simpl in *.
    now rewrite (arrayRemove_arrayUnion programId _ Hx).
  - now rewrite E.
Qed.

(** X22.  [Participant.removeFromProgram] undoes [Participant.addToProgram].
    For a stored participant not yet in the program, in a store that answers
    its calls and gives each participant an id of its own, enrolling and then
    removing returns the participant as it was and leaves the whole store as
    it was. *)
Theorem removeFromProgram_undoes_addToProgram (participantId : nat)
  (programId : string) (d : firestore) (p : ParticipantDoc.t) :
  faults d = [] ->
  NoDup (map ParticipantDoc.id (participants d)) ->
  find (fun x => ParticipantDoc.id x =? participantId) (participants d) = Some p ->
  ~ In programId (ParticipantDoc.programs p) ->
  ParticipantModel.removeFromProgram participantId programId
    (snd (ParticipantModel.addToProgram participantId programId d))
  = (Ok p, d).
Proof.
  intros Hf Hnodup Hfind Hnot.
  assert (Hid : forall x,
             ParticipantDoc.id (ParticipantModel.with_programs
                                  (arrayUnion programId) x)
             = ParticipantDoc.id x) by reflexivity.
  assert (Hid' : forall x,
             ParticipantDoc.id (ParticipantModel.with_programs
                                  (arrayRemove programId) x)
             = ParticipantDoc.id x) by reflexivity.
  assert (Hinc : includes (ParticipantDoc.programs p) programId = false)
    by (now apply includes_not_In).
  set (d1 := {| participants :=
                  map (fun x =>
                         if ParticipantDoc.id x =? participantId
                         then ParticipantModel.with_programs
                                (arrayUnion programId) x
                         else x) (participants d);
                programs := programs d;
                next_id := next_id d;
                faults := [] |}).
  set (p1 := ParticipantModel.with_programs (arrayUnion programId) p).
  assert (Hfind1 : find (fun x => ParticipantDoc.id x =? participantId)
                     (participants d1) = Some p1).
  { simpl. rewrite (find_after_update _ _ _ Hid), Hfind. reflexivity. }
  assert (Hadd : ParticipantModel.addToProgram participantId programId d
                 = (Ok p1, d1)).
  { unfold ParticipantModel.addToProgram.
    rewrite (getById_reliable _ d p Hf Hfind), Hinc. simpl negb. cbv iota.
    rewrite (update_doc_reliable _ _ d p Hf Hfind). fold d1.
    rewrite (getById_reliable _ d1 p1 eq_refl Hfind1). reflexivity. }
  rewrite Hadd. simpl snd.
  assert (Honly : forall x, In x (participants d) ->
                            ParticipantDoc.id x = participantId ->
                            ~ In programId (ParticipantDoc.programs x)).
  { intros x Hx Hxid.
    assert (x = p) as ->; [|exact Hnot].
    apply find_some in Hfind. destruct Hfind as [Hp Hpid].
    apply Nat.eqb_eq in Hpid.
    clear - Hnodup Hx Hp Hxid Hpid.
    induction (participants d) as [|y l IH]; [destruct Hx|].
    simpl in Hnodup. inversion Hnodup as [|i l' Hy Hl]; subst.
    destruct Hx as [-> | Hx], Hp as [-> | Hp]; try reflexivity.
    - exfalso. apply Hy. apply in_map_iff. exists p. split; [congruence|exact Hp].
    - exfalso. apply Hy. apply in_map_iff. exists x. split; [congruence|exact Hx].
    - now apply IH. }
  unfold ParticipantModel.removeFromProgram.
  rewrite (update_doc_reliable _ _ d1 p1 eq_refl Hfind1).
  simpl participants. rewrite (map_restores _ _ _ Honly).
  assert (Hback : {| participants := participants d; programs := programs d1;
                     next_id := next_id d1; faults := [] |} = d).
  { destruct d. simpl in *. now subst. }
  rewrite Hback.
  rewrite (getById_reliable _ d p Hf Hfind). reflexivity.
Qed.

Lemma removeFromProgram_undoes_addToProgram_witness :
  ParticipantModel.removeFromProgram 7 "prog-music"
    (snd (ParticipantModel.addToProgram 7 "prog-music" eva_store))
  = (Ok eva_doc, eva_store).
Proof.
  apply (removeFromProgram_undoes_addToProgram 7 "prog-music" eva_store eva_doc).
  - reflexivity.
  - simpl. repeat constructor; simpl; intuition discriminate.
  - reflexivity.
  - simpl. intros [H | []]. discriminate H.
Defined.

(** ** Search *)

Lemma prefix_iff (x s : string) :
  String.prefix x s = true <-> exists after, s = (x ++ after)%string.
Proof.
  revert s. induction x as [|c x IH]; intros s; simpl.
  - split; [intros _; now exists s | intros _; destruct s; reflexivity].
  - destruct s as [|c' s]; [split; [discriminate | intros [a H]; discriminate]|].
    simpl. destruct (ascii_dec c c') as [E | Hne].
    + subst c'. rewrite IH.
      split; intros [a H]; exists a; [now rewrite H | now injection H].
    + split; [discriminate|]. intros [a H]. injection H as H1 _. congruence.
Qed.

Lemma str_includes_iff (s x : string) :
  str_includes s x = true <-> holds s x.
Proof.
  unfold holds. induction s as [|c s IH].
  - change (str_includes "" x)
      with (if String.prefix x "" then true else false).
    destruct (String.prefix x "") eqn:P.
    + split; [|reflexivity]. intros _. apply prefix_iff in P.
      destruct P as [a Ha]. exists "", a. exact Ha.
    + split; [discriminate|]. intros [b [a H]].
      destruct b; [|discriminate]. simpl in H.
      assert (String.prefix x "" = true) by (apply prefix_iff; now exists a).
      congruence.
  - change (str_includes (String c s) x)
      with (if String.prefix x (String c s) then true else str_includes s x).
    destruct (String.prefix x (String c s)) eqn:P.
    + split; [|reflexivity]. intros _. apply prefix_iff in P.
      destruct P as [a Ha]. exists "", a. exact Ha.
    + rewrite IH. split.
      * intros [b [a H]]. exists (String c b), a. simpl. now rewrite H.
      * intros [b [a H]]. destruct b as [|c' b].
        -- simpl in H.
           assert (String.prefix x (String c s) = true)
             by (apply prefix_iff; now exists a).
           congruence.
        -- simpl in H. injection H as _ H. now exists b, a.
Qed.

Lemma toLowerCase_app (a b : string) :
  Js.toLowerCase (a ++ b) = (Js.toLowerCase a ++ Js.toLowerCase b)%string.
Proof.
  induction a as [|c a IH]; [reflexivity|]. simpl. now rewrite IH.
Qed.

(** X23.  [Participant.search], in a store that answers its call, returns
    exactly the stored participants whose name, identification number or
    school holds the search term once both are lower-cased, in the order of
    the store.  In particular a participant is found under any piece of its
    name typed in any letter case. *)
Theorem search_finds_exactly_the_matches (searchTerm : string) (d : firestore) :
  faults d = [] ->
  exists found,
    ParticipantModel.search searchTerm d = (Ok found, d)
    /\ found = filter (ParticipantModel.matches searchTerm) (participants d)
    /\ (forall p,
          In p found
          <-> In p (participants d)
              /\ (holds (Js.toLowerCase (ParticipantDoc.name p))
                        (Js.toLowerCase searchTerm)
                  \/ holds (Js.toLowerCase (ParticipantDoc.identificationNumber p))
                           (Js.toLowerCase searchTerm)
                  \/ holds (Js.toLowerCase (ParticipantDoc.school p))
                           (Js.toLowerCase searchTerm)))
    /\ (forall p before piece after,
          In p (participants d) ->
          ParticipantDoc.name p = (before ++ piece ++ after)%string ->
          Js.toLowerCase searchTerm = Js.toLowerCase piece ->
          In p found).
Proof.
  intros Hf. exists (filter (ParticipantModel.matches searchTerm) (participants d)).
  assert (Hiff : forall p,
             In p (filter (ParticipantModel.matches searchTerm) (participants d))
             <-> In p (participants d)
                 /\ (holds (Js.toLowerCase (ParticipantDoc.name p))
                           (Js.toLowerCase searchTerm)
                     \/ holds (Js.toLowerCase
                                 (ParticipantDoc.identificationNumber p))
                              (Js.toLowerCase searchTerm)
                     \/ holds (Js.toLowerCase (ParticipantDoc.school p))
                              (Js.toLowerCase searchTerm))).
  { intros p. rewrite filter_In. unfold ParticipantModel.matches.
    rewrite !orb_true_iff, !str_includes_iff. tauto. }
  split; [|split; [reflexivity|split; [exact Hiff|]]].
  - unfold ParticipantModel.search, Participant.getAll.
    rewrite (store_call_reliable d Hf). reflexivity.
  - intros p before piece after Hin Hname Hterm. apply Hiff.
    split; [exact Hin|]. left. rewrite Hname, Hterm, !toLowerCase_app.
    now exists (Js.toLowerCase before), (Js.toLowerCase after).
Qed.

Lemma search_finds_exactly_the_matches_witness :
  exists found,
    ParticipantModel.search "MORE" eva_store = (Ok found, eva_store)
    /\ In eva_doc found.
Proof.
  destruct (search_finds_exactly_the_matches "MORE" eva_store eq_refl)
    as [found [Hsearch [_ [_ Hpiece]]]].
  exists found. split; [exact Hsearch|].
  apply (Hpiece eva_doc "Eva " "More" "no").
  - right. now left.
  - reflexivity.
  - reflexivity.
Defined.

(** * Listing participants page by page *)

Lemma firstn_add {A : Type} (a b : nat) (l : list A) :
  firstn (a + b) l = (firstn a l ++ firstn b (skipn a l))%list.
Proof.
  revert l. induction a as [|a IH]; intros l; [reflexivity|].
  destruct l as [|x l]; simpl.
  - now rewrite firstn_nil.
  - now rewrite IH.
Qed.

Lemma chunks_concat {A : Type} (size : nat) (l : list A) (n : nat) :
  concat (map (fun k => firstn size (skipn (k * size) l)) (seq 0 n))
  = firstn (n * size) l.
Proof.
  induction n as [|n IH]; [reflexivity|].
  rewrite seq_S, map_app, concat_app, IH. simpl.
  rewrite app_nil_r, <- firstn_add. f_equal. lia.
Qed.

Lemma slice_page {A : Type} (page limit : Z) (l : list A) :
  (1 <= page)%Z -> (1 <= limit)%Z ->
  slice ((page - 1) * limit) (page * limit) l
  = firstn (Z.to_nat limit) (skipn (Z.to_nat ((page - 1) * limit)) l).
Proof.
  intros Hp Hl. unfold slice.
  assert (H0 : (0 <= (page - 1) * limit)%Z) by nia.
  assert (H1 : (0 <= page * limit)%Z) by nia.
  replace ((page - 1) * limit <? 0)%Z with false by (symmetry; apply Z.ltb_ge; lia).
  replace (page * limit <? 0)%Z with false by (symmetry; apply Z.ltb_ge; lia).
  set (len := List.length l).
  destruct (Z_lt_le_dec ((page - 1) * limit) (Z.of_nat len)) as [Hin | Hout].
  - rewrite (Z.min_l ((page - 1) * limit)) by lia.
    destruct (Z_le_gt_dec (page * limit) (Z.of_nat len)) as [Hfull | Hlast].
    + rewrite Z.min_l by lia. f_equal. nia.
    + rewrite Z.min_r by lia.
      rewrite !firstn_all2; [reflexivity | |]; rewrite length_skipn; fold len; nia.
  - rewrite !Z.min_r by nia.
    rewrite Z.sub_diag. simpl firstn.
    rewrite (skipn_all2 (n := Z.to_nat ((page - 1) * limit))) by (fold len; lia).
    now rewrite firstn_nil.
Qed.

Lemma ceil_div_covers (n limit : Z) :
  (0 <= n)%Z -> (1 <= limit)%Z ->
  (0 <= - ((- n) / limit))%Z
  /\ (n <= - ((- n) / limit) * limit)%Z
  /\ ((- ((- n) / limit) - 1) * limit < n)%Z.
Proof.
  intros Hn Hl.
  pose proof (Z.div_mod (- n) limit ltac:(lia)) as Hdm.
  pose proof (Z.mod_pos_bound (- n) limit ltac:(lia)) as Hmod.
  repeat split; nia.
Qed.

(** X24.  The pages of [GET /participants] partition the listing.  For a
    store that answers its call and a limit of at least 1, every page from 1
    on is the next [limit] participants of one and the same list — the
    search result, or else the filtered collection — and reports the same
    totals; pages 1 to [totalPages] put end to end are that list, nothing
    twice and nothing missing; the last of them is not empty; every later
    page is. *)
Theorem pages_partition_the_listing (q : list_query) (limit : safe_integer)
  (d : firestore) :
  faults d = [] ->
  query_limit q = Some limit ->
  (1 <= number limit)%Z ->
  exists total,
    (forall page : safe_integer, (1 <= number page)%Z ->
       ParticipantController_getAll (turn_to page q) d
       = (Listed
            (firstn (Z.to_nat (number limit))
               (skipn (Z.to_nat ((number page - 1) * number limit))
                  (listing q d)))
            {| currentPage := number page;
               totalPages := Some (Z.of_nat total);
               totalItems := List.length (listing q d);
               itemsPerPage := number limit |},
          d))
    /\ (forall pages : list safe_integer,
          map number pages = page_numbers total ->
          concat
            (map (fun page =>
                    listed (fst (ParticipantController_getAll
                                   (turn_to page q) d)))
               pages)
          = listing q d)
    /\ (forall page : safe_integer,
          (1 <= number page)%Z -> number page = Z.of_nat total ->
          listed (fst (ParticipantController_getAll (turn_to page q) d)) <> [])
    /\ (forall page : safe_integer, (Z.of_nat total < number page)%Z ->
          listed (fst (ParticipantController_getAll (turn_to page q) d)) = []).
Proof.
  intros Hf Hlimit Hl.
  set (all := listing q d).
  set (len := Z.of_nat (List.length all)).
  destruct (ceil_div_covers len (number limit) ltac:(lia) Hl)
    as [Hpos [Hcover Hleast]].
  set (total := Z.to_nat (- ((- len) / number limit))).
  assert (Hpage : forall page : safe_integer, (1 <= number page)%Z ->
            ParticipantController_getAll (turn_to page q) d
            = (Listed
                 (firstn (Z.to_nat (number limit))
                    (skipn (Z.to_nat ((number page - 1) * number limit)) all))
                 {| currentPage := number page;
                    totalPages := Some (Z.of_nat total);
                    totalItems := List.length all;
                    itemsPerPage := number limit |},
               d)).
  { intros page Hp. unfold ParticipantController_getAll. simpl.
    rewrite Hlimit.
    assert (Hfound :
              (if Js.truthy (query_search q)
               then ParticipantModel.search (Js.or_empty (query_search q)) d
               else ParticipantModel.getAllWhere
                      {| ParticipantModel.isActive :=
                           match query_isActive q with
                           | Some v => Some (String.eqb v "true")
                           | None => None
                           end;
                         ParticipantModel.school :=
                           if Js.truthy (query_school q) then query_school q
                           else None;
                         ParticipantModel.programId :=
                           if Js.truthy (query_programId q)
                           then query_programId q else None |} d)
              = (Ok all, d)).
    { subst all. unfold listing. destruct (Js.truthy (query_search q)).
      - unfold ParticipantModel.search, Participant.getAll.
        now rewrite (store_call_reliable d Hf).
      - unfold ParticipantModel.getAllWhere.
        now rewrite (store_call_reliable d Hf). }
    rewrite Hfound.
    rewrite (slice_page (number page) (number limit) all Hp Hl).
    unfold ceil_div. replace (number limit =? 0)%Z with false
      by (symmetry; apply Z.eqb_neq; lia).
    fold len. subst total. rewrite Z2Nat.id by exact Hpos. reflexivity. }
  exists total. split; [exact Hpage|]. split; [|split].
  - intros pages Hpages.
    rewrite (map_ext_in
               (fun page => listed (fst (ParticipantController_getAll
                                           (turn_to page q) d)))
               (fun page => firstn (Z.to_nat (number limit))
                              (skipn (Z.to_nat (number page - 1)
                                      * Z.to_nat (number limit)) all))).
    + rewrite <- (map_map number
                    (fun z => firstn (Z.to_nat (number limit))
                                (skipn (Z.to_nat (z - 1)
                                        * Z.to_nat (number limit)) all))).
      rewrite Hpages. unfold page_numbers. rewrite map_map.
      rewrite (map_ext _ (fun k => firstn (Z.to_nat (number limit))
                                     (skipn (k * Z.to_nat (number limit)) all))).
      * rewrite chunks_concat. apply firstn_all2.
        apply Nat2Z.inj_le. subst total.
        rewrite Nat2Z.inj_mul, !Z2Nat.id by lia. exact Hcover.
      * intros k. do 3 f_equal. lia.
    + intros page Hin.
      assert (Hp : (1 <= number page)%Z).
      { apply (in_map number) in Hin. rewrite Hpages in Hin.
        unfold page_numbers in Hin. apply in_map_iff in Hin.
        destruct Hin as [k [<- _]]. lia. }
      rewrite (Hpage page Hp). cbn [listed fst]. do 2 f_equal.
      rewrite Z2Nat.inj_mul by lia. reflexivity.
  - intros page Hp Hlast. rewrite (Hpage page Hp). cbn [listed fst].
    assert (Hinside : Z.to_nat ((number page - 1) * number limit)
                      < List.length all).
    { apply Nat2Z.inj_lt. rewrite Z2Nat.id by nia.
      fold len. subst total. rewrite Z2Nat.id in Hlast by exact Hpos.
      rewrite Hlast. exact Hleast. }
    intros Hempty. apply (f_equal (@List.length _)) in Hempty.
    rewrite length_firstn, length_skipn in Hempty. simpl in Hempty. lia.
  - intros page Hlate. rewrite Hpage by lia. cbn [listed fst].
    rewrite skipn_all2; [now rewrite firstn_nil|].
    apply Nat2Z.inj_le. subst total. rewrite Z2Nat.id in Hlate by exact Hpos.
    rewrite Z2Nat.id by nia. fold len. nia.
Qed.

Lemma pages_partition_the_listing_witness :
  exists total,
    ParticipantController_getAll (turn_to safe_two one_per_page) eva_store
    = (Listed
         (firstn 1 (skipn 1 (listing one_per_page eva_store)))
         {| currentPage := 2%Z;
            totalPages := Some (Z.of_nat total);
            totalItems := List.length (listing one_per_page eva_store);
            itemsPerPage := 1%Z |},
       eva_store)
    /\ (forall pages : list safe_integer,
          map number pages = page_numbers total ->
          concat
            (map (fun page =>
                    listed (fst (ParticipantController_getAll
                                   (turn_to page one_per_page) eva_store)))
               pages)
          = listing one_per_page eva_store).
Proof.
  destruct (pages_partition_the_listing one_per_page safe_one eva_store
              eq_refl eq_refl ltac:(simpl; lia))
    as [total [Hpage [Hall _]]].
  exists total. split; [|exact Hall].
  apply (Hpage safe_two). simpl. lia.
Defined.

Example second_page_of_two :
  fst (ParticipantController_getAll (turn_to safe_two one_per_page) eva_store)
  = Listed [eva_doc]
      {| currentPage := 2%Z; totalPages := Some 2%Z; totalItems := 2;
         itemsPerPage := 1%Z |}.
Proof. reflexivity. Qed.

(** The two pages of that listing, end to end. *)
Example both_pages :
  concat
    (map (fun page =>
            listed (fst (ParticipantController_getAll
                           (turn_to page one_per_page) eva_store)))
       [safe_one; safe_two])
  = [carla_doc; eva_doc].
Proof. reflexivity. Qed.

(** * What reaches the store *)

Lemma saved_come_from_records (l : list ParticipantData.t)
  (s : saving ParticipantData.t ParticipantDoc.t) (d : ParticipantDoc.t) :
  In d (saved_docs (fold_left saveParticipant l s)) ->
  In d (saved_docs s)
  \/ exists r, In r l /\ d = Participant.construct (ParticipantDoc.id d) r.
Proof.
  revert s. induction l as [|r l IH]; intros s Hd; [now left|].
  simpl in Hd. destruct (IH _ Hd) as [Hs | [r' [Hr' Hd']]].
  - destruct (saveParticipant_cases s r) as [[H _] | [H _]]; rewrite H in Hs.
    + now left.
    + unfold push in Hs. apply in_app_or in Hs.
      destruct Hs as [Hs | [<- | []]]; [now left|].
      right. exists r. split; [now left | reflexivity].
  - right. exists r'. split; [now right | exact Hd'].
Qed.

Lemma saved_programs_come_from_records (l : list ProgramData.t)
  (s : saving ProgramData.t ProgramDoc.t) (d : ProgramDoc.t) :
  In d (saved_docs (fold_left saveProgram l s)) ->
  In d (saved_docs s)
  \/ exists g, In g l /\ d = Program.construct (ProgramDoc.id d) g.
Proof.
  revert s. induction l as [|g l IH]; intros s Hd; [now left|].
  simpl in Hd. destruct (IH _ Hd) as [Hs | [g' [Hg' Hd']]].
  - destruct (saveProgram_cases s g) as [[H _] | [H _]]; rewrite H in Hs.
    + now left.
    + unfold push in Hs. apply in_app_or in Hs.
      destruct Hs as [Hs | [<- | []]]; [now left|].
      right. exists g. split; [now left | reflexivity].
  - right. exists g'. split; [now right | exact Hd'].
Qed.

(** X25.  Nothing invalid is ever saved.  Every document a response lists as
    saved — and so, the handlers only appending those, every document a
    request adds to the store — is built from a record that passed its
    validator. *)
Theorem only_valid_records_are_saved (Date_valid : string -> bool)
  (openai : model ParticipantData.t) (openaiG : model ProgramData.t)
  (req : request) (w : world) :
  (forall d,
     In d (saved_of (fst (importParticipants Date_valid openai req w))) ->
     exists r, isValid (validateParticipantData Date_valid r) = true
               /\ d = Participant.construct (ParticipantDoc.id d) r)
  /\ (forall d,
        In d (saved_of (fst (importPrograms openaiG req w))) ->
        exists g, isValid (validateProgramData g) = true
                  /\ d = Program.construct (ProgramDoc.id d) g).
Proof.
  split; intros d.
  - unfold importParticipants, caught.
    destruct (file req) as [f|]; [|intros []].
    destruct (parseFile (files w) (path f)) as [[rows|m]|];
      [|intros []|intros []].
    destruct (processParticipantData openai rows) as [[recs|]|e];
      try (intros []).
    destruct (isDryRun req); [intros []|].
    simpl. unfold saveParticipants. intros Hd.
    apply saved_come_from_records in Hd. destruct Hd as [[] | [r [Hr Hd]]].
    exists r. split; [|exact Hd].
    pose proof (valid_records_kept (validateParticipantData Date_valid) recs)
      as Hall.
    rewrite Forall_forall in Hall. now apply Hall.
  - unfold importPrograms, caught.
    destruct (file req) as [f|]; [|intros []].
    destruct (parseFile (files w) (path f)) as [[rows|m]|];
      [|intros []|intros []].
    destruct (processProgramData openaiG rows) as [[recs|]|e];
      try (intros []).
    destruct (isDryRun req); [intros []|].
    simpl. unfold savePrograms. intros Hd.
    apply saved_programs_come_from_records in Hd.
    destruct Hd as [[] | [g [Hg Hd]]].
    exists g. split; [|exact Hd].
    pose proof (valid_records_kept validateProgramData recs) as Hall.
    rewrite Forall_forall in Hall. now apply Hall.
Qed.

(** ** A store failure stays with its record *)

Lemma saveParticipant_shift
  (saved0 : list ParticipantDoc.t) (errors0 : list (ParticipantData.t * string))
  (d : firestore) (r : ParticipantData.t) :
  saveParticipant {| saved_docs := saved0; save_errors := errors0; store := d |} r
  = {| saved_docs :=
         (saved0 ++ saved_docs (saveParticipant (no_saving _ _ d) r))%list;
       save_errors :=
         (errors0 ++ save_errors (saveParticipant (no_saving _ _ d) r))%list;
       store := store (saveParticipant (no_saving _ _ d) r) |}.
Proof.
  unfold saveParticipant, no_saving, record_error, record_saved, push. simpl.
  destruct (Participant.getAll d) as [[existing|m] d1];
    [|simpl; now rewrite app_nil_r].
  destruct (find (same_identificationNumber r) existing);
    [simpl; now rewrite app_nil_r|].
  destruct (Participant.create r d1) as [[doc|m] d2]; simpl;
    now rewrite app_nil_r.
Qed.

Lemma saveParticipants_shift (l : list ParticipantData.t)
  (saved0 : list ParticipantDoc.t) (errors0 : list (ParticipantData.t * string))
  (d : firestore) :
  fold_left saveParticipant l
    {| saved_docs := saved0; save_errors := errors0; store := d |}
  = {| saved_docs := (saved0 ++ saved_docs (saveParticipants l d))%list;
       save_errors := (errors0 ++ save_errors (saveParticipants l d))%list;
       store := store (saveParticipants l d) |}.
Proof.
  unfold saveParticipants.
  revert saved0 errors0 d. induction l as [|r l IH]; intros saved0 errors0 d.
  - simpl. now rewrite !app_nil_r.
  - simpl fold_left. rewrite (saveParticipant_shift saved0 errors0 d r).
    unfold no_saving.
    destruct (saveParticipant
                {| saved_docs := []; save_errors := []; store := d |} r)
      as [saved1 errors1 d1].
    simpl. rewrite (IH (saved0 ++ saved1)%list (errors0 ++ errors1)%list d1).
    rewrite (IH saved1 errors1 d1). simpl. now rewrite !app_assoc.
Qed.

(** X26.  A store failure stays with the record it hit.  If the read of the
    collection fails for the first record of an import, that record gets a
    save error with the store's message and the rest of the list is handled
    exactly as if it had been imported alone: same documents saved, same
    errors, same store. *)
Theorem store_failure_stays_with_its_record (m : string)
  (r : ParticipantData.t) (l : list ParticipantData.t) (d : firestore) :
  saveParticipants (r :: l) (failing_once m d)
  = {| saved_docs := saved_docs (saveParticipants l d);
       save_errors :=
         (r, "Error getting participants: " ++ m)
         :: save_errors (saveParticipants l d);
       store := store (saveParticipants l d) |}.
Proof.
  unfold saveParticipants at 1. simpl fold_left.
  assert (Hfirst : saveParticipant
                     {| saved_docs := []; save_errors := [];
                        store := failing_once m d |} r
                   = {| saved_docs := [];
                        save_errors := [(r, "Error getting participants: " ++ m)];
                        store := d |}).
  { unfold saveParticipant, Participant.getAll, store_call, failing_once,
      record_error, push. simpl. destruct d. reflexivity. }
  rewrite Hfirst. apply saveParticipants_shift.
Qed.

(** * The extraction client for programs *)

(** X27.  [processProgramData] succeeds exactly when the call succeeds and
    the text of its answer parses as JSON to a value other than [null]; the
    data is the array under [programs], or the empty array when that key is
    missing or falsy.  Every failure carries the message of its error, and
    the programs handler turns it into one 500 that changes nothing. *)
Theorem program_extraction_succeeds_iff_json_not_null
  (openai : model ProgramData.t) (rows : list Row) (req : request)
  (f : uploaded_file) (w : world) :
  file req = Some f ->
  parseFile (files w) (path f) = Ok rows ->
  ((exists data, processProgramData openai rows = AiSuccess data)
   <-> (exists v, openai rows = Parsed v /\ v <> JsonNull))
  /\ (forall records,
        openai rows = Parsed (JsonObject (KeyArray records)) ->
        processProgramData openai rows = AiSuccess (DataArray records))
  /\ (openai rows = Parsed (JsonObject KeyAbsent)
      \/ openai rows = Parsed (JsonObject KeyFalsy)
      \/ openai rows = Parsed JsonOther ->
      processProgramData openai rows = AiSuccess (DataArray []))
  /\ (forall m, openai rows = CallRejected m \/ openai rows = NoContent m
                \/ openai rows = NotJson m ->
                processProgramData openai rows = AiFailure m)
  /\ (forall e, processProgramData openai rows = AiFailure e ->
        importPrograms openai req w
        = (Failure 500 "Failed to process data with AI" (Some e), w)).
Proof.
  intros Hfile Hparse. repeat split.
  - intros [data H]. unfold processProgramData in H.
    destruct (openai rows) as [m|m|m|v]; try discriminate H.
    exists v. split; [reflexivity|]. intros ->. discriminate H.
  - intros [v [Hv Hnot]]. unfold processProgramData. rewrite Hv.
    destruct v as [|k|]; [contradiction| |]; eexists; reflexivity.
  - intros records H. unfold processProgramData. now rewrite H.
  - intros [H | [H | H]]; unfold processProgramData; now rewrite H.
  - intros m [H | [H | H]]; unfold processProgramData; now rewrite H.
  - intros e Hai. unfold importPrograms. now rewrite Hfile, Hparse, Hai.
Qed.

Lemma program_extraction_succeeds_iff_json_not_null_witness :
  processProgramData answers_art_club two_rows
  = AiSuccess (DataArray [art_club; art_club_shouting])
  /\ importPrograms answers_prose (csv_request None) sample_world
     = (Failure 500 "Failed to process data with AI"
          (Some "Unexpected token H in JSON at position 0"), sample_world).
Proof.
  destruct (program_extraction_succeeds_iff_json_not_null answers_art_club
              two_rows (csv_request None)
              (req_file temp_csv "youth.csv" "text/csv") sample_world
              eq_refl eq_refl) as [_ [Hdata _]].
  destruct (program_extraction_succeeds_iff_json_not_null answers_prose
              two_rows (csv_request None)
              (req_file temp_csv "youth.csv" "text/csv") sample_world
              eq_refl eq_refl) as [_ [_ [_ [Hfail Hcaller]]]].
  split.
  - apply Hdata. reflexivity.
  - apply Hcaller. apply Hfail. right. right. reflexivity.
Defined.
